(** * BlendNet REST client engine ([BlendNet/Client.py])

    A shallow embedding of [ClientEngine]: the trust bootstrap
    ([_initSSL], [_getCA]), the request builder ([_request]), the retry
    executor ([_requestExecute]), the two single-attempt executors
    ([_requestExecuteRun], [_requestDownloadRun]) and the four operations
    ([get], [delete], [put], [download]).

    Python objects the engine mutates (the engine's fields, the file
    system, the console, the clock) live in one explicit state that every
    method threads; exceptions are the [Raise] outcome of a small
    state-and-exception monad. *)

From Stdlib Require Import ZArith List Bool Lia.
From Stdlib.Strings Require Import String Ascii Byte.
From Stdlib Require Import DecimalString.
From stdpp Require Import base option list strings gmap.

Import ListNotations.
Open Scope string_scope.
Open Scope list_scope.
Open Scope Z_scope.

(** Python [bytes]. *)
Abbreviation bytes := (list byte).

Definition Z_of_byte (b : byte) : Z := Z.of_N (Byte.to_N b).

Definition byte_of_Z (z : Z) : byte :=
  match Byte.of_N (Z.to_N (z mod 256)) with
  | Some b => b
  | None => x00
  end.

(** ** [hashlib.sha1] (FIPS 180-4), on 32-bit words held in [Z] *)
Module Sha1.

Definition mask32 : Z := 0xFFFFFFFF.
Definition w32 (z : Z) : Z := Z.land z mask32.
Definition add32 (x y : Z) : Z := w32 (x + y).
Definition not32 (x : Z) : Z := Z.lxor (w32 x) mask32.
Definition rotl (n x : Z) : Z :=
  w32 (Z.lor (Z.shiftl x n) (Z.shiftr (w32 x) (32 - n))).

(** Big-endian encoding of [z] on [n] bytes. *)
Fixpoint be_bytes (n : nat) (z : Z) : bytes :=
  match n with
  | O => []
  | S n' => be_bytes n' (Z.shiftr z 8) ++ [byte_of_Z z]
  end.

Definition be_word (bs : bytes) : Z :=
  fold_left (fun acc b => Z.lor (Z.shiftl acc 8) (Z_of_byte b)) bs 0.

(** Message padding: [0x80], zeros up to 56 mod 64, the bit length on
    eight bytes. *)
Definition pad (msg : bytes) : bytes :=
  let len := Z.of_nat (List.length msg) in
  let zeros := Z.to_nat ((55 - len) mod 64) in
  msg ++ [x80] ++ repeat x00 zeros ++ be_bytes 8 (8 * len).

Fixpoint words (n : nat) (bs : bytes) : list Z :=
  match n with
  | O => []
  | S n' => be_word (firstn 4 bs) :: words n' (skipn 4 bs)
  end.

Fixpoint blocks (n : nat) (bs : bytes) : list (list Z) :=
  match n with
  | O => []
  | S n' => words 16 (firstn 64 bs) :: blocks n' (skipn 64 bs)
  end.

(** The message schedule, kept newest word first while it is built. *)
Fixpoint schedule (n : nat) (rev_ws : list Z) : list Z :=
  match n with
  | O => rev rev_ws
  | S n' =>
      let w := rotl 1 (Z.lxor (Z.lxor (nth 2 rev_ws 0) (nth 7 rev_ws 0))
                              (Z.lxor (nth 13 rev_ws 0) (nth 15 rev_ws 0))) in
      schedule n' (w :: rev_ws)
  end.

Record regs := Regs { ra : Z; rb : Z; rc : Z; rd : Z; re : Z }.

Definition round_f (t : nat) (b c d : Z) : Z :=
  if (t <? 20)%nat then Z.lor (Z.land b c) (Z.land (not32 b) d)
  else if (t <? 40)%nat then Z.lxor (Z.lxor b c) d
  else if (t <? 60)%nat then
    Z.lor (Z.lor (Z.land b c) (Z.land b d)) (Z.land c d)
  else Z.lxor (Z.lxor b c) d.

Definition round_k (t : nat) : Z :=
  if (t <? 20)%nat then 0x5A827999
  else if (t <? 40)%nat then 0x6ED9EBA1
  else if (t <? 60)%nat then 0x8F1BBCDC
  else 0xCA62C1D6.

Definition round (r : regs) (tw : nat * Z) : regs :=
  let '(t, w) := tw in
  let tmp := add32 (add32 (add32 (rotl 5 (ra r))
                                 (round_f t (rb r) (rc r) (rd r)))
                          (add32 (re r) (round_k t))) w in
  Regs tmp (ra r) (rotl 30 (rb r)) (rc r) (rd r).

Definition compress (h : regs) (blk : list Z) : regs :=
  let ws := schedule 64 (rev blk) in
  let r := fold_left round (combine (seq 0 80) ws) h in
  Regs (add32 (ra h) (ra r)) (add32 (rb h) (rb r)) (add32 (rc h) (rc r))
       (add32 (rd h) (rd r)) (add32 (re h) (re r)).

Definition init : regs :=
  Regs 0x67452301 0xEFCDAB89 0x98BADCFE 0x10325476 0xC3D2E1F0.

Definition digest (msg : bytes) : regs :=
  let p := pad msg in
  fold_left compress (blocks (List.length p / 64) p) init.

Definition hex_digit (z : Z) : ascii :=
  let d := Z.land z 15 in
  ascii_of_N (Z.to_N (if d <? 10 then 48 + d else 87 + d)).

Definition hex8 (w : Z) (k : string) : string :=
  String (hex_digit (Z.shiftr w 28)) (String (hex_digit (Z.shiftr w 24))
 (String (hex_digit (Z.shiftr w 20)) (String (hex_digit (Z.shiftr w 16))
 (String (hex_digit (Z.shiftr w 12)) (String (hex_digit (Z.shiftr w 8))
 (String (hex_digit (Z.shiftr w 4)) (String (hex_digit w) k))))))).

(** [hashlib.sha1(msg).hexdigest()]: forty lower-case hex digits. *)
Definition hexdigest (msg : bytes) : string :=
  let r := digest msg in
  hex8 (ra r) (hex8 (rb r) (hex8 (rc r) (hex8 (rd r) (hex8 (re r) EmptyString)))).

End Sha1.

(** ** [base64.b64encode] *)
Module Base64.

Definition alphabet : string :=
  "ABCDEFGHIJKLMNOPQRSTUVWXYZabcdefghijklmnopqrstuvwxyz0123456789+/".

Definition sextet (z : Z) : ascii :=
  match String.get (Z.to_nat (Z.land z 63)) alphabet with
  | Some c => c
  | None => "="%char
  end.

Fixpoint b64encode (bs : bytes) : string :=
  match bs with
  | [] => EmptyString
  | [a] =>
      let n := Z.shiftl (Z_of_byte a) 16 in
      String (sextet (Z.shiftr n 18)) (String (sextet (Z.shiftr n 12)) "==")
  | [a; b] =>
      let n := Z.lor (Z.shiftl (Z_of_byte a) 16) (Z.shiftl (Z_of_byte b) 8) in
      String (sextet (Z.shiftr n 18)) (String (sextet (Z.shiftr n 12))
     (String (sextet (Z.shiftr n 6)) "="))
  | a :: b :: c :: rest =>
      let n := Z.lor (Z.lor (Z.shiftl (Z_of_byte a) 16)
                            (Z.shiftl (Z_of_byte b) 8)) (Z_of_byte c) in
      String (sextet (Z.shiftr n 18)) (String (sextet (Z.shiftr n 12))
     (String (sextet (Z.shiftr n 6)) (String (sextet n) (b64encode rest))))
  end.

End Base64.

(** ** Python values and built-ins the engine relies on *)
Module Py.

#[local] Unset Elimination Schemes.

(** A decoded JSON document, as [json.load] returns it. *)
Inductive Json :=
| JNull
| JBool (b : bool)
| JNum (z : Z)
| JStr (s : string)
| JArr (l : list Json)
| JObj (d : list (string * Json)).

(** The values an engine call hands back or prints. *)
Inductive Val :=
| VNone
| VBool (b : bool)
| VInt (z : Z)
| VStr (s : string)
| VBytes (b : bytes)
| VList (l : list Val)
| VDict (d : list (string * Val))
| VTuple (l : list Val)
| VClass (name : string).

#[local] Set Elimination Schemes.

Fixpoint of_json (j : Json) : Val :=
  match j with
  | JNull => VNone
  | JBool b => VBool b
  | JNum z => VInt z
  | JStr s => VStr s
  | JArr l => VList (List.map of_json l)
  | JObj d => VDict (List.map (fun kv => (fst kv, of_json (snd kv))) d)
  end.

(** Truth value testing ([bool(v)]). *)
Definition truthy (v : Val) : bool :=
  match v with
  | VNone => false
  | VBool b => b
  | VInt z => negb (z =? 0)
  | VStr s => negb (String.eqb s EmptyString)
  | VBytes b => match b with [] => false | _ => true end
  | VList l | VTuple l => match l with [] => false | _ => true end
  | VDict d => match d with [] => false | _ => true end
  | VClass _ => true
  end.

Definition truthy_str (o : option string) : bool :=
  match o with
  | Some s => negb (String.eqb s EmptyString)
  | None => false
  end.

Definition truthy_bytes (o : option bytes) : bool :=
  match o with
  | Some (_ :: _) => true
  | _ => false
  end.

Fixpoint assoc {A} (k : string) (d : list (string * A)) : option A :=
  match d with
  | [] => None
  | (k', v) :: d' => if String.eqb k k' then Some v else assoc k d'
  end.

(** [needle in hay] on [str]. *)
Fixpoint contains (needle hay : string) : bool :=
  String.prefix needle hay
  || match hay with
     | EmptyString => false
     | String _ hay' => contains needle hay'
     end.

Definition lower_ascii (c : ascii) : ascii :=
  let n := N_of_ascii c in
  if ((65 <=? n) && (n <=? 90))%N then ascii_of_N (n + 32) else c.

Fixpoint lower (s : string) : string :=
  match s with
  | EmptyString => EmptyString
  | String c s' => String (lower_ascii c) (lower s')
  end.

(** [str(n)] for an [int] of at most 4300 decimal digits, the
    interpreter's limit on conversions between [int] and [str]:
    the text of a port number or of a byte count. A longer number is
    outside what this function describes ([str] raises [ValueError]
    there). *)
Definition str_int (z : Z) : string :=
  DecimalString.NilZero.string_of_int (Z.to_int z).

(** *** [int(s)] on a [str] of Latin-1 characters (a header value):
    optional blanks, an optional sign, decimal digits with single
    underscores between them, and no more than 4300 digits (leading
    zeros count, underscores do not); anything else is a
    [ValueError], here [None]. *)
Definition is_space (c : ascii) : bool :=
  let n := N_of_ascii c in
  (((9 <=? n) && (n <=? 13)) || (n =? 32) || (n =? 133) || (n =? 160))%N.

Definition digit_of (c : ascii) : option Z :=
  let n := N_of_ascii c in
  if ((48 <=? n) && (n <=? 57))%N then Some (Z.of_N n - 48) else None.

Fixpoint only_spaces (s : string) : bool :=
  match s with
  | EmptyString => true
  | String c s' => is_space c && only_spaces s'
  end.

Fixpoint int_digits (s : string) (acc : Z) (after_digit : bool) : option Z :=
  match s with
  | EmptyString => if after_digit then Some acc else None
  | String c s' =>
      match digit_of c with
      | Some d => int_digits s' (10 * acc + d) true
      | None =>
          if Ascii.eqb c "_" then
            if after_digit then int_digits s' acc false else None
          else if is_space c && after_digit && only_spaces s' then Some acc
          else None
      end
  end.

Definition int_signed (s : string) : option Z :=
  match s with
  | String "-" s' => Z.opp <$> int_digits s' 0 false
  | String "+" s' => int_digits s' 0 false
  | _ => int_digits s 0 false
  end.

Fixpoint int_text (s : string) : option Z :=
  match s with
  | EmptyString => None
  | String c s' => if is_space c then int_text s' else int_signed s
  end.

Definition max_str_digits : Z := 4300.

Fixpoint digit_count (s : string) : Z :=
  match s with
  | EmptyString => 0
  | String c s' =>
      match digit_of c with
      | Some _ => 1 + digit_count s'
      | None => digit_count s'
      end
  end.

Definition int (s : string) : option Z :=
  if max_str_digits <? digit_count s then None else int_text s.

(** *** [fmt % arg]: the operand is a tuple of arguments or one value;
    the result only exists when the format has as many conversion
    specifiers as there are arguments (else [TypeError]). The text is
    kept as the format and its arguments. *)
Fixpoint specifiers (fmt : string) : nat :=
  match fmt with
  | EmptyString => O
  | String "%" (String c rest) =>
      if Ascii.eqb c "%" then specifiers rest else S (specifiers rest)
  | String _ rest => specifiers rest
  end.

Definition operands (arg : Val) : list Val :=
  match arg with
  | VTuple l => l
  | v => [v]
  end.

Definition percent (fmt : string) (arg : Val) : option (string * list Val) :=
  if (specifiers fmt =? List.length (operands arg))%nat
  then Some (fmt, operands arg) else None.

End Py.

(** ** [urllib.request.Request(url)]: the URL a request keeps *)
Module Urllib.

(** [str.isspace] on a Latin-1 character. *)
Definition is_blank (c : ascii) : bool :=
  let n := N_of_ascii c in
  (((9 <=? n) && (n <=? 13)) || ((28 <=? n) && (n <=? 32))
   || (n =? 133) || (n =? 160))%N.

Fixpoint lstrip (s : string) : string :=
  match s with
  | EmptyString => EmptyString
  | String c s' => if is_blank c then lstrip s' else s
  end.

Fixpoint rstrip (s : string) : string :=
  match s with
  | EmptyString => EmptyString
  | String c s' =>
      match rstrip s' with
      | EmptyString => if is_blank c then EmptyString else String c EmptyString
      | r => String c r
      end
  end.

(** [s.strip()]. *)
Definition strip (s : string) : string := rstrip (lstrip s).

(** [s[-1:] == c] and [s[:-1]]. *)
Fixpoint ends_with (c : ascii) (s : string) : bool :=
  match s with
  | EmptyString => false
  | String a EmptyString => Ascii.eqb a c
  | String _ s' => ends_with c s'
  end.

Fixpoint drop_last (s : string) : string :=
  match s with
  | EmptyString => EmptyString
  | String _ EmptyString => EmptyString
  | String a s' => String a (drop_last s')
  end.

(** [urllib.parse.unwrap]: blanks at both ends go, then the brackets
    of [<...>], then a leading [URL:]. *)
Definition unwrap (url : string) : string :=
  let url := strip url in
  let url := match url with
             | String "<" rest =>
                 if ends_with ">" url then strip (drop_last rest) else url
             | _ => url
             end in
  match url with
  | String "U" (String "R" (String "L" (String ":" rest))) => strip rest
  | _ => url
  end.

(** [s.rpartition('#')] when there is a ['#']: what stands before the
    last one and what stands after it. *)
Fixpoint rpartition (s : string) : option (string * string) :=
  match s with
  | EmptyString => None
  | String c s' =>
      match rpartition s' with
      | Some (p, t) => Some (String c p, t)
      | None => if Ascii.eqb c "#" then Some (EmptyString, s') else None
      end
  end.

(** [urllib.parse._splittag]. *)
Definition splittag (url : string) : string * option string :=
  match rpartition url with
  | Some (path, tag) => (path, Some tag)
  | None => (url, None)
  end.

(** The [full_url] of [Request(url)]: the setter unwraps the URL and
    splits the fragment off, the getter puts a fragment back when it
    is not empty. What follows the last ['#'] is the fragment;
    [urlopen] does not send it. *)
Definition full_url (url : string) : string :=
  let (u, fragment) := splittag (unwrap url) in
  match fragment with
  | Some (String c t) => u +:+ "#" +:+ String c t
  | _ => u
  end.

End Urllib.

(** ** Data model *)

(** What the retry executor inspects of a [URLError.reason]: its text
    ([str(e.reason)]) and whether it is a [BrokenPipeError]. *)
Record Reason := { reason_str : string; reason_is_BrokenPipeError : bool }.

(** Exceptions, by the classes the [except] clauses of [_requestExecute]
    tell apart. [HTTPError code reason body] is an [HTTPError] whose
    [getcode()] is the number [code] and whose [read(1024)] returns the
    first bytes of [body]; [HTTPErrorBroken cls] is an [HTTPError] the
    warning about which cannot be put together: inside the [except]
    clause [e.read(1024)] raises, or [e.getcode()] is not a number for
    [%d], and [cls] is the class of the exception raised there. *)
Inductive Exn :=
| HTTPError (code : Z) (reason : string) (body : bytes)
| HTTPErrorBroken (cls : string)
| URLError (reason : Reason)
| OtherError (cls : string).

Inductive Outcome (A : Type) :=
| Ret (a : A)
| Raise (e : Exn).
Arguments Ret {A} a.
Arguments Raise {A} e.

(** [ssl.SSLContext(ssl.PROTOCOL_TLS_CLIENT)]: certificate verification
    is required; [ctx_cadata] lists the CA bundles loaded so far. *)
Record SSLContext := {
  ctx_id : nat;
  verify_required : bool;
  check_hostname : bool;
  ctx_cadata : list bytes
}.

Definition new_context (id : nat) : SSLContext :=
  {| ctx_id := id; verify_required := true; check_hostname := true;
     ctx_cadata := [] |}.

Definition set_check_hostname (b : bool) (ctx : SSLContext) : SSLContext :=
  {| ctx_id := ctx_id ctx; verify_required := verify_required ctx;
     check_hostname := b; ctx_cadata := ctx_cadata ctx |}.

Definition add_cadata (ca : bytes) (ctx : SSLContext) : SSLContext :=
  {| ctx_id := ctx_id ctx; verify_required := verify_required ctx;
     check_hostname := check_hostname ctx; ctx_cadata := ca :: ctx_cadata ctx |}.

Record Cfg := {
  bucket : string;
  listen_port : Z;
  auth_user : string;
  auth_password : string
}.

Record ClientEngine := {
  _address : string;
  _cfg : Cfg;
  _context : SSLContext;
  _ca : option bytes
}.

(** A readable body: [s_data] is what is still to come; [s_abort], when
    set, is raised by a read that asks for more than is left (the
    connection broke before the end of the body). *)
Record Stream := { s_data : bytes; s_abort : option Exn }.

(** The callback form of a download target: [(stream, size, sha1)]. *)
Definition OutFunc : Type := Stream -> Z -> string -> Outcome Py.Val.

(** [urllib.request.Request], with the two attributes [download] adds.
    [data] is the stream handed to [put]; a stream object is always true
    when tested. *)
Record Request := {
  full_url : string;
  data : option bytes;
  method : string;
  headers : gmap string string;
  _out_func : option OutFunc;
  _out_path : option string
}.

Definition add_header (key val : string) (req : Request) : Request :=
  {| full_url := full_url req; data := data req; method := method req;
     headers := <[key := val]> (headers req);
     _out_func := _out_func req; _out_path := _out_path req |}.

Definition set_out_func (f : OutFunc) (req : Request) : Request :=
  {| full_url := full_url req; data := data req; method := method req;
     headers := headers req; _out_func := Some f; _out_path := _out_path req |}.

Definition set_out_path (p : string) (req : Request) : Request :=
  {| full_url := full_url req; data := data req; method := method req;
     headers := headers req; _out_func := _out_func req; _out_path := Some p |}.

(** The second argument of [download]. *)
Inductive Out :=
| OutCallable (f : OutFunc)
| OutStr (path : string)
| OutOther.

(** An HTTP response: its headers, its body, and what [json.load]
    decodes from the body ([None] when it raises). *)
Record Response := {
  resp_headers : list (string * string);
  resp_body : Stream;
  resp_json : option Py.Json
}.

(** [res.headers[name]]: case-insensitive, [None] when absent. *)
Fixpoint header_get (name : string) (hs : list (string * string)) : option string :=
  match hs with
  | [] => None
  | (k, v) :: hs' =>
      if String.eqb (Py.lower k) (Py.lower name) then Some v
      else header_get name hs'
  end.

(** [res.read(amt)] on a body that is not at its end: exactly [amt]
    bytes unless the body ends first; [-1] reads to the end; an amount
    below [-1] is refused by the buffered reader underneath with a
    [ValueError] (CPython 3.11). *)
Definition read (amt : Z) (s : Stream) : Outcome (bytes * Stream) :=
  if amt <? -1 then Raise (OtherError "ValueError")
  else if (0 <=? amt) && (Z.to_nat amt <=? List.length (s_data s))%nat then
    Ret (firstn (Z.to_nat amt) (s_data s),
         {| s_data := skipn (Z.to_nat amt) (s_data s); s_abort := s_abort s |})
  else
    match s_abort s with
    | Some e => Raise e
    | None => Ret (s_data s, {| s_data := []; s_abort := None |})
    end.

(** What the engine does to the world, newest first. *)
Inductive Event :=
| EvNewContext (id : nat)
| EvFetch (bucket key : string)
| EvLoadCA (id : nat) (ca : bytes)
| EvUrlopen (url method : string) (timeout : Z) (ctx : SSLContext)
| EvPrint (fmt : string) (args : list Py.Val)
| EvSleep (secs : Z)
| EvOpen (path : string)
| EvWrite (path : string) (chunk : bytes)
| EvRemove (path : string).

Definition is_urlopen (e : Event) : bool :=
  match e with EvUrlopen _ _ _ _ => true | _ => false end.
Definition is_fetch (e : Event) : bool :=
  match e with EvFetch _ _ => true | _ => false end.
Definition is_new_context (e : Event) : bool :=
  match e with EvNewContext _ => true | _ => false end.
Definition is_sleep (e : Event) : bool :=
  match e with EvSleep _ => true | _ => false end.
Definition is_write (e : Event) : bool :=
  match e with EvWrite _ _ => true | _ => false end.

Definition count (p : Event -> bool) (tr : list Event) : nat :=
  List.length (List.filter p tr).

(** Bytes written to [path] by the events of [tr]. *)
Fixpoint written (path : string) (tr : list Event) : nat :=
  match tr with
  | [] => O
  | EvWrite p chunk :: tr' =>
      ((if String.eqb p path then List.length chunk else O) + written path tr')%nat
  | _ :: tr' => written path tr'
  end.

(** The engine object, the file system and the trace of effects. *)
Record State := {
  engine : ClientEngine;
  fs : gmap string bytes;
  trace : list Event
}.

(** ** The monad: state and exceptions *)
Definition M (A : Type) : Type := State -> Outcome A * State.

Definition ret {A} (a : A) : M A := fun st => (Ret a, st).
Definition raise {A} (e : Exn) : M A := fun st => (Raise e, st).
Definition bind {A B} (m : M A) (k : A -> M B) : M B :=
  fun st =>
    match m st with
    | (Ret a, st') => k a st'
    | (Raise e, st') => (Raise e, st')
    end.

Notation "x <- m ;; k" := (bind m (fun x => k))
  (at level 100, m at next level, right associativity).
Notation "m ;;; k" := (bind m (fun _ => k))
  (at level 100, right associativity).

(** [try: m  except: h]. *)
Definition try_except {A} (m : M A) (h : Exn -> M A) : M A :=
  fun st =>
    match m st with
    | (Ret a, st') => (Ret a, st')
    | (Raise e, st') => h e st'
    end.

Definition lift {A} (o : Outcome A) : M A := fun st => (o, st).

Definition self : M ClientEngine := fun st => (Ret (engine st), st).

(** The state after one more effect. *)
Definition log (e : Event) (st : State) : State :=
  {| engine := engine st; fs := fs st; trace := e :: trace st |}.

Definition emit (e : Event) : M unit := fun st => (Ret tt, log e st).

Definition set_engine (e : ClientEngine) : M unit :=
  fun st => (Ret tt, {| engine := e; fs := fs st; trace := trace st |}).

(** [print(text)] and [print(fmt % arg)]. *)
Definition print (text : string) : M unit := emit (EvPrint text []).

Definition print_fmt (fmt : string) (arg : Py.Val) : M unit :=
  match Py.percent fmt arg with
  | Some (f, args) => emit (EvPrint f args)
  | None => raise (OtherError "TypeError")
  end.

Definition sleep (secs : Z) : M unit := emit (EvSleep secs).

(** A double quote, for the messages that quote the URL. *)
Definition dq : string := String "034"%char EmptyString.

(** The texts and formats the engine prints. *)
Definition msg_get_ca : string :=
  "DEBUG: Trying to get CA certificate from the bucket".
Definition msg_http : string :=
  Eval cbv in "WARN: Communication issue with request to " +:+ dq +:+ "%s"
              +:+ dq +:+ ": HTTP %d %s: %s".
Definition msg_reinit : string :=
  "WARN: Seems like wrong (or old) CA is loaded, reinit SSL context and repeat.".
Definition msg_network : string :=
  Eval cbv in "WARN: Communication issue with request to " +:+ dq +:+ "%s"
              +:+ dq +:+ ": %s".
Definition msg_exception : string :=
  Eval cbv in "ERROR: Communication exception - check the remote service for errors "
              +:+ dq +:+ "%s" +:+ dq +:+ ": %s".
Definition msg_retry : string :=
  Eval cbv in "INFO: Retry request " +:+ dq +:+ "%s" +:+ dq +:+ " in 1 sec".
Definition msg_api : string :=
  Eval cbv in "ERROR: Execution issue from API for " +:+ dq +:+ "%s" +:+ dq
              +:+ ": %s".
Definition msg_headers : string :=
  "ERROR: Unable to download stream without Content-Length and X-Checksum-Sha1 headers".

(** ** The file system: [open(path, 'wb')], [f.write], [os.remove] *)

(** Where the three calls can fail. [fs] holds the regular files;
    [Disk] says what the machine refuses. [dir_error path] is the
    exception, if any, raised when the entry [path] is created or
    removed in its directory: the directory is missing or may not be
    modified, or [path] is no name for a file (the empty string, a
    directory); an entry the process may create it may also remove.
    [file_error path] is the exception, if any, raised when the file
    that exists at [path] is opened for writing. [absent_error path] is
    the class [os.remove] raises when no file is at [path]
    ([FileNotFoundError]; [IsADirectoryError] for a directory).
    [write_error n path chunk] is what the [n]-th write does when it
    fails: the exception class, and how many bytes of [chunk] reached
    the file before. *)
Record Disk := {
  dir_error : string -> option string;
  file_error : string -> option string;
  absent_error : string -> string;
  write_error : nat -> string -> bytes -> option (string * nat)
}.

Definition fs_open (disk : Disk) (path : string) : M unit :=
  fun st =>
    match (match fs st !! path with
           | Some _ => file_error disk path
           | None => dir_error disk path
           end) with
    | Some cls => (Raise (OtherError cls), st)
    | None =>
        (Ret tt, {| engine := engine st; fs := <[path := []]> (fs st);
                    trace := EvOpen path :: trace st |})
    end.

Definition fs_write (disk : Disk) (path : string) (chunk : bytes) : M unit :=
  fun st =>
    match write_error disk (count is_write (trace st)) path chunk with
    | Some (cls, k) =>
        (Raise (OtherError cls),
         {| engine := engine st;
            fs := alter (fun old => old ++ firstn k chunk) path (fs st);
            trace := EvWrite path (firstn k chunk) :: trace st |})
    | None =>
        (Ret tt, {| engine := engine st;
                    fs := alter (fun old => old ++ chunk) path (fs st);
                    trace := EvWrite path chunk :: trace st |})
    end.

Definition os_remove (disk : Disk) (path : string) : M unit :=
  fun st =>
    match fs st !! path with
    | Some _ =>
        match dir_error disk path with
        | Some cls => (Raise (OtherError cls), st)
        | None =>
            (Ret tt, {| engine := engine st; fs := delete path (fs st);
                        trace := EvRemove path :: trace st |})
        end
    | None => (Raise (OtherError (absent_error disk path)), st)
    end.

Definition chunk_limit : Z := 1048576.

(** The body of [for chunk in iter(lambda: res.read(min(1048576,
    size_left)), b'')]: [sha1_calc] holds the bytes fed to the digest so
    far. Each round consumes at least one byte of [res], so
    [S (length (s_data res))] rounds are always enough. *)
Fixpoint download_chunks (disk : Disk) (fuel : nat) (path : string)
    (size_left : Z) (res : Stream) (sha1_calc : bytes) : M bytes :=
  match fuel with
  | O => ret sha1_calc
  | S fuel' =>
      r <- lift (read (Z.min chunk_limit size_left) res) ;;
      match r with
      | ([], _) => ret sha1_calc
      | (chunk, res') =>
          fs_write disk path chunk ;;;
          download_chunks disk fuel' path
                          (size_left - Z.of_nat (List.length chunk))
                          res' (sha1_calc ++ chunk)
      end
  end.

Definition incorrect_sha1 : Exn :=
  URLError {| reason_str := "Incorrect sha1 signature";
              reason_is_BrokenPipeError := false |}.

Definition certificate_verify_failed (r : Reason) : bool :=
  Py.contains "CERTIFICATE_VERIFY_FAILED" (reason_str r).

(** ** Notions the statements below use *)

(** The chunks of one transfer, oldest first, respect the running cap:
    each is at most [min(1048576, size_left)] long, [size_left] being
    what remains of the declared size when it is read. *)
Fixpoint capped (size_left : Z) (cs : list bytes) : Prop :=
  match cs with
  | [] => True
  | c :: cs' =>
      Z.of_nat (List.length c) <= Z.min chunk_limit size_left
      /\ capped (size_left - Z.of_nat (List.length c)) cs'
  end.

(** The chunks written by the events of a trace, newest first. *)
Fixpoint writes_of (tr : list Event) : list bytes :=
  match tr with
  | [] => []
  | EvWrite _ c :: tr' => c :: writes_of tr'
  | _ :: tr' => writes_of tr'
  end.

(** What a transfer with declared size [size] takes from a body that
    arrives whole. *)
Definition received (size : Z) (body : bytes) : bytes :=
  if 0 <=? size then firstn (Z.to_nat size) body else body.

(** The declared bytes arrive: the connection holds to the end of the
    body, or at least until [size] bytes are in. *)
Definition arrives (res : Stream) (size : Z) : Prop :=
  s_abort res = None \/ 0 <= size <= Z.of_nat (List.length (s_data res)).

(** The four ways a [read] can go. *)
Inductive read_case (amt : Z) (s : Stream) : Outcome (bytes * Stream) -> Prop :=
| read_refused :
    amt < -1 ->
    read_case amt s (Raise (OtherError "ValueError"))
| read_exact :
    0 <= amt -> (Z.to_nat amt <= List.length (s_data s))%nat ->
    read_case amt s
      (Ret (firstn (Z.to_nat amt) (s_data s),
            {| s_data := skipn (Z.to_nat amt) (s_data s); s_abort := s_abort s |}))
| read_abort e :
    -1 <= amt ->
    amt < 0 \/ (List.length (s_data s) < Z.to_nat amt)%nat ->
    s_abort s = Some e ->
    read_case amt s (Raise e)
| read_rest :
    -1 <= amt ->
    amt < 0 \/ (List.length (s_data s) < Z.to_nat amt)%nat ->
    s_abort s = None ->
    read_case amt s (Ret (s_data s, {| s_data := []; s_abort := None |})).

(** Requests sent, bundles fetched, TLS contexts built and sleeps taken
    so far. *)
Definition attempts (st : State) : nat := count is_urlopen (trace st).
Definition fetches (st : State) : nat := count is_fetch (trace st).
Definition resets (st : State) : nat := count is_new_context (trace st).
Definition sleeps (st : State) : nat := count is_sleep (trace st).

(** Effects that stay on the local machine. *)
Definition local_effect (e : Event) : bool :=
  match e with
  | EvPrint _ _ | EvOpen _ | EvWrite _ _ | EvRemove _ => true
  | _ => false
  end.

(** The timeout [_requestExecuteRun] passes to [urlopen]. *)
Definition timeout_of (req : Request) : Z :=
  if bool_decide (is_Some (data req)) then 3 else 10.

(** The state right after [urlopen] was called with [timeout]. *)
Definition requested (req : Request) (timeout : Z) (st : State) : State :=
  log (EvUrlopen (full_url req) (method req) timeout (_context (engine st))) st.

(** An executor that sends exactly one request and otherwise only acts
    on the local machine, leaving the engine as it is. *)
Definition single_request (run_func : Request -> M Py.Val) : Prop :=
  forall req st, exists evs timeout,
    trace (snd (run_func req st)) = evs ++ trace (requested req timeout st)
    /\ forallb local_effect evs = true
    /\ engine (snd (run_func req st)) = engine st.

(** The failures after which [_requestExecute] goes on to the next
    round: an HTTP error status, a certificate verification failure. *)
Definition retryable (o : Outcome Response) : Prop :=
  match o with
  | Raise (HTTPError _ _ _) => True
  | Raise (URLError r) => certificate_verify_failed r = true
  | _ => False
  end.

(** The state in which the next round of [_requestExecute] starts after
    a round that fell through: the retry message, the sleep. *)
Definition retrying (req : Request) (st : State) : State :=
  log (EvSleep 1) (log (EvPrint msg_retry [Py.VStr (full_url req)]) st).

(** The state of a file transfer of chunks [cs] to [path], started in
    [st], once the body is consumed, and once the file is removed. *)
Definition transferred (req : Request) (path : string) (cs : list bytes)
    (st : State) : State :=
  {| engine := engine st;
     fs := <[path := concat cs]> (fs st);
     trace := List.map (EvWrite path) (rev cs) ++ EvOpen path
              :: trace (requested req 3 st) |}.

Definition cleaned_up (req : Request) (path : string) (cs : list bytes)
    (st : State) : State :=
  {| engine := engine st;
     fs := base.delete path (fs st);
     trace := EvRemove path :: trace (transferred req path cs st) |}.

(** [open(path, 'wb')] succeeds in [st]: the file that is there may be
    written, or none is there and one may be created. *)
Definition can_open (disk : Disk) (path : string) (st : State) : Prop :=
  match fs st !! path with
  | Some _ => file_error disk path
  | None => dir_error disk path
  end = None.

(** No write to [path] fails. *)
Definition can_write (disk : Disk) (path : string) : Prop :=
  forall n chunk, write_error disk n path chunk = None.

(** The state of a transfer whose [open] failed on a file that the
    cleanup then removed. *)
Definition removed_unopened (req : Request) (path : string) (st : State) : State :=
  {| engine := engine st;
     fs := base.delete path (fs st);
     trace := EvRemove path :: trace (requested req 3 st) |}.

(** ** Sample data: an engine, environments, responses *)
Module Sample.

Definition cfg : Cfg :=
  {| bucket := "blendnet-bucket"; listen_port := 8443;
     auth_user := "user"; auth_password := "pass" |}.

Definition old_ca : bytes := list_byte_of_string "CA-OLD".
Definition new_ca : bytes := list_byte_of_string "CA-NEW".

(** An engine just constructed: no bundle yet. *)
Definition fresh : State :=
  {| engine := {| _address := "10.0.0.5"; _cfg := cfg;
                  _context := {| ctx_id := 0; verify_required := true;
                                 check_hostname := false; ctx_cadata := [] |};
                  _ca := None |};
     fs := ∅;
     trace := [EvNewContext 0] |}.

(** An engine that has fetched and installed [ca]. *)
Definition trusting (ca : bytes) : State :=
  {| engine := {| _address := "10.0.0.5"; _cfg := cfg;
                  _context := {| ctx_id := 0; verify_required := true;
                                 check_hostname := false; ctx_cadata := [ca] |};
                  _ca := Some ca |};
     fs := ∅;
     trace := [EvLoadCA 0 ca; EvFetch "blendnet-bucket" "ca.crt";
               EvPrint msg_get_ca []; EvNewContext 0] |}.

Definition empty_bucket : nat -> string -> string -> option bytes :=
  fun _ _ _ => None.
Definition bucket_with (ca : bytes) : nat -> string -> string -> option bytes :=
  fun _ _ _ => Some ca.
Definition any_cadata : bytes -> option string := fun _ => None.
Definition any_partial : bytes -> bytes := fun _ => [].

(** A file system that refuses nothing. *)
Definition cooperative : Disk :=
  {| dir_error := fun _ => None; file_error := fun _ => None;
     absent_error := fun _ => "FileNotFoundError";
     write_error := fun _ _ _ => None |}.

(** A file system whose directories take no change: the files in them
    may be written, none may be created or removed. *)
Definition locked_directories : Disk :=
  {| dir_error := fun _ => Some "PermissionError"; file_error := fun _ => None;
     absent_error := fun _ => "FileNotFoundError";
     write_error := fun _ _ _ => None |}.

(** [st] with a file at [path]. *)
Definition with_file (path : string) (content : bytes) (st : State) : State :=
  {| engine := engine st; fs := <[path := content]> (fs st); trace := trace st |}.

Definition request (url method : string) (body : option bytes)
    (path : option string) : Request :=
  {| full_url := url; data := body; method := method; headers := ∅;
     _out_func := None; _out_path := path |}.

Definition json_response (j : Py.Json) : Response :=
  {| resp_headers := [("Content-Type", "application/json")];
     resp_body := {| s_data := []; s_abort := None |};
     resp_json := Some j |}.

Definition file_response (hs : list (string * string)) (body : bytes) : Response :=
  {| resp_headers := hs;
     resp_body := {| s_data := body; s_abort := None |};
     resp_json := None |}.

(** A network that answers every request the same way. *)
Definition always (o : Outcome Response)
  : nat -> Request -> Z -> SSLContext -> Outcome Response :=
  fun _ _ _ _ => o.

(** A network that fails the first request with [e] and answers [r]
    afterwards. *)
Definition first_fails (e : Exn) (r : Response)
  : nat -> Request -> Z -> SSLContext -> Outcome Response :=
  fun n _ _ _ => match n with O => Raise e | S _ => Ret r end.

Definition cert_failure : Exn :=
  URLError {| reason_str := "[SSL: CERTIFICATE_VERIFY_FAILED] certificate verify failed: unable to get local issuer certificate (_ssl.c:1007)";
              reason_is_BrokenPipeError := false |}.

Definition broken_pipe : Exn :=
  URLError {| reason_str := "[Errno 32] Broken pipe";
              reason_is_BrokenPipeError := true |}.

Definition timed_out : Exn :=
  URLError {| reason_str := "timed out"; reason_is_BrokenPipeError := false |}.

(** A Manager whose certificate is signed by [ca]: the handshake
    succeeds only in a context that verifies against [ca]. *)
Definition manager (ca : bytes) (r : Response)
  : nat -> Request -> Z -> SSLContext -> Outcome Response :=
  fun _ _ _ ctx =>
    if existsb (fun c => bool_decide (List.map Byte.to_N c = List.map Byte.to_N ca))
               (ctx_cadata ctx)
    then Ret r else Raise cert_failure.

Definition status_url : string := "https://10.0.0.5:8443/api/v1/status".
Definition result_url : string :=
  "https://10.0.0.5:8443/api/v1/task/t/status/result/render".

(** A download answered with [body] under the given declared length
    and checksum. *)
Definition download_of (len sha1 : string) (body : bytes) : Response :=
  file_response [("Content-Length", len); ("X-Checksum-Sha1", sha1)] body.

Definition hello : bytes := list_byte_of_string "hello".
Definition jello : bytes := list_byte_of_string "jello".
Definition sha1_hello : string := "aaf4c61ddcc5e8a2dabede0f3b482cd9aea9434d".

Definition refused : Py.Json :=
  Py.JObj [("success", Py.JBool false); ("message", Py.JStr "no such task")].
Definition accepted : Py.Json :=
  Py.JObj [("success", Py.JBool true); ("data", Py.JStr "ok")].

End Sample.

(** ** Further notions: trust, endpoint, what a call sends *)

(** The TLS mode the engine sets up: the chain is verified, the host
    name is not. *)
Definition tls_mode (e : ClientEngine) : Prop :=
  verify_required (_context e) = true /\ check_hostname (_context e) = false.

(** [e'] talks to the same Manager as [e], with the same configuration,
    and is in the engine's TLS mode if [e] is. *)
Definition keeps (e e' : ClientEngine) : Prop :=
  _address e' = _address e /\ _cfg e' = _cfg e /\ (tls_mode e -> tls_mode e').

(** A bundle is cached. *)
Definition trusted (st : State) : Prop :=
  Py.truthy_bytes (_ca (engine st)) = true.

(** The URL [_request] builds for [path] and hands to [Request]. *)
Definition url_of (e : ClientEngine) (path : string) : string :=
  "https://" +:+ _address e +:+ ":" +:+ Py.str_int (listen_port (_cfg e))
  +:+ "/api/v1/" +:+ path.

Definition credentials (e : ClientEngine) : string :=
  auth_user (_cfg e) +:+ ":" +:+ auth_password (_cfg e).

(** The headers [_request] puts on a request. *)
Definition auth_headers (e : ClientEngine) : gmap string string :=
  if String.eqb (credentials e) ":" then ∅
  else {[ "Authorization" :=
            "Basic " +:+ Base64.b64encode (list_byte_of_string (credentials e)) ]}.

(** The [full_url] of the request [_request] builds for [path]: the
    URL as [Request] keeps it. It is the URL itself unless that ends in
    a blank or in a ['#']. *)
Definition request_url (e : ClientEngine) (path : string) : string :=
  Urllib.full_url (url_of e path).

(** [s] ends in a character that is neither a blank nor ['#']. *)
Fixpoint plain_end (s : string) : bool :=
  match s with
  | EmptyString => false
  | String c EmptyString => negb (Urllib.is_blank c) && negb (Ascii.eqb c "#")
  | String _ s' => plain_end s'
  end.

(** The request [_request] returns. *)
Definition built (e : ClientEngine) (path : string) (body : option bytes)
    (verb : string) : Request :=
  {| full_url := request_url e path; data := body; method := verb;
     headers := auth_headers e; _out_func := None; _out_path := None |}.

(** The state after the bucket was asked and answered [ca], and after
    [ca] was then loaded into the context. *)
Definition fetched (ca : option bytes) (st : State) : State :=
  {| engine := {| _address := _address (engine st); _cfg := _cfg (engine st);
                  _context := _context (engine st); _ca := ca |};
     fs := fs st;
     trace := EvFetch (bucket (_cfg (engine st))) "ca.crt"
              :: EvPrint msg_get_ca [] :: trace st |}.

Definition installed (ca : bytes) (st : State) : State :=
  {| engine := {| _address := _address (engine st); _cfg := _cfg (engine st);
                  _context := add_cadata ca (_context (engine st));
                  _ca := Some ca |};
     fs := fs st;
     trace := EvLoadCA (ctx_id (_context (engine st))) ca
              :: trace (fetched (Some ca) st) |}.

(** The state after [ca] was fetched and cached and its load failed,
    the context having taken in [loaded] of it before. *)
Definition half_installed (loaded ca : bytes) (st : State) : State :=
  match loaded with
  | [] => fetched (Some ca) st
  | _ =>
      {| engine := {| _address := _address (engine st); _cfg := _cfg (engine st);
                      _context := add_cadata loaded (_context (engine st));
                      _ca := Some ca |};
         fs := fs st;
         trace := EvLoadCA (ctx_id (_context (engine st))) loaded
                  :: trace (fetched (Some ca) st) |}
  end.

(** Every request among the events [evs] was made with a [Request]
    whose [full_url] is [url], with [verb] and [timeout]. *)
Definition sent_as (url verb : string) (timeout : Z) (evs : list Event) : Prop :=
  Forall (fun e => is_urlopen e = true ->
                   exists ctx, e = EvUrlopen url verb timeout ctx) evs.

(** An executor that sends its request once, with [timeout], and
    otherwise acts on the local machine only. *)
Definition sends_with (timeout : Request -> Z) (run_func : Request -> M Py.Val) : Prop :=
  forall req st, exists evs,
    trace (snd (run_func req st)) = evs ++ trace (requested req (timeout req) st)
    /\ forallb local_effect evs = true
    /\ engine (snd (run_func req st)) = engine st.

(** Further sample data for the engine at concrete inputs. *)
Module Fixture.

(** An engine constructed without an address. *)
Definition no_address : State :=
  {| engine := {| _address := EmptyString; _cfg := Sample.cfg;
                  _context := {| ctx_id := 0; verify_required := true;
                                 check_hostname := false; ctx_cadata := [] |};
                  _ca := None |};
     fs := ∅;
     trace := [EvNewContext 0] |}.

(** The machine before any engine is constructed. *)
Definition blank : State :=
  {| engine := {| _address := EmptyString; _cfg := Sample.cfg;
                  _context := new_context O; _ca := None |};
     fs := ∅;
     trace := [] |}.

(** An [ssl] module that rejects every bundle, after it has taken in
    the first three bytes of it. *)
Definition unloadable : bytes -> option string := fun _ => Some "SSLError".
Definition kept : bytes -> bytes := firstn 3.

(** A network whose HTTP errors have a body that cannot be read. *)
Definition unreadable_errors
  : nat -> Request -> Z -> SSLContext -> Outcome Response :=
  fun _ _ _ _ => Raise (HTTPErrorBroken "IncompleteRead").

Definition unavailable : Exn :=
  HTTPError 503 "Service Unavailable" [].

(** A download callback that reads nothing and answers with the size
    it was given. *)
Definition size_of : OutFunc := fun _ size _ => Ret (Py.VInt size).

(** A serialiser that writes every configuration as the empty object. *)
Definition dumps : Py.Val -> string := fun _ => "{}".

Definition not_json : Response :=
  {| resp_headers := [("Content-Type", "text/html")];
     resp_body := {| s_data := []; s_abort := None |};
     resp_json := None |}.

End Fixture.
(** ** The engine *)
Section Engine.

(** The environment. [downloadDataFromBucket n] is what the [n]-th
    call of [providers.downloadDataFromBucket] returns: the [providers]
    module is an external collaborator, an object-storage read that
    yields the bytes of the object or nothing. [urlopen n] is what the
    [n]-th call of [urllib.request.urlopen] does, given the request,
    the timeout and the TLS context. [cadata_error ca] names the
    exception [ca.decode()] or [load_verify_locations] raises on a
    bundle, if any, and [cadata_partial ca] is then the part of the
    bundle the context has taken in all the same: the certificates
    that stand before the damaged one (nothing, when the first one is
    damaged or the bytes do not decode). [disk] is the file system
    the destination of a download lives in. *)
Variable downloadDataFromBucket : nat -> string -> string -> option bytes.
Variable urlopen : nat -> Request -> Z -> SSLContext -> Outcome Response.
Variable cadata_error : bytes -> option string.
Variable cadata_partial : bytes -> bytes.
Variable disk : Disk.

Definition _initSSL : M unit :=
  fun st =>
    let id := count is_new_context (trace st) in
    let ctx := set_check_hostname false (new_context id) in
    (Ret tt,
     {| engine := {| _address := _address (engine st); _cfg := _cfg (engine st);
                     _context := ctx; _ca := None |};
        fs := fs st;
        trace := EvNewContext id :: trace st |}).

(** [ClientEngine(address, cfg)]; the context and the bundle are
    placeholders until [_initSSL] assigns them. *)
Definition __init__ (address : string) (cfg : Cfg) : M unit :=
  set_engine {| _address := address; _cfg := cfg;
                _context := new_context O; _ca := None |} ;;;
  _initSSL.

Definition fetch_ca : M (option bytes) :=
  fun st =>
    let b := bucket (_cfg (engine st)) in
    (Ret (downloadDataFromBucket (count is_fetch (trace st)) b "ca.crt"),
     log (EvFetch b "ca.crt") st).

(** The context takes in [loaded]: nothing happens when that is
    empty. *)
Definition load_into_context (loaded : bytes) : M unit :=
  match loaded with
  | [] => ret tt
  | _ =>
      e <- self ;;
      let ctx := _context e in
      set_engine {| _address := _address e; _cfg := _cfg e;
                    _context := add_cadata loaded ctx; _ca := _ca e |} ;;;
      emit (EvLoadCA (ctx_id ctx) loaded)
  end.

(** [self._context.load_verify_locations(cadata=ca.decode())]: the
    certificates of the bundle are added one by one, so a failure
    leaves those read before it in the context. *)
Definition load_verify_locations (ca : bytes) : M unit :=
  match cadata_error ca with
  | Some cls => load_into_context (cadata_partial ca) ;;; raise (OtherError cls)
  | None =>
      e <- self ;;
      let ctx := _context e in
      set_engine {| _address := _address e; _cfg := _cfg e;
                    _context := add_cadata ca ctx; _ca := _ca e |} ;;;
      emit (EvLoadCA (ctx_id ctx) ca)
  end.

Definition _getCA : M bool :=
  e <- self ;;
  if Py.truthy_bytes (_ca e) then ret true
  else
    print msg_get_ca ;;;
    ca <- fetch_ca ;;
    set_engine {| _address := _address e; _cfg := _cfg e;
                  _context := _context e; _ca := ca |} ;;;
    match ca with
    | Some (b :: bs) => load_verify_locations (b :: bs) ;;; ret true
    | _ => ret false
    end.

Definition _request (path : string) (data : option bytes) (method : string)
  : M (option Request) :=
  ok <- _getCA ;;
  e <- self ;;
  if negb ok || negb (Py.truthy_str (Some (_address e))) then ret None
  else
    let url := "https://" +:+ _address e +:+ ":"
               +:+ Py.str_int (listen_port (_cfg e)) +:+ "/api/v1/" +:+ path in
    let req := {| full_url := Urllib.full_url url; data := data;
                  method := method; headers := ∅;
                  _out_func := None; _out_path := None |} in
    let creds := auth_user (_cfg e) +:+ ":" +:+ auth_password (_cfg e) in
    ret (Some (if String.eqb creds ":" then req
               else add_header "Authorization"
                      ("Basic " +:+ Base64.b64encode (list_byte_of_string creds))
                      req)).

Definition do_urlopen (req : Request) (timeout : Z) : M Response :=
  fun st =>
    let ctx := _context (engine st) in
    (urlopen (count is_urlopen (trace st)) req timeout ctx,
     log (EvUrlopen (full_url req) (method req) timeout ctx) st).

(** One round of the [for repeat in range(3)] loop: [Some v] when the
    round ends in [return v], [None] when it falls through to the
    retry message and the sleep. An exception raised inside an
    [except] clause, while the operands of the [HTTPError] warning
    are evaluated, leaves the round and the loop. *)
Definition attempt (req : Request) (run_func : Request -> M Py.Val)
  : M (option Py.Val) :=
  try_except (v <- run_func req ;; ret (Some v))
    (fun e =>
       match e with
       | HTTPError code reason body =>
           print_fmt msg_http
             (Py.VTuple [Py.VStr (full_url req); Py.VInt code; Py.VStr reason;
                         Py.VBytes (firstn 1024 body)]) ;;;
           ret None
       | HTTPErrorBroken cls => raise (OtherError cls)
       | URLError r =>
           if certificate_verify_failed r then
             print msg_reinit ;;;
             _initSSL ;;;
             ret None
           else if reason_is_BrokenPipeError r && bool_decide (is_Some (data req))
           then ret (Some (Py.VBool true))
           else
             print_fmt msg_network
               (Py.VTuple [Py.VStr (full_url req); Py.VStr (reason_str r)]) ;;;
             ret (Some Py.VNone)
       | OtherError cls =>
           print_fmt msg_exception
             (Py.VTuple [Py.VStr (full_url req); Py.VClass cls]) ;;;
           ret (Some Py.VNone)
       end).

Fixpoint _requestExecute_from (repeats : nat) (req : Request)
    (run_func : Request -> M Py.Val) : M Py.Val :=
  match repeats with
  | O => ret Py.VNone
  | S repeats' =>
      r <- attempt req run_func ;;
      match r with
      | Some v => ret v
      | None =>
          print_fmt msg_retry (Py.VStr (full_url req)) ;;;
          sleep 1 ;;;
          _requestExecute_from repeats' req run_func
      end
  end.

Definition _requestExecute (req : Request) (run_func : Request -> M Py.Val)
  : M Py.Val :=
  _requestExecute_from 3 req run_func.

(** [data.get(key, default)] on the decoded body. *)
Definition json_get (key : string) (default : Py.Val) (j : Py.Json) : M Py.Val :=
  match j with
  | Py.JObj d =>
      ret (match Py.assoc key d with
           | Some v => Py.of_json v
           | None => default
           end)
  | _ => raise (OtherError "AttributeError")
  end.

Definition _requestExecuteRun (req : Request) : M Py.Val :=
  res <- do_urlopen req (if bool_decide (is_Some (data req)) then 3 else 10) ;;
  match resp_json res with
  | None => raise (OtherError "JSONDecodeError")
  | Some j =>
      success <- json_get "success" (Py.VBool false) j ;;
      if negb (Py.truthy success) then
        message <- json_get "message" Py.VNone j ;;
        print_fmt msg_api message ;;;
        ret Py.VNone
      else json_get "data" (Py.VBool true) j
  end.

Definition out_path (req : Request) : M string :=
  match _out_path req with
  | Some p => ret p
  | None => raise (OtherError "AttributeError")
  end.

Definition _requestDownloadRun (req : Request) : M Py.Val :=
  res <- do_urlopen req 3 ;;
  let length := header_get "content-length" (resp_headers res) in
  let sha1 := header_get "x-checksum-sha1" (resp_headers res) in
  match length, sha1 with
  | Some len, Some sha1 =>
      if negb (Py.truthy_str (Some len)) || negb (Py.truthy_str (Some sha1)) then
        print msg_headers ;;;
        ret (Py.VBool false)
      else
        size <- match Py.int len with
                | Some n => ret n
                | None => raise (OtherError "ValueError")
                end ;;
        match _out_func req with
        | Some f => lift (f (resp_body res) size sha1)
        | None =>
            try_except
              (path <- out_path req ;;
               fs_open disk path ;;;
               sha1_calc <- download_chunks disk
                              (S (List.length (s_data (resp_body res))))
                              path size (resp_body res) [] ;;
               if negb (String.eqb sha1 (Sha1.hexdigest sha1_calc))
               then raise incorrect_sha1
               else ret (Py.VTuple [Py.VStr (Sha1.hexdigest sha1_calc);
                                    Py.VStr path]))
              (fun e => path <- out_path req ;; os_remove disk path ;;; raise e)
        end
  | _, _ =>
      print msg_headers ;;;
      ret (Py.VBool false)
  end.

Definition get (path : string) : M Py.Val :=
  req <- _request path None "GET" ;;
  match req with
  | None => ret Py.VNone
  | Some req => _requestExecute req _requestExecuteRun
  end.

Definition delete (path : string) : M Py.Val :=
  req <- _request path None "DELETE" ;;
  match req with
  | None => ret Py.VNone
  | Some req => _requestExecute req _requestExecuteRun
  end.

(** [put] calls [req.add_header] on whatever [_request] returned: on
    [None] that is an [AttributeError]. *)
Definition put (path : string) (stream : option bytes) (size : Z)
    (checksum : option string) : M Py.Val :=
  req <- _request path stream "PUT" ;;
  match req with
  | None => raise (OtherError "AttributeError")
  | Some req =>
      let req := add_header "Content-Length" (Py.str_int size) req in
      let req := add_header "Content-Type" "application/octet-stream" req in
      let req := match checksum with
                 | Some c =>
                     if Py.truthy_str (Some c)
                     then add_header "X-Checksum-Sha1" c req else req
                 | None => req
                 end in
      _requestExecute req _requestExecuteRun
  end.

Definition download (path : string) (out : Out) : M Py.Val :=
  req <- _request path None "GET" ;;
  match req with
  | None => ret Py.VNone
  | Some req =>
      let req := match out with
                 | OutCallable f => set_out_func f req
                 | OutStr p => set_out_path p req
                 | OutOther => req
                 end in
      _requestExecute req _requestDownloadRun
  end.

(** ** The [Client] methods, over the engine they hold in [_engine] *)

(** [json.dumps], an external encoder. *)
Variable json_dumps : Py.Val -> string.

Definition info : M Py.Val := get "info".

Definition status : M Py.Val := get "status".

Definition tasks : M Py.Val := get "task".

Definition taskFileStreamPut (task rel_path : string) (stream : option bytes)
    (size : Z) (checksum : option string) : M Py.Val :=
  let path := "task/" +:+ task +:+ "/file/" +:+ rel_path in
  put path stream size checksum.

Definition taskConfigPut (task : string) (config_data : Py.Val) : M Py.Val :=
  let path := "task/" +:+ task +:+ "/config" in
  let data := json_dumps config_data in
  let size := Z.of_nat (String.length data) in
  let stream := Some (list_byte_of_string data) in
  put path stream size None.

Definition taskRun (task : string) : M Py.Val :=
  get ("task/" +:+ task +:+ "/run").

Definition taskInfo (task : string) : M Py.Val :=
  get ("task/" +:+ task).

Definition taskStatus (task : string) : M Py.Val :=
  get ("task/" +:+ task +:+ "/status").

Definition taskMessages (task : string) : M Py.Val :=
  get ("task/" +:+ task +:+ "/messages").

Definition taskDetails (task : string) : M Py.Val :=
  get ("task/" +:+ task +:+ "/details").

Definition taskStop (task : string) : M Py.Val :=
  get ("task/" +:+ task +:+ "/stop").

Definition taskRemove (task : string) : M Py.Val :=
  delete ("task/" +:+ task).

Definition taskResultDownloadStream (task result : string) (stream_func : Out)
  : M Py.Val :=
  download ("task/" +:+ task +:+ "/status/result/" +:+ result) stream_func.

(** ** Lists, traces and states *)

Lemma state_eq (st st' : State) :
  engine st = engine st' -> fs st = fs st' -> trace st = trace st' -> st = st'.
Proof. destruct st, st'; cbn; congruence. Qed.

Lemma count_app p (a b : list Event) :
  count p (a ++ b) = (count p a + count p b)%nat.
Proof. unfold count. by rewrite List.filter_app, length_app. Qed.

Lemma writes_of_app (a b : list Event) :
  writes_of (a ++ b) = writes_of a ++ writes_of b.
Proof. induction a as [|[] a IH]; cbn; by rewrite ?IH. Qed.

Lemma writes_of_map path (cs : list bytes) :
  writes_of (List.map (EvWrite path) cs) = cs.
Proof. induction cs as [|c cs IH]; cbn; by rewrite ?IH. Qed.

Lemma written_app path (a b : list Event) :
  written path (a ++ b) = (written path a + written path b)%nat.
Proof. induction a as [|[] a IH]; cbn; rewrite ?IH; lia. Qed.

Lemma capped_total size cs :
  0 <= size -> capped size cs -> Z.of_nat (List.length (concat cs)) <= size.
Proof.
  revert size; induction cs as [|c cs IH]; intros size Hs; cbn; [lia|].
  intros [Hc Hcs]. rewrite length_app.
  assert (0 <= size - Z.of_nat (List.length c)) as Hs' by lia.
  specialize (IH _ Hs' Hcs). lia.
Qed.

(** ** [received] and [read] *)

Lemma received_nil n : received n [] = [].
Proof. unfold received. destruct (0 <=? n); [apply firstn_nil|done]. Qed.

Lemma received_all n l :
  n < 0 \/ Z.of_nat (List.length l) <= n -> received n l = l.
Proof.
  intros H. unfold received. destruct (0 <=? n) eqn:E; [|done].
  apply firstn_all2. lia.
Qed.

Lemma firstn_split {A} (a k : nat) (l : list A) :
  firstn (a + k) l = firstn a l ++ firstn k (skipn a l).
Proof.
  revert l; induction a as [|a IHa]; intros [|x l]; cbn; try done.
  - by rewrite firstn_nil.
  - by rewrite IHa.
Qed.

Lemma received_step a n l :
  0 <= a <= n ->
  received n l = firstn (Z.to_nat a) l ++ received (n - a) (skipn (Z.to_nat a) l).
Proof.
  intros H. unfold received.
  destruct (0 <=? n) eqn:E1; [|lia]. destruct (0 <=? n - a) eqn:E2; [|lia].
  rewrite <- firstn_split. f_equal. lia.
Qed.

Lemma read_cases amt s : read_case amt s (read amt s).
Proof.
  unfold read. destruct (amt <? -1) eqn:E0.
  { apply read_refused. lia. }
  destruct (0 <=? amt) eqn:E1; cbn.
  - destruct (_ <=? _)%nat eqn:E2.
    + apply read_exact; [lia|by apply Nat.leb_le].
    + apply Nat.leb_gt in E2. destruct (s_abort s) eqn:E3.
      * apply read_abort; [lia|by right|done].
      * apply read_rest; [lia|by right|done].
  - destruct (s_abort s) eqn:E3.
    + apply read_abort; [lia|left; lia|done].
    + apply read_rest; [lia|left; lia|done].
Qed.

(** ** The chunk loop *)

Lemma alter_app_nil (path : string) (m : gmap string bytes) :
  alter (fun old => old ++ []) path m = m.
Proof. apply alter_id. intros; apply app_nil_r. Qed.

Lemma download_chunks_S fuel path size_left res calc st :
  download_chunks disk (S fuel) path size_left res calc st
  = match read (Z.min chunk_limit size_left) res with
    | Raise e => (Raise e, st)
    | Ret ([], _) => (Ret calc, st)
    | Ret (c, res') =>
        match write_error disk (count is_write (trace st)) path c with
        | Some (cls, k) =>
            (Raise (OtherError cls),
             {| engine := engine st;
                fs := alter (fun old => old ++ firstn k c) path (fs st);
                trace := EvWrite path (firstn k c) :: trace st |})
        | None =>
            download_chunks disk fuel path
              (size_left - Z.of_nat (List.length c)) res' (calc ++ c)
              {| engine := engine st;
                 fs := alter (fun old => old ++ c) path (fs st);
                 trace := EvWrite path c :: trace st |}
        end
    end.
Proof.
  cbn [download_chunks]. unfold bind, lift, fs_write.
  destruct (read _ res) as [[[|b c] res']|e]; try reflexivity.
  by destruct (write_error _ _ _ _) as [[cls k]|].
Qed.

(** With more fuel than there are bytes to come, the loop runs to its
    end. It writes chunks [cs] that respect the cap, the last of them
    in part when its write fails. When it returns, it returns the
    digest input, and that is [received size_left] of the body if the
    declared bytes arrive. When it raises, the exception is that of a
    refused read or of a failed write, or the connection's, and never
    the connection's if the declared bytes arrive. It returns whenever
    the declared bytes arrive, their number is not negative and no
    write fails. *)
Lemma download_chunks_spec fuel : forall path size_left res calc st,
  (List.length (s_data res) < fuel)%nat ->
  exists cs,
    let R := download_chunks disk fuel path size_left res calc st in
    engine (snd R) = engine st
    /\ fs (snd R) = alter (fun old => old ++ concat cs) path (fs st)
    /\ trace (snd R) = List.map (EvWrite path) (rev cs) ++ trace st
    /\ (0 <= size_left -> capped size_left cs)
    /\ (forall x, fst R = Ret x ->
          x = calc ++ concat cs
          /\ (arrives res size_left ->
              concat cs = received size_left (s_data res)))
    /\ (forall e, fst R = Raise e ->
          ((exists cls, e = OtherError cls) \/ s_abort res = Some e)
          /\ (arrives res size_left -> exists cls, e = OtherError cls))
    /\ (arrives res size_left -> 0 <= size_left ->
        (forall i c, write_error disk i path c = None) ->
        fst R = Ret (calc ++ concat cs)).
Proof.
  induction fuel as [|fuel IH]; intros path size_left res calc st Hfuel; [lia|].
  cbn zeta. rewrite download_chunks_S.
  assert (0 < chunk_limit) as Hlim by done.
  assert (forall (c : bytes) k,
            (List.length c <= Z.to_nat (Z.min chunk_limit size_left))%nat ->
            0 <= size_left -> capped size_left [firstn k c]) as Hpart.
  { intros c k Hc Hs. cbn [capped]. split; [|done].
    rewrite length_firstn. lia. }
  destruct (read_cases (Z.min chunk_limit size_left) res)
    as [Hamt|Hamt Hlen|e Hlow Hamt Hab|Hlow Hamt Hab].
  - (* the amount is refused *)
    exists []. cbn. rewrite alter_app_nil. split_and!; try done.
    + intros e [= <-]. split; [left|intros _]; by eexists.
    + intros _ Hs. lia.
  - (* the read is served in full *)
    destruct (firstn _ (s_data res)) as [|b chunk] eqn:Hchunk.
    + (* an empty chunk ends the loop *)
      exists []. cbn. rewrite alter_app_nil, app_nil_r. split_and!; try done.
      intros x [= <-]. split; [done|]. intros _.
      destruct (s_data res) as [|x l]; [by rewrite received_nil|].
      destruct (Z.to_nat (Z.min chunk_limit size_left)) eqn:E; [|done].
      assert (size_left = 0) as -> by lia. done.
    + set (c := b :: chunk) in *.
      assert (List.length c = Z.to_nat (Z.min chunk_limit size_left)) as Hc.
      { rewrite <- Hchunk, length_firstn. lia. }
      assert (0 < List.length c)%nat by (cbn; lia).
      destruct (write_error disk _ path c) as [[cls k]|] eqn:Hw.
      { (* the write fails *)
        exists [firstn k c]. cbn [fst snd engine fs trace concat rev app List.map].
        rewrite app_nil_r. split_and!; try done.
        - intros Hs. apply Hpart; lia.
        - intros e [= <-]. split; [left|intros _]; by eexists.
        - intros _ _ Hok. by rewrite Hok in Hw. }
      match goal with |- context [download_chunks disk fuel path ?sl ?r ?cl ?s1] =>
        destruct (IH path sl r cl s1)
          as (cs & He & Hfs & Htr & Hcap & Hret & Hexn & Hdone) end.
      { cbn. rewrite length_skipn. lia. }
      assert (arrives res size_left ->
              arrives {| s_data := skipn (Z.to_nat (Z.min chunk_limit size_left))
                                     (s_data res);
                         s_abort := s_abort res |}
                      (size_left - Z.of_nat (List.length c))) as Harr.
      { intros [Ha|Ha]; [by left|right]. cbn [s_data]. rewrite length_skipn. lia. }
      exists (c :: cs). cbn zeta in *. cbn [engine fs trace s_abort s_data] in *.
      split_and!.
      * done.
      * rewrite Hfs, alter_alter_eq. apply alter_ext. intros. cbn.
        by rewrite <- app_assoc.
      * rewrite Htr. cbn [rev]. rewrite map_app. cbn. by rewrite <- app_assoc.
      * intros Hsz. cbn [capped]. split; [lia|]. apply Hcap. lia.
      * intros x Hx. destruct (Hret x Hx) as [-> Hcs]. cbn [concat].
        split; [by rewrite app_assoc|]. intros Ha. rewrite (Hcs (Harr Ha)).
        assert (0 <= size_left) as Hsz.
        { destruct (Z.le_gt_cases 0 size_left) as [|Hneg]; [done|].
          rewrite Z.min_r in Hc by lia. rewrite Z2Nat.nonpos in Hc by lia. lia. }
        rewrite (received_step (Z.min chunk_limit size_left) size_left).
        -- rewrite Hchunk. do 2 f_equal. lia.
        -- split; [done|]. lia.
      * intros e He'. destruct (Hexn e He') as [Hcase Hunder].
        split; [done|]. intros Ha. apply Hunder, Harr, Ha.
      * intros Ha Hsz Hok. cbn [concat]. rewrite app_assoc.
        apply Hdone; [by apply Harr|lia|done].
  - (* the connection broke *)
    exists []. cbn. rewrite alter_app_nil. split_and!; try done.
    + intros e' [= <-]. split; [by right|]. intros [Ha|Ha]; [congruence|lia].
    + intros [Ha|Ha]; [congruence|lia].
  - (* the read returns what is left of the body *)
    destruct (s_data res) as [|b chunk] eqn:Hdata.
    + exists []. cbn. rewrite alter_app_nil, app_nil_r, received_nil.
      split_and!; try done. by intros x [= <-].
    + set (c := b :: chunk) in *.
      destruct (write_error disk _ path c) as [[cls k]|] eqn:Hw.
      { exists [firstn k c]. cbn [fst snd engine fs trace concat rev app List.map].
        rewrite app_nil_r. split_and!; try done.
        - intros Hs. apply Hpart; [|done]. cbn in *. lia.
        - intros e [= <-]. split; [left|intros _]; by eexists.
        - intros _ _ Hok. by rewrite Hok in Hw. }
      match goal with |- context [download_chunks disk fuel path ?sl ?r ?cl ?s1] =>
        destruct (IH path sl r cl s1)
          as (cs & He & Hfs & Htr & Hcap & Hret & Hexn & Hdone) end.
      { cbn in *. lia. }
      assert (arrives {| s_data := []; s_abort := None |}
                      (size_left - Z.of_nat (List.length c))) as Harr by (by left).
      exists (c :: cs). cbn zeta in *. cbn [engine fs trace s_abort s_data] in *.
      split_and!.
      * done.
      * rewrite Hfs, alter_alter_eq. apply alter_ext. intros. cbn.
        by rewrite <- app_assoc.
      * rewrite Htr. cbn [rev]. rewrite map_app. cbn. by rewrite <- app_assoc.
      * intros Hsz. cbn [capped]. split; [cbn in *; lia|]. apply Hcap. cbn in *. lia.
      * intros x Hx. destruct (Hret x Hx) as [-> Hcs]. cbn [concat].
        split; [by rewrite app_assoc|]. intros _.
        rewrite (Hcs Harr), received_nil, app_nil_r. symmetry.
        apply received_all. cbn in *. lia.
      * intros e He'. destruct (Hexn e He') as [[Hcase|Hcase] Hunder]; [|done].
        split; [by left|]. by intros _.
      * intros Ha Hsz Hok. cbn [concat]. rewrite app_assoc.
        apply Hdone; [done|cbn in *; lia|done].
Qed.

(** More fuel changes nothing. *)
Lemma download_chunks_fuel fuel : forall fuel' path size_left res calc st,
  (List.length (s_data res) < fuel)%nat -> (fuel <= fuel')%nat ->
  download_chunks disk fuel' path size_left res calc st
  = download_chunks disk fuel path size_left res calc st.
Proof.
  induction fuel as [|fuel IH]; intros fuel' path size_left res calc st Hf Hle; [lia|].
  destruct fuel' as [|fuel']; [lia|]. rewrite !download_chunks_S.
  destruct (read_cases (Z.min chunk_limit size_left) res)
    as [Hamt|Hamt Hlen|e Hlow Hamt Hab|Hlow Hamt Hab]; [done| | done |].
  - destruct (firstn _ (s_data res)) as [|b chunk] eqn:Hchunk; [done|].
    destruct (write_error disk _ path _) as [[cls k]|]; [done|].
    apply IH; [|lia]. cbn [s_data]. rewrite length_skipn.
    assert (List.length (b :: chunk) = Z.to_nat (Z.min chunk_limit size_left)).
    { rewrite <- Hchunk, length_firstn. lia. }
    cbn in *. lia.
  - destruct (s_data res) as [|b chunk] eqn:Hdata; [done|].
    destruct (write_error disk _ path _) as [[cls k]|]; [done|].
    apply IH; [|lia]. cbn in *. lia.
Qed.

(** ** Printing *)

Lemma print_fmt_http a b c d st :
  print_fmt msg_http (Py.VTuple [a; b; c; d]) st
  = (Ret tt, log (EvPrint msg_http [a; b; c; d]) st).
Proof. reflexivity. Qed.

Lemma print_fmt_network a b st :
  print_fmt msg_network (Py.VTuple [a; b]) st
  = (Ret tt, log (EvPrint msg_network [a; b]) st).
Proof. reflexivity. Qed.

Lemma print_fmt_exception a b st :
  print_fmt msg_exception (Py.VTuple [a; b]) st
  = (Ret tt, log (EvPrint msg_exception [a; b]) st).
Proof. reflexivity. Qed.

Lemma print_fmt_retry url st :
  print_fmt msg_retry (Py.VStr url) st
  = (Ret tt, log (EvPrint msg_retry [Py.VStr url]) st).
Proof. reflexivity. Qed.

(** A decoded JSON value is never a tuple: it is one operand. *)
Lemma operands_of_json j : Py.operands (Py.of_json j) = [Py.of_json j].
Proof. by destruct j. Qed.

(** The format of the API error message has two specifiers and is
    given one operand: formatting it always raises [TypeError]. *)
Lemma print_fmt_api v st :
  Py.operands v = [v] ->
  print_fmt msg_api v st = (Raise (OtherError "TypeError"), st).
Proof. intros H. unfold print_fmt, Py.percent. by rewrite H. Qed.

(** ** One round of the retry loop, by the outcome of [run_func] *)
Section Attempt.
Variable run_func : Request -> M Py.Val.
Variable req : Request.
Variables st st1 : State.

Lemma attempt_ret v :
  run_func req st = (Ret v, st1) ->
  attempt req run_func st = (Ret (Some v), st1).
Proof. intros H. unfold attempt, try_except, bind. by rewrite H. Qed.

Lemma attempt_http code reason body :
  run_func req st = (Raise (HTTPError code reason body), st1) ->
  attempt req run_func st
  = (Ret None,
     log (EvPrint msg_http [Py.VStr (full_url req); Py.VInt code;
                            Py.VStr reason; Py.VBytes (firstn 1024 body)]) st1).
Proof. intros H. unfold attempt, try_except, bind. by rewrite H. Qed.

Lemma attempt_broken cls :
  run_func req st = (Raise (HTTPErrorBroken cls), st1) ->
  attempt req run_func st = (Raise (OtherError cls), st1).
Proof. intros H. unfold attempt, try_except, bind. by rewrite H. Qed.

Lemma attempt_cert r :
  run_func req st = (Raise (URLError r), st1) ->
  certificate_verify_failed r = true ->
  attempt req run_func st
  = (Ret None, snd (_initSSL (log (EvPrint msg_reinit []) st1))).
Proof. intros H Hc. unfold attempt, try_except, bind. by rewrite H, Hc. Qed.

Lemma attempt_broken_pipe r :
  run_func req st = (Raise (URLError r), st1) ->
  certificate_verify_failed r = false ->
  reason_is_BrokenPipeError r = true ->
  is_Some (data req) ->
  attempt req run_func st = (Ret (Some (Py.VBool true)), st1).
Proof.
  intros H Hc Hb Hd. unfold attempt, try_except, bind.
  by rewrite H, Hc, Hb, bool_decide_true.
Qed.

Lemma attempt_network r :
  run_func req st = (Raise (URLError r), st1) ->
  certificate_verify_failed r = false ->
  reason_is_BrokenPipeError r && bool_decide (is_Some (data req)) = false ->
  attempt req run_func st
  = (Ret (Some Py.VNone),
     log (EvPrint msg_network [Py.VStr (full_url req); Py.VStr (reason_str r)]) st1).
Proof. intros H Hc Hb. unfold attempt, try_except, bind. by rewrite H, Hc, Hb. Qed.

Lemma attempt_other cls :
  run_func req st = (Raise (OtherError cls), st1) ->
  attempt req run_func st
  = (Ret (Some Py.VNone),
     log (EvPrint msg_exception [Py.VStr (full_url req); Py.VClass cls]) st1).
Proof. intros H. unfold attempt, try_except, bind. by rewrite H. Qed.

End Attempt.

Lemma execute_from_S n req run_func st :
  _requestExecute_from (S n) req run_func st
  = match attempt req run_func st with
    | (Ret (Some v), st1) => (Ret v, st1)
    | (Ret None, st1) => _requestExecute_from n req run_func (retrying req st1)
    | (Raise e, st1) => (Raise e, st1)
    end.
Proof.
  cbn [_requestExecute_from]. unfold bind at 1.
  destruct (attempt req run_func st) as [[[v|]|e] st1]; reflexivity.
Qed.

(** A round raises only from inside the [HTTPError] clause: every
    other handler prints with a well-formed format. *)
Lemma attempt_raises req run_func st e :
  fst (attempt req run_func st) = Raise e ->
  exists cls,
    e = OtherError cls
    /\ run_func req st = (Raise (HTTPErrorBroken cls), snd (attempt req run_func st)).
Proof.
  unfold attempt, try_except, bind.
  destruct (run_func req st) as [[v|[code reason body|cls|r|cls]] st1]; cbn;
    try done.
  - intros [= <-]. by exists cls.
  - destruct (certificate_verify_failed r); cbn; [done|].
    by destruct (_ && _).
Qed.

(** ** The two executors *)

Lemma int_nonempty s n : Py.int s = Some n -> s <> EmptyString.
Proof. by destruct s. Qed.

Lemma truthy_str_Some s : s <> EmptyString -> Py.truthy_str (Some s) = true.
Proof. by destruct s. Qed.

Lemma hexdigest_nonempty msg : Sha1.hexdigest msg <> EmptyString.
Proof. done. Qed.

Lemma executeRun_raise req st e :
  urlopen (attempts st) req (timeout_of req) (_context (engine st)) = Raise e ->
  _requestExecuteRun req st = (Raise e, requested req (timeout_of req) st).
Proof.
  intros H. unfold _requestExecuteRun, bind, do_urlopen. fold (attempts st).
  fold (timeout_of req). by rewrite H.
Qed.

(** Whatever the answer, the JSON executor sends one request and does
    nothing else to the state. *)
Lemma executeRun_state req st :
  snd (_requestExecuteRun req st) = requested req (timeout_of req) st.
Proof.
  unfold _requestExecuteRun, bind, do_urlopen. fold (attempts st).
  fold (timeout_of req).
  destruct (urlopen _ _ _ _) as [res|e]; [|done].
  destruct (resp_json res) as [j|]; [|done].
  destruct j as [| | | | |d]; try done. cbn [json_get].
  unfold ret at 1.
  destruct (Py.truthy _); cbn [negb].
  - by destruct (Py.assoc "data" d).
  - unfold ret at 1.
    rewrite print_fmt_api; [done|].
    destruct (Py.assoc "message" d); [apply operands_of_json|done].
Qed.

(** An envelope that is not a success: the error message is never
    printed, its formatting raises. *)
Lemma executeRun_refused req st res d :
  urlopen (attempts st) req (timeout_of req) (_context (engine st)) = Ret res ->
  resp_json res = Some (Py.JObj d) ->
  Py.truthy (match Py.assoc "success" d with
             | Some v => Py.of_json v
             | None => Py.VBool false
             end) = false ->
  _requestExecuteRun req st
  = (Raise (OtherError "TypeError"), requested req (timeout_of req) st).
Proof.
  intros H Hj Hs. unfold _requestExecuteRun, bind, do_urlopen. fold (attempts st).
  fold (timeout_of req). rewrite H, Hj. cbn [json_get]. unfold ret at 1.
  rewrite Hs. cbn [negb]. unfold ret at 1.
  rewrite print_fmt_api; [done|].
  destruct (Py.assoc "message" d); [apply operands_of_json|done].
Qed.

Lemma downloadRun_raise req st e :
  urlopen (attempts st) req 3 (_context (engine st)) = Raise e ->
  _requestDownloadRun req st = (Raise e, requested req 3 st).
Proof.
  intros H. unfold _requestDownloadRun, bind, do_urlopen. fold (attempts st).
  by rewrite H.
Qed.

Lemma downloadRun_missing req st res :
  urlopen (attempts st) req 3 (_context (engine st)) = Ret res ->
  Py.truthy_str (header_get "content-length" (resp_headers res)) = false
  \/ Py.truthy_str (header_get "x-checksum-sha1" (resp_headers res)) = false ->
  _requestDownloadRun req st
  = (Ret (Py.VBool false), log (EvPrint msg_headers []) (requested req 3 st)).
Proof.
  intros H Hh. unfold _requestDownloadRun, bind, do_urlopen. fold (attempts st).
  rewrite H.
  destruct (header_get "content-length" _) as [len|];
    destruct (header_get "x-checksum-sha1" _) as [sha1|]; try done.
  all: try (destruct Hh as [Hh|Hh]; rewrite Hh, ?orb_true_r; done).
Qed.

(** The transfer to a file, once the response and both headers are
    there, starts as this: the request is logged, the target is
    opened. *)
Lemma downloadRun_to_file req st res len sha1 size path :
  urlopen (attempts st) req 3 (_context (engine st)) = Ret res ->
  header_get "content-length" (resp_headers res) = Some len ->
  header_get "x-checksum-sha1" (resp_headers res) = Some sha1 ->
  sha1 <> EmptyString ->
  Py.int len = Some size ->
  _out_func req = None ->
  _out_path req = Some path ->
  _requestDownloadRun req st
  = try_except
      (fs_open disk path ;;;
       sha1_calc <- download_chunks disk (S (List.length (s_data (resp_body res))))
                      path size (resp_body res) [] ;;
       if negb (String.eqb sha1 (Sha1.hexdigest sha1_calc))
       then raise incorrect_sha1
       else ret (Py.VTuple [Py.VStr (Sha1.hexdigest sha1_calc); Py.VStr path]))
      (fun e => os_remove disk path ;;; raise e)
      (requested req 3 st).
Proof.
  intros Hres Hlen Hsha Hne Hint Hf Hp.
  unfold _requestDownloadRun, bind at 1, do_urlopen. fold (attempts st).
  rewrite Hres, Hlen, Hsha.
  rewrite (truthy_str_Some len) by (by eapply int_nonempty).
  rewrite (truthy_str_Some sha1) by done. cbn [negb orb].
  rewrite Hint. unfold bind at 1, ret at 1. rewrite Hf.
  unfold try_except, out_path. rewrite Hp.
  unfold bind at 1, ret at 1. fold (requested req 3 st).
  destruct (bind (fs_open disk path) _ (requested req 3 st)) as [[v|e] st1];
    [done|].
  by unfold bind at 1, ret at 1.
Qed.

Lemma try_except_after {A B} (m : M A) (k : A -> M B) (h : Exn -> M B) a st st2 :
  m st = (Ret a, st2) ->
  try_except (x <- m ;; k x) h st = try_except (k a) h st2.
Proof. intros H. unfold try_except, bind. by rewrite H. Qed.

Lemma try_except_before {A B} (m : M A) (k : A -> M B) (h : Exn -> M B) e st st2 :
  m st = (Raise e, st2) ->
  try_except (x <- m ;; k x) h st = h e st2.
Proof. intros H. unfold try_except, bind. by rewrite H. Qed.

(** The transfer once the file is open: chunks [cs] that respect the
    cap are written; then the pair is returned, or an exception
    leaves with the file removed, or the removal is refused. *)
Lemma transfer_after_open req st res sha1 size path :
  let st2 := {| engine := engine st; fs := <[path := []]> (fs st);
                trace := EvOpen path :: trace (requested req 3 st) |} in
  let R := try_except
             (sha1_calc <- download_chunks disk
                             (S (List.length (s_data (resp_body res))))
                             path size (resp_body res) [] ;;
              if negb (String.eqb sha1 (Sha1.hexdigest sha1_calc))
              then raise incorrect_sha1
              else ret (Py.VTuple [Py.VStr (Sha1.hexdigest sha1_calc);
                                   Py.VStr path]))
             (fun e => os_remove disk path ;;; raise e) st2 in
  exists cs,
    (0 <= size -> capped size cs)
    /\ (   (sha1 = Sha1.hexdigest (concat cs)
            /\ (arrives (resp_body res) size ->
                concat cs = received size (s_data (resp_body res)))
            /\ R = (Ret (Py.VTuple [Py.VStr sha1; Py.VStr path]),
                    transferred req path cs st))
        \/ (dir_error disk path = None
            /\ exists e,
                 (e = incorrect_sha1 \/ (exists cls, e = OtherError cls)
                  \/ s_abort (resp_body res) = Some e)
                 /\ (arrives (resp_body res) size ->
                     e = incorrect_sha1 \/ exists cls, e = OtherError cls)
                 /\ R = (Raise e, cleaned_up req path cs st))
        \/ (exists c,
              dir_error disk path = Some c
              /\ R = (Raise (OtherError c), transferred req path cs st)))
    /\ (can_write disk path -> arrives (resp_body res) size -> 0 <= size ->
        concat cs = received size (s_data (resp_body res))
        /\ (sha1 = Sha1.hexdigest (concat cs) ->
            R = (Ret (Py.VTuple [Py.VStr sha1; Py.VStr path]),
                 transferred req path cs st))
        /\ (sha1 <> Sha1.hexdigest (concat cs) -> dir_error disk path = None ->
            R = (Raise incorrect_sha1, cleaned_up req path cs st))).
Proof.
  intros st2 R.
  destruct (download_chunks_spec (S (List.length (s_data (resp_body res))))
              path size (resp_body res) [] st2)
    as (cs & He & Hfs & Htr & Hcap & Hret & Hexn & Hdone); [lia|].
  cbn zeta in *. exists cs. split; [done|].
  assert (R = match download_chunks disk (S (List.length (s_data (resp_body res))))
                      path size (resp_body res) [] st2 with
              | (Ret x, st3) =>
                  if String.eqb sha1 (Sha1.hexdigest x)
                  then (Ret (Py.VTuple [Py.VStr (Sha1.hexdigest x); Py.VStr path]),
                        st3)
                  else (os_remove disk path ;;; raise incorrect_sha1) st3
              | (Raise e, st3) => (os_remove disk path ;;; raise e) st3
              end) as HR.
  { subst R. unfold try_except, bind at 1.
    destruct (download_chunks disk _ path size (resp_body res) [] st2)
      as [[x|e] st3]; [|done].
    by destruct (String.eqb sha1 (Sha1.hexdigest x)). }
  clearbody R.
  destruct (download_chunks disk _ path size (resp_body res) [] st2) as [o st3].
  cbn [fst snd app] in *.
  assert (st3 = transferred req path cs st) as ->.
  { apply state_eq; [done| |done].
    rewrite Hfs. unfold st2. cbn [fs]. by rewrite alter_insert_eq. }
  assert (forall e,
            (os_remove disk path ;;; raise (A:=Py.Val) e)
              (transferred req path cs st)
            = match dir_error disk path with
              | None => (Raise e, cleaned_up req path cs st)
              | Some c => (Raise (OtherError c), transferred req path cs st)
              end) as Hrm.
  { intros e. unfold bind, os_remove. cbn [fs transferred].
    rewrite lookup_insert_eq. destruct (dir_error disk path); [done|].
    unfold cleaned_up, raise. by rewrite delete_insert_eq. }
  assert (forall e,
            (e = incorrect_sha1 \/ (exists cls, e = OtherError cls)
             \/ s_abort (resp_body res) = Some e) ->
            (arrives (resp_body res) size ->
             e = incorrect_sha1 \/ exists cls, e = OtherError cls) ->
            let R := (os_remove disk path ;;; raise (A:=Py.Val) e)
                       (transferred req path cs st) in
            (dir_error disk path = None
             /\ exists e,
                  (e = incorrect_sha1 \/ (exists cls, e = OtherError cls)
                   \/ s_abort (resp_body res) = Some e)
                  /\ (arrives (resp_body res) size ->
                      e = incorrect_sha1 \/ exists cls, e = OtherError cls)
                  /\ R = (Raise e, cleaned_up req path cs st))
            \/ (exists c,
                  dir_error disk path = Some c
                  /\ R = (Raise (OtherError c), transferred req path cs st)))
    as Hleave.
  { intros e H1 H2. cbv zeta. rewrite Hrm.
    destruct (dir_error disk path) as [c|]; [right; by exists c|].
    left. split; [done|]. by exists e. }
  destruct o as [x|e].
  - destruct (Hret x eq_refl) as [-> Hcs]. cbn [app] in *.
    destruct (String.eqb sha1 (Sha1.hexdigest (concat cs))) eqn:E.
    + apply String.eqb_eq in E. rewrite <- E in HR. split.
      * by left.
      * intros Hw Ha Hs. split_and!; [by apply Hcs|done|done].
    + apply String.eqb_neq in E. rewrite HR. split.
      * right. apply Hleave; [by left|by left].
      * intros Hw Ha Hs. split_and!; [by apply Hcs|done|].
        intros _ Hdir. by rewrite Hrm, Hdir.
  - destruct (Hexn e eq_refl) as [Hcase Hunder]. rewrite HR. split.
    + right. apply Hleave.
      * destruct Hcase; auto.
      * intros Ha. right. by apply Hunder.
    + intros Hw Ha Hs. by specialize (Hdone Ha Hs Hw).
Qed.

(** How the transfer to a file ends. Chunks [cs] that respect the cap
    are written. Then one of five: the file holds them, their digest
    is the declared one and the pair (digest, path) is returned; or
    an exception leaves with the file removed; or the removal is
    refused and its exception leaves, the file still there; or the
    file could not be opened and the one that stood there is removed;
    or it could not be opened and nothing is touched. With a body
    whose declared bytes arrive, the bytes written are [received
    size] of it when the pair is returned, and no exception is the
    connection's. *)
Lemma downloadRun_file req st res len sha1 size path :
  urlopen (attempts st) req 3 (_context (engine st)) = Ret res ->
  header_get "content-length" (resp_headers res) = Some len ->
  header_get "x-checksum-sha1" (resp_headers res) = Some sha1 ->
  sha1 <> EmptyString ->
  Py.int len = Some size ->
  _out_func req = None ->
  _out_path req = Some path ->
  exists cs,
    (0 <= size -> capped size cs)
    /\ (   (can_open disk path st
            /\ sha1 = Sha1.hexdigest (concat cs)
            /\ (arrives (resp_body res) size ->
                concat cs = received size (s_data (resp_body res)))
            /\ _requestDownloadRun req st
               = (Ret (Py.VTuple [Py.VStr sha1; Py.VStr path]),
                  transferred req path cs st))
        \/ (can_open disk path st
            /\ dir_error disk path = None
            /\ exists e,
                 (e = incorrect_sha1 \/ (exists cls, e = OtherError cls)
                  \/ s_abort (resp_body res) = Some e)
                 /\ (arrives (resp_body res) size ->
                     e = incorrect_sha1 \/ exists cls, e = OtherError cls)
                 /\ _requestDownloadRun req st
                    = (Raise e, cleaned_up req path cs st))
        \/ (is_Some (fs st !! path)
            /\ exists c,
                 dir_error disk path = Some c
                 /\ _requestDownloadRun req st
                    = (Raise (OtherError c), transferred req path cs st))
        \/ (cs = []
            /\ is_Some (fs st !! path)
            /\ dir_error disk path = None
            /\ exists cls,
                 _requestDownloadRun req st
                 = (Raise (OtherError cls), removed_unopened req path st))
        \/ (cs = []
            /\ is_Some (dir_error disk path)
            /\ exists c,
                 _requestDownloadRun req st
                 = (Raise (OtherError c), requested req 3 st)))
    /\ (can_open disk path st -> can_write disk path ->
        arrives (resp_body res) size -> 0 <= size ->
        concat cs = received size (s_data (resp_body res))
        /\ (sha1 = Sha1.hexdigest (concat cs) ->
            _requestDownloadRun req st
            = (Ret (Py.VTuple [Py.VStr sha1; Py.VStr path]),
               transferred req path cs st))
        /\ (sha1 <> Sha1.hexdigest (concat cs) -> dir_error disk path = None ->
            _requestDownloadRun req st
            = (Raise incorrect_sha1, cleaned_up req path cs st))).
Proof.
  intros Hres Hlen Hsha Hne Hint Hf Hp.
  rewrite (downloadRun_to_file _ _ _ _ _ _ _ Hres Hlen Hsha Hne Hint Hf Hp).
  destruct (transfer_after_open req st res sha1 size path)
    as (cs & Hcap & Hcases & Hgood).
  cbv zeta in Hcases, Hgood.
  assert (fs (requested req 3 st) = fs st) as Hfs0 by done.
  unfold can_open.
  destruct (fs st !! path) as [old|] eqn:Hold.
  - (* a file is there *)
    destruct (file_error disk path) as [cls|] eqn:Hfile.
    + (* and may not be written *)
      assert (fs_open disk path (requested req 3 st)
              = (Raise (OtherError cls), requested req 3 st)) as Ho.
      { unfold fs_open. by rewrite Hfs0, Hold, Hfile. }
      rewrite (try_except_before _ _ _ _ _ _ Ho).
      exists []. split; [done|]. split; [|done].
      unfold bind, os_remove. rewrite Hfs0, Hold.
      destruct (dir_error disk path) as [c|] eqn:Hdir.
      * do 4 right. split_and!; [done|done|by exists c].
      * do 3 right. left. split_and!; [done|done|done|by exists cls].
    + assert (fs_open disk path (requested req 3 st)
              = (Ret tt, {| engine := engine st; fs := <[path := []]> (fs st);
                            trace := EvOpen path :: trace (requested req 3 st) |}))
        as Ho.
      { unfold fs_open. by rewrite Hfs0, Hold, Hfile. }
      rewrite (try_except_after _ _ _ _ _ _ Ho).
      exists cs. split; [done|]. split.
      * destruct Hcases as [(? & ? & ?)|[(? & ?)|(c & ? & ?)]].
        -- by left.
        -- right; left. done.
        -- do 2 right; left. split; [done|]. by exists c.
      * intros _. apply Hgood.
  - destruct (dir_error disk path) as [c|] eqn:Hdir.
    + (* no file is there and none may be created *)
      assert (fs_open disk path (requested req 3 st)
              = (Raise (OtherError c), requested req 3 st)) as Ho.
      { unfold fs_open. by rewrite Hfs0, Hold, Hdir. }
      rewrite (try_except_before _ _ _ _ _ _ Ho).
      exists []. split; [done|]. split; [|done].
      do 4 right. split_and!; [done|done|].
      unfold bind, os_remove. rewrite Hfs0, Hold. by eexists.
    + assert (fs_open disk path (requested req 3 st)
              = (Ret tt, {| engine := engine st; fs := <[path := []]> (fs st);
                            trace := EvOpen path :: trace (requested req 3 st) |}))
        as Ho.
      { unfold fs_open. by rewrite Hfs0, Hold, Hdir. }
      rewrite (try_except_after _ _ _ _ _ _ Ho).
      exists cs. split; [done|]. split.
      * destruct Hcases as [(? & ? & ?)|[(? & ?)|(c & ? & ?)]].
        -- by left.
        -- right; left. done.
        -- done.
      * intros _. apply Hgood.
Qed.

(** ** What a run adds to the trace *)

Lemma local_writes path (cs : list bytes) :
  forallb local_effect (List.map (EvWrite path) cs) = true.
Proof. induction cs as [|c cs IH]; [done|]. cbn. apply IH. Qed.

Lemma count_local p (evs : list Event) :
  (forall e, local_effect e = true -> p e = false) ->
  forallb local_effect evs = true -> count p evs = O.
Proof.
  intros Hp. unfold count. induction evs as [|e evs IH]; [done|]. cbn.
  intros [He Hevs]%andb_prop. rewrite (Hp e He). auto.
Qed.

Lemma executeRun_single : single_request _requestExecuteRun.
Proof.
  intros req st. exists [], (timeout_of req). split_and!; [|done|].
  - by rewrite executeRun_state.
  - by rewrite executeRun_state.
Qed.

Lemma downloadRun_single : single_request _requestDownloadRun.
Proof.
  intros req st.
  destruct (urlopen (attempts st) req 3 (_context (engine st))) as [res|e] eqn:Hres.
  2:{ exists [], 3. by rewrite (downloadRun_raise _ _ _ Hres). }
  destruct (Py.truthy_str (header_get "content-length" (resp_headers res))) eqn:Hl.
  2:{ exists [EvPrint msg_headers []], 3.
      rewrite (downloadRun_missing _ _ _ Hres) by auto. done. }
  destruct (Py.truthy_str (header_get "x-checksum-sha1" (resp_headers res))) eqn:Hs.
  2:{ exists [EvPrint msg_headers []], 3.
      rewrite (downloadRun_missing _ _ _ Hres) by auto. done. }
  destruct (header_get "content-length" (resp_headers res)) as [len|] eqn:Hlen; [|done].
  destruct (header_get "x-checksum-sha1" (resp_headers res)) as [sha1|] eqn:Hsha; [|done].
  destruct (Py.int len) as [size|] eqn:Hint;
    [destruct (_out_func req) as [f|] eqn:Hf;
     [|destruct (_out_path req) as [path|] eqn:Hp]|].
  - (* the callback *)
    exists [], 3. unfold _requestDownloadRun, bind, do_urlopen. fold (attempts st).
    rewrite Hres, Hlen, Hsha, Hl, Hs, Hint, Hf. cbn. unfold lift.
    by destruct (f (resp_body res) size sha1).
  - (* a file *)
    assert (sha1 <> EmptyString) as Hne by (by destruct sha1).
    destruct (downloadRun_file _ _ _ _ _ _ _ Hres Hlen Hsha Hne Hint Hf Hp)
      as (cs & _ & [(_ & _ & _ & ->)|[(_ & _ & e & _ & _ & ->)
                   |[(_ & c & _ & ->)|[(_ & _ & _ & cls & ->)
                   |(_ & _ & c & ->)]]]] & _).
    + exists (List.map (EvWrite path) (rev cs) ++ [EvOpen path]), 3. cbn.
      rewrite <- app_assoc. split_and!; [done| |done].
      by rewrite forallb_app, local_writes.
    + exists (EvRemove path :: List.map (EvWrite path) (rev cs) ++ [EvOpen path]), 3.
      cbn. rewrite <- app_assoc. split_and!; [done| |done].
      by rewrite forallb_app, local_writes.
    + exists (List.map (EvWrite path) (rev cs) ++ [EvOpen path]), 3. cbn.
      rewrite <- app_assoc. split_and!; [done| |done].
      by rewrite forallb_app, local_writes.
    + by exists [EvRemove path], 3.
    + by exists [], 3.
  - (* neither: the attribute is missing *)
    exists [], 3. unfold _requestDownloadRun, bind, do_urlopen. fold (attempts st).
    rewrite Hres, Hlen, Hsha, Hl, Hs, Hint, Hf. cbn.
    unfold try_except, bind, out_path. by rewrite Hp.
  - (* the length is not a number *)
    exists [], 3. unfold _requestDownloadRun, bind, do_urlopen. fold (attempts st).
    by rewrite Hres, Hlen, Hsha, Hl, Hs, Hint.
Qed.

Ltac counts :=
  unfold attempts, fetches, resets, sleeps, retrying, requested, log, count,
    _initSSL in *;
  cbn [trace engine fs snd fst List.filter List.length
       is_urlopen is_fetch is_new_context is_sleep] in *.

(** One round: one request, no fetch; the engine changes only by a
    trust reset. *)
Lemma attempt_effects run_func req st :
  single_request run_func ->
  attempts (snd (attempt req run_func st)) = S (attempts st)
  /\ fetches (snd (attempt req run_func st)) = fetches st
  /\ sleeps (snd (attempt req run_func st)) = sleeps st
  /\ (resets (snd (attempt req run_func st)) <= S (resets st))%nat.
Proof.
  intros Hrf. destruct (Hrf req st) as (evs & t & Htr & Hloc & _).
  assert (forall p, (forall e, local_effect e = true -> p e = false) ->
            count p (trace (snd (run_func req st)))
            = count p (trace (requested req t st))) as Hcount.
  { intros p Hp. by rewrite Htr, count_app, (count_local p evs Hp Hloc). }
  assert (attempts (snd (run_func req st)) = S (attempts st)) as Ha.
  { unfold attempts. rewrite Hcount; [done|]. by intros []. }
  assert (fetches (snd (run_func req st)) = fetches st) as Hf.
  { unfold fetches. rewrite Hcount; [done|]. by intros []. }
  assert (sleeps (snd (run_func req st)) = sleeps st) as Hs.
  { unfold sleeps. rewrite Hcount; [done|]. by intros []. }
  assert (resets (snd (run_func req st)) = resets st) as Hr.
  { unfold resets. rewrite Hcount; [done|]. by intros []. }
  clear Htr Hcount.
  destruct (run_func req st) as [[v|[code reason body|cls|r|cls]] st1] eqn:Hrun;
    cbn [fst snd] in *.
  - rewrite (attempt_ret _ _ _ _ _ Hrun). cbn [snd]. split_and!; [done..|lia].
  - rewrite (attempt_http _ _ _ _ _ _ _ Hrun). counts. split_and!; [done..|lia].
  - rewrite (attempt_broken _ _ _ _ _ Hrun). cbn [snd]. split_and!; [done..|lia].
  - destruct (certificate_verify_failed r) eqn:Hc.
    + rewrite (attempt_cert _ _ _ _ _ Hrun Hc). counts. split_and!; [done..|lia].
    + destruct (reason_is_BrokenPipeError r && bool_decide (is_Some (data req)))
        eqn:Hb.
      * apply andb_prop in Hb as [Hb Hd]. apply bool_decide_eq_true in Hd.
        rewrite (attempt_broken_pipe _ _ _ _ _ Hrun Hc Hb Hd). cbn [snd].
        split_and!; [done..|lia].
      * rewrite (attempt_network _ _ _ _ _ Hrun Hc Hb). counts.
        split_and!; [done..|lia].
  - rewrite (attempt_other _ _ _ _ _ Hrun). counts. split_and!; [done..|lia].
Qed.

(** The retry loop sends at most [n] requests in [n] rounds and never
    fetches the CA bundle. *)
Lemma execute_from_effects run_func req n : forall st,
  single_request run_func ->
  (attempts (snd (_requestExecute_from n req run_func st)) <= attempts st + n)%nat
  /\ fetches (snd (_requestExecute_from n req run_func st)) = fetches st.
Proof.
  induction n as [|n IH]; intros st Hrf; [cbn; split; [lia|done]|].
  rewrite execute_from_S.
  destruct (attempt_effects run_func req st Hrf) as (Ha & Hf & _).
  destruct (attempt req run_func st) as [[[v|]|e] st1]; cbn [fst snd] in *.
  - split; [lia|done].
  - destruct (IH (retrying req st1) Hrf) as [IHa IHf].
    assert (attempts (retrying req st1) = attempts st1) as Ea by done.
    assert (fetches (retrying req st1) = fetches st1) as Ef by done.
    split; [lia|congruence].
  - split; [lia|done].
Qed.

(** Every round that falls through sleeps once, and only those do: the
    loop sleeps at most [n] times in [n] rounds, and when it has slept
    [n] times no round returned and the result is [None]. *)
Lemma execute_from_sleeps run_func req n : forall st,
  single_request run_func ->
  (sleeps (snd (_requestExecute_from n req run_func st)) <= sleeps st + n)%nat
  /\ (sleeps (snd (_requestExecute_from n req run_func st)) = (sleeps st + n)%nat ->
      fst (_requestExecute_from n req run_func st) = Ret Py.VNone).
Proof.
  induction n as [|n IH]; intros st Hrf; [cbn; split; [lia|done]|].
  rewrite execute_from_S.
  destruct (attempt_effects run_func req st Hrf) as (_ & _ & Hs & _).
  destruct (attempt req run_func st) as [[[v|]|e] st1]; cbn [fst snd] in *.
  - split; [lia|]. intros. lia.
  - destruct (IH (retrying req st1) Hrf) as [IHle IHeq].
    change (sleeps (retrying req st1)) with (S (sleeps st1)) in *.
    split; [lia|]. intros Heq. apply IHeq. lia.
  - split; [lia|]. intros. lia.
Qed.

(** ** The retry executor *)

(** Rounds that all end in a retryable failure of [urlopen]: the loop
    runs them all, sleeps after each and returns [None]. *)
Lemma execute_exhausted run_func req n : forall st,
  run_func = _requestExecuteRun \/ run_func = _requestDownloadRun ->
  (forall i timeout ctx, (i < n)%nat ->
     retryable (urlopen (attempts st + i) req timeout ctx)) ->
  fst (_requestExecute_from n req run_func st) = Ret Py.VNone
  /\ attempts (snd (_requestExecute_from n req run_func st)) = (attempts st + n)%nat
  /\ sleeps (snd (_requestExecute_from n req run_func st)) = (sleeps st + n)%nat.
Proof.
  induction n as [|n IH]; intros st Hrf Hfail.
  { cbn. split_and!; [done|lia..]. }
  rewrite execute_from_S.
  assert (single_request run_func) as Hsingle.
  { destruct Hrf as [-> | ->]; [apply executeRun_single|apply downloadRun_single]. }
  destruct (attempt_effects run_func req st Hsingle) as (Ha & _ & Hs & _).
  assert (exists e, retryable (Raise e) /\ exists t,
            run_func req st = (Raise e, requested req t st)) as (e & He & t & Hrun).
  { destruct Hrf as [-> | ->].
    - specialize (Hfail O (timeout_of req) (_context (engine st)) ltac:(lia)).
      rewrite Nat.add_0_r in Hfail.
      destruct (urlopen _ _ _ _) as [res|e] eqn:Hres; [done|].
      exists e. split; [done|]. exists (timeout_of req). by apply executeRun_raise.
    - specialize (Hfail O 3 (_context (engine st)) ltac:(lia)).
      rewrite Nat.add_0_r in Hfail.
      destruct (urlopen _ _ _ _) as [res|e] eqn:Hres; [done|].
      exists e. split; [done|]. exists 3. by apply downloadRun_raise. }
  assert (exists st1, attempt req run_func st = (Ret None, st1)) as (st1 & Hatt).
  { destruct e as [code reason body|cls|r|cls]; [|done| |done].
    - eexists. apply attempt_http. exact Hrun.
    - eexists. apply (attempt_cert _ _ _ _ _ Hrun He). }
  rewrite Hatt in *. cbn [fst snd] in *.
  destruct (IH (retrying req st1) Hrf) as (IHr & IHa & IHs).
  { intros i t' ctx Hi.
    replace (attempts (retrying req st1) + i)%nat with (attempts st + S i)%nat.
    - apply Hfail. lia.
    - change (attempts (retrying req st1)) with (attempts st1). lia. }
  change (attempts (retrying req st1)) with (attempts st1) in IHa.
  change (sleeps (retrying req st1)) with (S (sleeps st1)) in IHs.
  split_and!; [done|lia..].
Qed.

(** C2: per logical call the retry executor runs the single-attempt
    executor, hence sends a request, at most 3 times; when the three
    rounds are used up without an attempt that returns (each round
    that falls through sleeps once, so the call has slept 3 times),
    the call returns [None]. That happens when all three attempts fail
    in a way that is retried: an HTTP error status, a certificate
    verification failure. *)
Theorem C2_at_most_three_attempts (run_func : Request -> M Py.Val) req st :
  run_func = _requestExecuteRun \/ run_func = _requestDownloadRun ->
  (attempts (snd (_requestExecute req run_func st)) <= attempts st + 3)%nat
  /\ (sleeps (snd (_requestExecute req run_func st)) = (sleeps st + 3)%nat ->
      fst (_requestExecute req run_func st) = Ret Py.VNone)
  /\ ((forall i timeout ctx, (i < 3)%nat ->
         retryable (urlopen (attempts st + i) req timeout ctx)) ->
      fst (_requestExecute req run_func st) = Ret Py.VNone
      /\ attempts (snd (_requestExecute req run_func st)) = (attempts st + 3)%nat
      /\ sleeps (snd (_requestExecute req run_func st)) = (sleeps st + 3)%nat).
Proof.
  intros Hrf.
  assert (single_request run_func) as Hsingle.
  { destruct Hrf as [-> | ->]; [apply executeRun_single|apply downloadRun_single]. }
  split_and!.
  - by apply execute_from_effects.
  - by apply execute_from_sleeps.
  - intros Hfail. by apply execute_exhausted.
Qed.

(** C5: a network-level failure whose reason is a [BrokenPipeError],
    on a request that carries a body (PUT), ends the call at once with
    [True]: the state is the one the failed attempt left, so nothing
    is printed, no sleep is taken and no further attempt is made. *)
Theorem C5_broken_pipe_on_put_is_success
    (run_func : Request -> M Py.Val) req n st st1 r :
  run_func req st = (Raise (URLError r), st1) ->
  certificate_verify_failed r = false ->
  reason_is_BrokenPipeError r = true ->
  is_Some (data req) ->
  _requestExecute_from (S n) req run_func st = (Ret (Py.VBool true), st1).
Proof.
  intros Hrun Hc Hb Hd. rewrite execute_from_S.
  by rewrite (attempt_broken_pipe _ _ _ _ _ Hrun Hc Hb Hd).
Qed.

(** C6: when the first attempt fails at the network level, and the
    failure is neither a certificate verification failure nor a broken
    pipe on a request with a body, the call returns [None] at once:
    it only prints a warning, so no further request is sent and no
    sleep is taken. *)
Theorem C6_other_network_failure_aborts
    (run_func : Request -> M Py.Val) req st st1 r :
  run_func req st = (Raise (URLError r), st1) ->
  certificate_verify_failed r = false ->
  reason_is_BrokenPipeError r && bool_decide (is_Some (data req)) = false ->
  _requestExecute req run_func st
  = (Ret Py.VNone,
     log (EvPrint msg_network [Py.VStr (full_url req); Py.VStr (reason_str r)]) st1)
  /\ attempts (snd (_requestExecute req run_func st)) = attempts st1
  /\ sleeps (snd (_requestExecute req run_func st)) = sleeps st1.
Proof.
  intros Hrun Hc Hb. unfold _requestExecute. rewrite execute_from_S.
  by rewrite (attempt_network _ _ _ _ _ Hrun Hc Hb).
Qed.

(** ** Downloads *)

Lemma written_le_writes p (evs : list Event) :
  (written p evs <= List.length (concat (writes_of evs)))%nat.
Proof.
  induction evs as [|[] evs IH]; cbn; try done.
  rewrite length_app. destruct (String.eqb _ _); lia.
Qed.

Lemma written_own path (cs : list bytes) :
  written path (List.map (EvWrite path) cs) = List.length (concat cs).
Proof.
  induction cs as [|c cs IH]; [done|]. cbn.
  rewrite String.eqb_refl, length_app. lia.
Qed.

Lemma length_concat_rev (cs : list bytes) :
  List.length (concat (rev cs)) = List.length (concat cs).
Proof.
  induction cs as [|c cs IH]; [done|]. cbn.
  rewrite concat_app, !length_app, IH. cbn [concat].
  rewrite app_nil_r. lia.
Qed.

Lemma attempts_transferred req path cs st :
  attempts (transferred req path cs st) = S (attempts st).
Proof.
  unfold attempts, transferred. cbn [trace]. rewrite count_app.
  rewrite (count_local is_urlopen); [done|by intros []|apply local_writes].
Qed.

(** C1, amended: a download to a file whose body, as received, does
    not hash to the declared checksum, in a directory that lets the
    process remove the file: the transfer raises with the file already
    removed (the removal is its last effect), and the call returns
    [None] after that one attempt, the file still absent. That holds
    whether or not the file could be opened and written; when it
    could, and the declared length is a byte count, the exception is
    [URLError('Incorrect sha1 signature')] and the call prints the
    warning about it. *)
Theorem C1_checksum_mismatch_removes_file req st res len sha1 size path n :
  urlopen (attempts st) req 3 (_context (engine st)) = Ret res ->
  header_get "content-length" (resp_headers res) = Some len ->
  header_get "x-checksum-sha1" (resp_headers res) = Some sha1 ->
  sha1 <> EmptyString ->
  Py.int len = Some size ->
  _out_func req = None ->
  _out_path req = Some path ->
  arrives (resp_body res) size ->
  Sha1.hexdigest (received size (s_data (resp_body res))) <> sha1 ->
  dir_error disk path = None ->
  exists e st',
    _requestDownloadRun req st = (Raise e, st')
    /\ fs st' !! path = None
    /\ (exists tr, trace st' = EvRemove path :: tr)
    /\ fst (_requestExecute_from (S n) req _requestDownloadRun st) = Ret Py.VNone
    /\ fs (snd (_requestExecute_from (S n) req _requestDownloadRun st)) !! path = None
    /\ attempts (snd (_requestExecute_from (S n) req _requestDownloadRun st))
       = S (attempts st)
    /\ (can_open disk path st -> can_write disk path -> 0 <= size ->
        e = incorrect_sha1
        /\ _requestExecute_from (S n) req _requestDownloadRun st
           = (Ret Py.VNone,
              log (EvPrint msg_network [Py.VStr (full_url req);
                                        Py.VStr "Incorrect sha1 signature"]) st')).
Proof.
  intros Hres Hlen Hsha Hne Hint Hf Hp Harr Hbad Hdir.
  destruct (downloadRun_file _ _ _ _ _ _ _ Hres Hlen Hsha Hne Hint Hf Hp)
    as (cs & _ & Hcases & Hgood).
  assert (forall e st',
            _requestDownloadRun req st = (Raise e, st') ->
            e = incorrect_sha1 \/ (exists cls, e = OtherError cls) ->
            fs st' !! path = None ->
            attempts st' = S (attempts st) ->
            fst (_requestExecute_from (S n) req _requestDownloadRun st) = Ret Py.VNone
            /\ fs (snd (_requestExecute_from (S n) req _requestDownloadRun st))
               !! path = None
            /\ attempts (snd (_requestExecute_from (S n) req _requestDownloadRun st))
               = S (attempts st)) as Hcall.
  { intros e st' HR [->|[cls ->]] Hgone Hone; rewrite execute_from_S.
    - by rewrite (attempt_network _ _ _ _ _ HR eq_refl eq_refl).
    - by rewrite (attempt_other _ _ _ _ _ HR). }
  destruct Hcases as [(_ & Hsame & Hcs & _)|[(_ & _ & e & _ & He & HR)
                     |[(_ & c & Hc & _)|[(_ & _ & _ & cls & HR)
                     |(_ & [c Hc] & _)]]]];
    [| | congruence | | congruence].
  - rewrite <- (Hcs Harr) in Hbad. congruence.
  - exists e, (cleaned_up req path cs st).
    assert (fs (cleaned_up req path cs st) !! path = None) as Hgone.
    { cbn. apply lookup_delete_eq. }
    destruct (Hcall _ _ HR (He Harr) Hgone (attempts_transferred req path cs st))
      as (H1 & H2 & H3).
    split_and!; try done.
    + by eexists.
    + intros Hopen Hwrite Hsize.
      destruct (Hgood Hopen Hwrite Harr Hsize) as (Hcs & _ & Hraise).
      rewrite <- Hcs in Hbad.
      assert (sha1 <> Sha1.hexdigest (concat cs)) as Hdiff by congruence.
      rewrite (Hraise Hdiff Hdir) in HR. injection HR as <-.
      split; [done|]. rewrite execute_from_S.
      by rewrite (attempt_network _ _ _ _ _ (Hraise Hdiff Hdir) eq_refl eq_refl).
  - exists (OtherError cls), (removed_unopened req path st).
    assert (fs (removed_unopened req path st) !! path = None) as Hgone.
    { cbn. apply lookup_delete_eq. }
    destruct (Hcall _ _ HR (or_intror (ex_intro _ cls eq_refl)) Hgone eq_refl)
      as (H1 & H2 & H3).
    split_and!; try done.
    + by eexists.
    + intros Hopen Hwrite Hsize.
      destruct (Hgood Hopen Hwrite Harr Hsize) as (Hcs & _ & Hraise).
      rewrite <- Hcs in Hbad.
      assert (sha1 <> Sha1.hexdigest (concat cs)) as Hdiff by congruence.
      by rewrite (Hraise Hdiff Hdir) in HR.
Qed.

(** C8, amended: for a body of N bytes that hashes to H,
    declared by the headers, and a destination that can be opened and
    written, the transfer to a file writes exactly those N bytes,
    leaves them in the file and returns the pair (H, path); the call
    returns that pair after this one attempt. *)
Theorem C8_download_roundtrip req st res len path n :
  urlopen (attempts st) req 3 (_context (engine st)) = Ret res ->
  header_get "content-length" (resp_headers res) = Some len ->
  Py.int len = Some (Z.of_nat (List.length (s_data (resp_body res)))) ->
  header_get "x-checksum-sha1" (resp_headers res)
  = Some (Sha1.hexdigest (s_data (resp_body res))) ->
  _out_func req = None ->
  _out_path req = Some path ->
  can_open disk path st ->
  can_write disk path ->
  exists st' evs,
    _requestDownloadRun req st
    = (Ret (Py.VTuple [Py.VStr (Sha1.hexdigest (s_data (resp_body res)));
                       Py.VStr path]), st')
    /\ fs st' !! path = Some (s_data (resp_body res))
    /\ trace st' = evs ++ trace st
    /\ written path evs = List.length (s_data (resp_body res))
    /\ _requestExecute_from (S n) req _requestDownloadRun st
       = (Ret (Py.VTuple [Py.VStr (Sha1.hexdigest (s_data (resp_body res)));
                          Py.VStr path]), st').
Proof.
  intros Hres Hlen Hint Hsha Hf Hp Hopen Hwrite.
  set (body := s_data (resp_body res)) in *.
  destruct (downloadRun_file _ _ _ _ _ _ _ Hres Hlen Hsha
              (hexdigest_nonempty body) Hint Hf Hp) as (cs & _ & _ & Hgood).
  destruct (Hgood Hopen Hwrite) as (Hcs & HR & _);
    [right; fold body; lia|lia|].
  rewrite received_all in Hcs by (right; fold body; lia). fold body in Hcs.
  rewrite Hcs in HR. specialize (HR eq_refl).
  exists (transferred req path cs st),
         (List.map (EvWrite path) (rev cs) ++
          [EvOpen path; EvUrlopen (full_url req) (method req) 3 (_context (engine st))]).
  split_and!.
  - done.
  - cbn. by rewrite lookup_insert_eq, Hcs.
  - cbn. by rewrite <- app_assoc.
  - rewrite written_app, written_own, length_concat_rev, Hcs. cbn. lia.
  - rewrite execute_from_S. by rewrite (attempt_ret _ _ _ _ _ HR).
Qed.

(** C9, amended: a download response without a [Content-Length] or
    without an [X-Checksum-Sha1] header: the transfer prints its own
    error line and returns [False]; it raises nothing, so the retry
    executor has no failure to classify and its catch-all clause
    stays out of it. The call returns that [False] at once: nothing
    but the error line follows the request, no retry, no sleep. *)
Theorem C9_missing_download_headers req st res n :
  urlopen (attempts st) req 3 (_context (engine st)) = Ret res ->
  header_get "content-length" (resp_headers res) = None
  \/ header_get "x-checksum-sha1" (resp_headers res) = None ->
  _requestDownloadRun req st
  = (Ret (Py.VBool false), log (EvPrint msg_headers []) (requested req 3 st))
  /\ _requestExecute_from (S n) req _requestDownloadRun st
     = (Ret (Py.VBool false), log (EvPrint msg_headers []) (requested req 3 st))
  /\ attempts (snd (_requestExecute_from (S n) req _requestDownloadRun st))
     = S (attempts st)
  /\ sleeps (snd (_requestExecute_from (S n) req _requestDownloadRun st))
     = sleeps st.
Proof.
  intros Hres Hmiss.
  assert (_requestDownloadRun req st
          = (Ret (Py.VBool false), log (EvPrint msg_headers []) (requested req 3 st)))
    as HR.
  { apply (downloadRun_missing _ _ _ Hres). by destruct Hmiss as [-> | ->]; [left|right]. }
  rewrite execute_from_S, (attempt_ret _ _ _ _ _ HR). done.
Qed.

(** C10: a transfer to a file with declared length N (a byte count,
    0 <= N) never writes more than N bytes, whatever the stream holds
    and however it ends: the chunks written, oldest first, are each at
    most min(1048576, what remains of N). *)
Theorem C10_never_writes_more_than_declared req st res len size :
  urlopen (attempts st) req 3 (_context (engine st)) = Ret res ->
  header_get "content-length" (resp_headers res) = Some len ->
  Py.int len = Some size ->
  0 <= size ->
  _out_func req = None ->
  exists evs,
    trace (snd (_requestDownloadRun req st)) = evs ++ trace st
    /\ capped size (rev (writes_of evs))
    /\ forall p, Z.of_nat (written p evs) <= size.
Proof.
  intros Hres Hlen Hint Hsize Hf.
  assert (forall evs, writes_of evs = [] ->
            capped size (rev (writes_of evs))
            /\ forall p, Z.of_nat (written p evs) <= size) as Hnone.
  { intros evs Hw. rewrite Hw. split; [done|]. intros p.
    pose proof (written_le_writes p evs) as Hle. rewrite Hw in Hle. cbn in Hle. lia. }
  destruct (Py.truthy_str (header_get "x-checksum-sha1" (resp_headers res))) eqn:Hs.
  2:{ exists [EvPrint msg_headers [];
              EvUrlopen (full_url req) (method req) 3 (_context (engine st))].
      rewrite (downloadRun_missing _ _ _ Hres) by auto. split; [done|].
      by apply Hnone. }
  destruct (header_get "x-checksum-sha1" (resp_headers res)) as [sha1|] eqn:Hsha;
    [|done].
  assert (sha1 <> EmptyString) as Hne by (by destruct sha1).
  destruct (_out_path req) as [path|] eqn:Hp.
  - destruct (downloadRun_file _ _ _ _ _ _ _ Hres Hlen Hsha Hne Hint Hf Hp)
      as (cs & Hcap & Hrun & _).
    specialize (Hcap Hsize).
    assert (forall evs, writes_of evs = rev cs ->
              capped size (rev (writes_of evs))
              /\ forall p, Z.of_nat (written p evs) <= size) as Hsome.
    { intros evs Hw. rewrite Hw, rev_involutive. split; [done|]. intros p.
      pose proof (written_le_writes p evs) as Hle.
      rewrite Hw, length_concat_rev in Hle.
      pose proof (capped_total size cs Hsize Hcap). lia. }
    destruct Hrun as [(_ & _ & _ & ->)|[(_ & _ & e & _ & _ & ->)
                     |[(_ & c & _ & ->)|[(_ & _ & _ & cls & ->)
                     |(_ & _ & c & ->)]]]].
    + exists (List.map (EvWrite path) (rev cs) ++
              [EvOpen path;
               EvUrlopen (full_url req) (method req) 3 (_context (engine st))]).
      split; [cbn; by rewrite <- app_assoc|].
      apply Hsome. by rewrite writes_of_app, writes_of_map, app_nil_r.
    + exists (EvRemove path :: List.map (EvWrite path) (rev cs) ++
              [EvOpen path;
               EvUrlopen (full_url req) (method req) 3 (_context (engine st))]).
      split; [cbn; by rewrite <- app_assoc|].
      apply Hsome. cbn. by rewrite writes_of_app, writes_of_map, app_nil_r.
    + exists (List.map (EvWrite path) (rev cs) ++
              [EvOpen path;
               EvUrlopen (full_url req) (method req) 3 (_context (engine st))]).
      split; [cbn; by rewrite <- app_assoc|].
      apply Hsome. by rewrite writes_of_app, writes_of_map, app_nil_r.
    + exists [EvRemove path;
              EvUrlopen (full_url req) (method req) 3 (_context (engine st))].
      split; [done|]. by apply Hnone.
    + exists [EvUrlopen (full_url req) (method req) 3 (_context (engine st))].
      split; [done|]. by apply Hnone.
  - exists [EvUrlopen (full_url req) (method req) 3 (_context (engine st))].
    split; [|by apply Hnone].
    unfold _requestDownloadRun, bind, do_urlopen. fold (attempts st).
    rewrite Hres, Hlen, Hsha.
    rewrite (truthy_str_Some len) by (by eapply int_nonempty).
    rewrite (truthy_str_Some sha1) by done. cbn [negb orb].
    rewrite Hint, Hf. cbn. unfold try_except, bind, out_path. by rewrite Hp.
Qed.

(** ** Trust *)

(** The retry executor never fetches the CA bundle. *)
Lemma execute_never_fetches (run_func : Request -> M Py.Val) req st :
  single_request run_func ->
  fetches (snd (_requestExecute req run_func st)) = fetches st.
Proof. intros H. by apply execute_from_effects. Qed.

(** After a certificate verification failure the next round starts
    with one more TLS context, which has no CA loaded, no cached
    bundle and no fetch in between. *)
Lemma retry_after_reset (run_func : Request -> M Py.Val) req n st st1 r :
  run_func req st = (Raise (URLError r), st1) ->
  certificate_verify_failed r = true ->
  exists st2,
    _requestExecute_from (S n) req run_func st
    = _requestExecute_from n req run_func st2
    /\ _ca (engine st2) = None
    /\ ctx_cadata (_context (engine st2)) = []
    /\ resets st2 = S (resets st1)
    /\ fetches st2 = fetches st1
    /\ attempts st2 = attempts st1.
Proof.
  intros Hrun Hc. eexists. split.
  - rewrite execute_from_S, (attempt_cert _ _ _ _ _ Hrun Hc). reflexivity.
  - done.
Qed.

(** Without a cached bundle and with nothing in the bucket,
    [_request] returns [None] and nothing is sent. *)
Lemma request_without_trust path data method st :
  Py.truthy_bytes (_ca (engine st)) = false ->
  Py.truthy_bytes (downloadDataFromBucket (fetches st)
                     (bucket (_cfg (engine st))) "ca.crt") = false ->
  exists st',
    _request path data method st = (Ret None, st')
    /\ attempts st' = attempts st
    /\ fs st' = fs st.
Proof.
  intros Hca Hb. unfold _request, bind at 1, _getCA, bind at 1, self.
  rewrite Hca. unfold bind at 1, print, emit. unfold bind at 1, fetch_ca.
  change (count is_fetch (trace (log (EvPrint msg_get_ca []) st))) with (fetches st).
  cbn [engine log].
  destruct (downloadDataFromBucket _ _ _) as [[|b bs]|]; [|done|];
    eexists; (split; [reflexivity|done]).
Qed.

Lemma get_without_trust path st :
  Py.truthy_bytes (_ca (engine st)) = false ->
  Py.truthy_bytes (downloadDataFromBucket (fetches st)
                     (bucket (_cfg (engine st))) "ca.crt") = false ->
  fst (get path st) = Ret Py.VNone /\ attempts (snd (get path st)) = attempts st.
Proof.
  intros Hca Hb.
  destruct (request_without_trust path None "GET" st Hca Hb) as (st' & Hreq & Ha & _).
  unfold get, bind. by rewrite Hreq.
Qed.

Lemma delete_without_trust path st :
  Py.truthy_bytes (_ca (engine st)) = false ->
  Py.truthy_bytes (downloadDataFromBucket (fetches st)
                     (bucket (_cfg (engine st))) "ca.crt") = false ->
  fst (delete path st) = Ret Py.VNone /\ attempts (snd (delete path st)) = attempts st.
Proof.
  intros Hca Hb.
  destruct (request_without_trust path None "DELETE" st Hca Hb) as (st' & Hreq & Ha & _).
  unfold delete, bind. by rewrite Hreq.
Qed.

Lemma download_without_trust path out st :
  Py.truthy_bytes (_ca (engine st)) = false ->
  Py.truthy_bytes (downloadDataFromBucket (fetches st)
                     (bucket (_cfg (engine st))) "ca.crt") = false ->
  fst (download path out st) = Ret Py.VNone
  /\ attempts (snd (download path out st)) = attempts st.
Proof.
  intros Hca Hb.
  destruct (request_without_trust path None "GET" st Hca Hb) as (st' & Hreq & Ha & _).
  unfold download, bind. by rewrite Hreq.
Qed.

(** [put] has no such guard: it raises. *)
Lemma put_without_trust path stream size checksum st :
  Py.truthy_bytes (_ca (engine st)) = false ->
  Py.truthy_bytes (downloadDataFromBucket (fetches st)
                     (bucket (_cfg (engine st))) "ca.crt") = false ->
  fst (put path stream size checksum st) = Raise (OtherError "AttributeError")
  /\ attempts (snd (put path stream size checksum st)) = attempts st.
Proof.
  intros Hca Hb.
  destruct (request_without_trust path stream "PUT" st Hca Hb) as (st' & Hreq & Ha & _).
  unfold put, bind. by rewrite Hreq.
Qed.

(** ** The JSON envelope *)

(** An envelope that is not a success ends the call with [None] after
    one attempt; the only line printed is the generic one of the
    catch-all handler, which names [TypeError] and not the envelope's
    message. *)
Lemma execute_refused req st res d n :
  urlopen (attempts st) req (timeout_of req) (_context (engine st)) = Ret res ->
  resp_json res = Some (Py.JObj d) ->
  Py.truthy (match Py.assoc "success" d with
             | Some v => Py.of_json v
             | None => Py.VBool false
             end) = false ->
  _requestExecute_from (S n) req _requestExecuteRun st
  = (Ret Py.VNone,
     log (EvPrint msg_exception [Py.VStr (full_url req); Py.VClass "TypeError"])
         (requested req (timeout_of req) st)).
Proof.
  intros Hres Hj Hs. rewrite execute_from_S.
  by rewrite (attempt_other _ _ _ _ _ (executeRun_refused _ _ _ _ Hres Hj Hs)).
Qed.

(** ** More on the trust bootstrap *)

(** [_getCA], case by case. *)
Lemma getCA_cases st :
  _getCA st
  = if Py.truthy_bytes (_ca (engine st)) then (Ret true, st)
    else
      let ca := downloadDataFromBucket (fetches st) (bucket (_cfg (engine st)))
                  "ca.crt" in
      match ca with
      | Some (b :: bs) =>
          match cadata_error (b :: bs) with
          | Some cls =>
              (Raise (OtherError cls),
               half_installed (cadata_partial (b :: bs)) (b :: bs) st)
          | None => (Ret true, installed (b :: bs) st)
          end
      | _ => (Ret false, fetched ca st)
      end.
Proof.
  unfold _getCA, bind at 1, self. destruct (Py.truthy_bytes _); [done|].
  unfold bind at 1, print, emit. unfold bind at 1, fetch_ca.
  change (count is_fetch (trace (log (EvPrint msg_get_ca []) st))) with (fetches st).
  cbn [engine log]. cbv zeta.
  destruct (downloadDataFromBucket _ _ _) as [[|b bs]|]; try done.
  unfold bind at 1, set_engine. unfold bind at 1, load_verify_locations.
  destruct (cadata_error (b :: bs)); [|done].
  unfold half_installed, load_into_context.
  by destruct (cadata_partial (b :: bs)).
Qed.

Lemma half_installed_counts loaded ca st :
  fetches (half_installed loaded ca st) = S (fetches st)
  /\ attempts (half_installed loaded ca st) = attempts st
  /\ fs (half_installed loaded ca st) = fs st
  /\ _ca (engine (half_installed loaded ca st)) = Some ca
  /\ _address (engine (half_installed loaded ca st)) = _address (engine st)
  /\ keeps (engine st) (engine (half_installed loaded ca st)).
Proof. by destruct loaded. Qed.

(** X1: [_getCA] caches a bundle once it has one: after a call that
    returned [True], the next call returns [True] and leaves the
    state as it is, so the bucket is not asked again. *)
Theorem getCA_success_is_cached st :
  fst (_getCA st) = Ret true ->
  _getCA (snd (_getCA st)) = (Ret true, snd (_getCA st))
  /\ (fetches (snd (_getCA st)) <= S (fetches st))%nat.
Proof.
  rewrite (getCA_cases st).
  destruct (Py.truthy_bytes (_ca (engine st))) eqn:Hca; cbn [fst snd].
  { intros _. rewrite getCA_cases, Hca. split; [done|lia]. }
  cbv zeta. destruct (downloadDataFromBucket _ _ _) as [[|b bs]|]; try done.
  destruct (cadata_error (b :: bs)); [done|]. intros _.
  rewrite getCA_cases. done.
Qed.

(** Without a cached bundle, [_getCA] asks the bucket exactly once. *)
Lemma getCA_untrusted_fetches st :
  Py.truthy_bytes (_ca (engine st)) = false ->
  fetches (snd (_getCA st)) = S (fetches st).
Proof.
  intros Hca. rewrite getCA_cases, Hca. cbv zeta.
  destruct (downloadDataFromBucket _ _ _) as [[|b bs]|]; try done.
  destruct (cadata_error _); [|done]. apply half_installed_counts.
Qed.

(** X2: a fetch that yields nothing (no object, or an empty one) is
    not cached: [_getCA] returns [False], leaves the TLS context as
    it was, and still counts as untrusted, so the next call asks the
    bucket again. *)
Theorem getCA_failure_is_not_cached st :
  Py.truthy_bytes (_ca (engine st)) = false ->
  Py.truthy_bytes (downloadDataFromBucket (fetches st)
                     (bucket (_cfg (engine st))) "ca.crt") = false ->
  fst (_getCA st) = Ret false
  /\ _context (engine (snd (_getCA st))) = _context (engine st)
  /\ Py.truthy_bytes (_ca (engine (snd (_getCA st)))) = false
  /\ fetches (snd (_getCA st)) = S (fetches st)
  /\ fetches (snd (_getCA (snd (_getCA st)))) = S (S (fetches st)).
Proof.
  intros Hca Hb.
  assert (fst (_getCA st) = Ret false
          /\ _context (engine (snd (_getCA st))) = _context (engine st)
          /\ Py.truthy_bytes (_ca (engine (snd (_getCA st)))) = false)
    as (H1 & H2 & H3).
  { rewrite (getCA_cases st), Hca. cbv zeta.
    by destruct (downloadDataFromBucket _ _ _) as [[|b bs]|]. }
  split_and!; try done.
  - by apply getCA_untrusted_fetches.
  - rewrite (getCA_untrusted_fetches _ H3). f_equal.
    by apply getCA_untrusted_fetches.
Qed.

(** X3: a fetch that yields a bundle which loads: [_getCA] returns
    [True] after that one fetch, the bundle is cached and is the one
    added to the CAs of the context, which stays the same context in
    the same mode. *)
Theorem getCA_installs_the_fetched_bundle st ca :
  Py.truthy_bytes (_ca (engine st)) = false ->
  downloadDataFromBucket (fetches st) (bucket (_cfg (engine st))) "ca.crt" = Some ca ->
  ca <> [] ->
  cadata_error ca = None ->
  _getCA st = (Ret true, installed ca st)
  /\ _ca (engine (installed ca st)) = Some ca
  /\ ctx_cadata (_context (engine (installed ca st)))
     = ca :: ctx_cadata (_context (engine st))
  /\ ctx_id (_context (engine (installed ca st))) = ctx_id (_context (engine st))
  /\ keeps (engine st) (engine (installed ca st))
  /\ fetches (installed ca st) = S (fetches st)
  /\ attempts (installed ca st) = attempts st.
Proof.
  intros Hca Hf Hne Hok. rewrite getCA_cases, Hca, Hf. cbv zeta.
  destruct ca as [|b bs]; [done|]. rewrite Hok. done.
Qed.

(** X4: a fetched bundle that fails to load ([decode] or
    [load_verify_locations] raises): the exception leaves [_getCA]
    and, [_request] being called outside any [try], leaves [get] as
    well, before anything is sent. The bundle stays cached all the
    same: the next [_getCA] returns [True] without a fetch and
    without another load, although the context has taken in of the
    bundle only what stands before the damaged certificate (nothing,
    when that is the first). *)
Theorem unloadable_bundle_raises_and_stays_cached st ca cls path :
  Py.truthy_bytes (_ca (engine st)) = false ->
  downloadDataFromBucket (fetches st) (bucket (_cfg (engine st))) "ca.crt" = Some ca ->
  ca <> [] ->
  cadata_error ca = Some cls ->
  let st' := half_installed (cadata_partial ca) ca st in
  _getCA st = (Raise (OtherError cls), st')
  /\ get path st = (Raise (OtherError cls), st')
  /\ attempts st' = attempts st
  /\ _ca (engine st') = Some ca
  /\ _getCA st' = (Ret true, st')
  /\ ctx_cadata (_context (engine st'))
     = match cadata_partial ca with
       | [] => ctx_cadata (_context (engine st))
       | loaded => loaded :: ctx_cadata (_context (engine st))
       end.
Proof.
  intros Hca Hf Hne Herr st'.
  assert (_getCA st = (Raise (OtherError cls), st')) as Hget.
  { rewrite getCA_cases, Hca, Hf. cbv zeta. destruct ca as [|b bs]; [done|].
    by rewrite Herr. }
  destruct (half_installed_counts (cadata_partial ca) ca st)
    as (_ & Ha & _ & Hc & _).
  split_and!; try done.
  - unfold get, bind at 1, _request, bind at 1. by rewrite Hget.
  - rewrite getCA_cases. unfold st'. rewrite Hc. by destruct ca.
  - unfold st', half_installed. by destruct (cadata_partial ca).
Qed.

(** ** More on the request builder *)

Lemma request_cases path data method st :
  _request path data method st
  = match _getCA st with
    | (Ret ok, st1) =>
        if negb ok || negb (Py.truthy_str (Some (_address (engine st1))))
        then (Ret None, st1)
        else (Ret (Some (built (engine st1) path data method)), st1)
    | (Raise e, st1) => (Raise e, st1)
    end.
Proof.
  unfold _request, bind at 1. destruct (_getCA st) as [[ok|e] st1]; [|done].
  unfold bind, self. destruct (negb ok || _); [done|].
  unfold ret, built, auth_headers, credentials, url_of. do 3 f_equal.
  destruct (String.eqb _ ":"); [done|].
  unfold add_header. cbn. by rewrite insert_empty.
Qed.

(** The credentials text is a lone colon only when both the user and
    the password are empty. *)
Lemma credentials_empty e :
  String.eqb (credentials e) ":" = true
  <-> auth_user (_cfg e) = EmptyString /\ auth_password (_cfg e) = EmptyString.
Proof.
  unfold credentials. rewrite String.eqb_eq.
  destruct (auth_user (_cfg e)) as [|c u], (auth_password (_cfg e)) as [|d p];
    cbn; split; try done; try (by intros [? ?]).
  - intros [= -> H]. by destruct u.
  - intros [= -> H]. by destruct u.
Qed.

(** X5: with a cached bundle and an address, [_request] does no I/O
    and leaves the state as it is; the request it returns is
    [Request('https://address:port/api/v1/path')] with the given verb
    and body, whose [full_url] is that URL as [Request] keeps it
    (blanks at its end and an empty fragment dropped), and it carries
    an [Authorization: Basic base64(user:password)] header, unless
    the user and the password are both empty, in which case it
    carries no header at all. *)
Theorem request_of_trusted_engine path data method st :
  trusted st ->
  _address (engine st) <> EmptyString ->
  _request path data method st
  = (Ret (Some (built (engine st) path data method)), st)
  /\ full_url (built (engine st) path data method)
     = Urllib.full_url ("https://" +:+ _address (engine st) +:+ ":"
                        +:+ Py.str_int (listen_port (_cfg (engine st)))
                        +:+ "/api/v1/" +:+ path)
  /\ (auth_user (_cfg (engine st)) = EmptyString
      /\ auth_password (_cfg (engine st)) = EmptyString ->
      headers (built (engine st) path data method) = ∅)
  /\ (~ (auth_user (_cfg (engine st)) = EmptyString
         /\ auth_password (_cfg (engine st)) = EmptyString) ->
      headers (built (engine st) path data method)
      = {[ "Authorization" :=
             "Basic " +:+ Base64.b64encode
                            (list_byte_of_string
                               (auth_user (_cfg (engine st)) +:+ ":"
                                +:+ auth_password (_cfg (engine st)))) ]}).
Proof.
  intros Hca Haddr. unfold trusted in Hca. split_and!.
  - rewrite request_cases, getCA_cases, Hca.
    by rewrite (truthy_str_Some _ Haddr).
  - done.
  - intros Hempty. cbn [headers built]. unfold auth_headers.
    by rewrite (proj2 (credentials_empty _) Hempty).
  - intros Hcreds. cbn [headers built]. unfold auth_headers.
    destruct (String.eqb (credentials (engine st)) ":") eqn:E; [|done].
    by apply credentials_empty in E.
Qed.

(** X6: without an address [_request] never returns a request; it
    tests the address only after [_getCA], so an engine without a
    cached bundle still asks the bucket first. *)
Theorem request_without_address path data method st :
  _address (engine st) = EmptyString ->
  (forall r, fst (_request path data method st) = Ret r -> r = None)
  /\ attempts (snd (_request path data method st)) = attempts st
  /\ (Py.truthy_bytes (_ca (engine st)) = false ->
      fetches (snd (_request path data method st)) = S (fetches st)).
Proof.
  intros Haddr. rewrite request_cases, getCA_cases.
  destruct (Py.truthy_bytes (_ca (engine st))) eqn:Hca.
  { rewrite Haddr, orb_true_r. cbn. split_and!; [by intros r [= <-]|done..]. }
  cbv zeta.
  destruct (downloadDataFromBucket _ _ _) as [[|b bs]|]; cbn [negb orb fst snd].
  - split_and!; [by intros r [= <-]|done..].
  - destruct (cadata_error _).
    { destruct (half_installed_counts (cadata_partial (b :: bs)) (b :: bs) st)
        as (Hf & Ha & _). by split_and!. }
    cbn [installed engine _address]. rewrite Haddr. cbn.
    split_and!; [by intros r [= <-]|done..].
  - split_and!; [by intros r [= <-]|done..].
Qed.

(** ** What the operations keep *)

Lemma keeps_refl e : keeps e e.
Proof. by unfold keeps. Qed.

Lemma keeps_trans e1 e2 e3 : keeps e1 e2 -> keeps e2 e3 -> keeps e1 e3.
Proof. unfold keeps. intros (-> & -> & H1) (-> & -> & H2). auto. Qed.

Lemma getCA_keeps st : keeps (engine st) (engine (snd (_getCA st))).
Proof.
  rewrite getCA_cases. destruct (Py.truthy_bytes _); [apply keeps_refl|].
  cbv zeta.
  destruct (downloadDataFromBucket _ _ _) as [[|b bs]|]; try done.
  destruct (cadata_error _); [|done]. apply half_installed_counts.
Qed.

Lemma request_keeps path data method st :
  keeps (engine st) (engine (snd (_request path data method st)))
  /\ fs (snd (_request path data method st)) = fs st.
Proof.
  rewrite request_cases. pose proof (getCA_keeps st) as Hk.
  assert (fs (snd (_getCA st)) = fs st) as Hfs.
  { rewrite getCA_cases. destruct (Py.truthy_bytes _); [done|]. cbv zeta.
    destruct (downloadDataFromBucket _ _ _) as [[|b bs]|]; try done.
    destruct (cadata_error _); [|done]. apply half_installed_counts. }
  destruct (_getCA st) as [[ok|e] st1]; [|done].
  by destruct (negb ok || _).
Qed.

(** One round changes the engine only by a trust reset, and the file
    system only through the executor. *)
Lemma attempt_keeps (run_func : Request -> M Py.Val) req st :
  engine (snd (run_func req st)) = engine st ->
  keeps (engine st) (engine (snd (attempt req run_func st)))
  /\ fs (snd (attempt req run_func st)) = fs (snd (run_func req st)).
Proof.
  intros He.
  destruct (run_func req st) as [[v|[code reason body|cls|r|cls]] st1] eqn:Hrun;
    cbn [fst snd] in *.
  - rewrite (attempt_ret _ _ _ _ _ Hrun). cbn. by rewrite He.
  - rewrite (attempt_http _ _ _ _ _ _ _ Hrun). cbn. by rewrite He.
  - rewrite (attempt_broken _ _ _ _ _ Hrun). cbn. by rewrite He.
  - destruct (certificate_verify_failed r) eqn:Hc.
    + rewrite (attempt_cert _ _ _ _ _ Hrun Hc). cbn. by rewrite He.
    + destruct (reason_is_BrokenPipeError r && bool_decide (is_Some (data req)))
        eqn:Hb.
      * apply andb_prop in Hb as [Hb Hd]. apply bool_decide_eq_true in Hd.
        rewrite (attempt_broken_pipe _ _ _ _ _ Hrun Hc Hb Hd). cbn. by rewrite He.
      * rewrite (attempt_network _ _ _ _ _ Hrun Hc Hb). cbn. by rewrite He.
  - rewrite (attempt_other _ _ _ _ _ Hrun). cbn. by rewrite He.
Qed.

Lemma execute_keeps (run_func : Request -> M Py.Val) req n : forall st,
  (forall st, engine (snd (run_func req st)) = engine st) ->
  keeps (engine st) (engine (snd (_requestExecute_from n req run_func st))).
Proof.
  induction n as [|n IH]; intros st He; [apply keeps_refl|].
  rewrite execute_from_S.
  destruct (attempt_keeps run_func req st (He st)) as [Hk _].
  destruct (attempt req run_func st) as [[[v|]|e] st1]; cbn [fst snd] in *;
    try done.
  eapply keeps_trans; [exact Hk|]. apply (IH (retrying req st1) He).
Qed.

Lemma execute_fs (run_func : Request -> M Py.Val) req n : forall st,
  (forall st, engine (snd (run_func req st)) = engine st) ->
  (forall st, fs (snd (run_func req st)) = fs st) ->
  fs (snd (_requestExecute_from n req run_func st)) = fs st.
Proof.
  induction n as [|n IH]; intros st He Hfs; [done|].
  rewrite execute_from_S.
  destruct (attempt_keeps run_func req st (He st)) as [_ Hf].
  rewrite Hfs in Hf.
  destruct (attempt req run_func st) as [[[v|]|e] st1]; cbn [fst snd] in *;
    try done.
  by rewrite (IH (retrying req st1) He Hfs).
Qed.

Lemma executeRun_engine req st : engine (snd (_requestExecuteRun req st)) = engine st.
Proof. by rewrite executeRun_state. Qed.

Lemma downloadRun_engine req st :
  engine (snd (_requestDownloadRun req st)) = engine st.
Proof. by destruct (downloadRun_single req st) as (evs & t & _ & _ & He). Qed.

(** X7: every operation keeps the engine's endpoint and configuration,
    and keeps its TLS context in the mode [_initSSL] sets up:
    certificate verification required, host name not checked. *)
Theorem operations_keep_endpoint_and_tls_mode st path stream size checksum out :
  keeps (engine st) (engine (snd (get path st)))
  /\ keeps (engine st) (engine (snd (delete path st)))
  /\ keeps (engine st) (engine (snd (put path stream size checksum st)))
  /\ keeps (engine st) (engine (snd (download path out st)))
  /\ tls_mode (engine (snd (_initSSL st))).
Proof.
  assert (forall data method (k : Request -> Request)
            (rf : Request -> M Py.Val),
            (forall req st, engine (snd (rf req st)) = engine st) ->
            keeps (engine st)
              (engine (snd (match _request path data method st with
                            | (Ret (Some req), st1) => _requestExecute (k req) rf st1
                            | (Ret None, st1) => (Ret Py.VNone, st1)
                            | (Raise e, st1) => (Raise e, st1)
                            end)))) as Hop.
  { intros data method k rf He.
    destruct (request_keeps path data method st) as [Hk _].
    destruct (_request path data method st) as [[[req|]|e] st1]; cbn [snd] in *;
      try done.
    eapply keeps_trans; [exact Hk|]. by apply execute_keeps. }
  split_and!.
  - specialize (Hop None "GET" (fun r => r) _ executeRun_engine).
    unfold get, bind.
    by destruct (_request path None "GET" st) as [[[req|]|e] st1].
  - specialize (Hop None "DELETE" (fun r => r) _ executeRun_engine).
    unfold delete, bind.
    by destruct (_request path None "DELETE" st) as [[[req|]|e] st1].
  - destruct (request_keeps path stream "PUT" st) as [Hk _].
    unfold put, bind.
    destruct (_request path stream "PUT" st) as [[[req|]|e] st1]; cbn [snd] in *;
      try done.
    eapply keeps_trans; [exact Hk|]. apply execute_keeps, executeRun_engine.
  - destruct (request_keeps path None "GET" st) as [Hk _].
    unfold download, bind.
    destruct (_request path None "GET" st) as [[[req|]|e] st1]; cbn [snd] in *;
      try done.
    eapply keeps_trans; [exact Hk|]. apply execute_keeps, downloadRun_engine.
  - done.
Qed.

(** X8: [get], [delete] and [put] never touch the file system. *)
Theorem json_operations_leave_files_alone st path stream size checksum :
  fs (snd (get path st)) = fs st
  /\ fs (snd (delete path st)) = fs st
  /\ fs (snd (put path stream size checksum st)) = fs st.
Proof.
  assert (forall req st, fs (snd (_requestExecuteRun req st)) = fs st) as Hfs.
  { intros req st0. by rewrite executeRun_state. }
  assert (forall req st0,
            fs (snd (_requestExecute req _requestExecuteRun st0)) = fs st0) as Hex.
  { intros req st0. apply execute_fs; [apply executeRun_engine|apply Hfs]. }
  split_and!.
  - destruct (request_keeps path None "GET" st) as [_ Hr]. unfold get, bind.
    destruct (_request path None "GET" st) as [[[req|]|e] st1]; cbn [snd] in *;
      try done.
    by rewrite Hex.
  - destruct (request_keeps path None "DELETE" st) as [_ Hr]. unfold delete, bind.
    destruct (_request path None "DELETE" st) as [[[req|]|e] st1]; cbn [snd] in *;
      try done.
    by rewrite Hex.
  - destruct (request_keeps path stream "PUT" st) as [_ Hr]. unfold put, bind.
    destruct (_request path stream "PUT" st) as [[[req|]|e] st1]; cbn [snd] in *;
      try done.
    by rewrite Hex.
Qed.

(** ** More on the retry executor *)

(** The loop raises only what a round raises from inside the
    [HTTPError] clause. *)
Lemma execute_from_raises (run_func : Request -> M Py.Val) req n : forall st e,
  fst (_requestExecute_from n req run_func st) = Raise e ->
  exists cls st1,
    e = OtherError cls
    /\ fst (run_func req st1) = Raise (HTTPErrorBroken cls)
    /\ snd (_requestExecute_from n req run_func st) = snd (run_func req st1).
Proof.
  induction n as [|n IH]; intros st e; [done|].
  rewrite execute_from_S.
  pose proof (attempt_raises req run_func st) as Hr.
  destruct (attempt req run_func st) as [[[v|]|e'] st1]; cbn [fst snd] in *.
  - done.
  - apply IH.
  - intros [= <-]. destruct (Hr e' eq_refl) as (cls & -> & Hrun).
    exists cls, st. by rewrite Hrun.
Qed.

(** X9: the retry executor lets one kind of exception through, and
    no other: the one raised inside the [except HTTPError] clause
    while the operands of its warning are evaluated ([e.read(1024)]
    fails, or [e.getcode()] is no number). Every other exception of
    an attempt is caught; with an executor that raises no such
    [HTTPError] the call always returns. The exception that gets out
    leaves the state as the failed attempt left it: nothing is
    printed about it. *)
Theorem execute_raises_only_in_the_http_clause
    (run_func : Request -> M Py.Val) req st :
  (forall e, fst (_requestExecute req run_func st) = Raise e ->
     exists cls st1,
       e = OtherError cls
       /\ fst (run_func req st1) = Raise (HTTPErrorBroken cls)
       /\ snd (_requestExecute req run_func st) = snd (run_func req st1))
  /\ ((forall st1 cls, fst (run_func req st1) <> Raise (HTTPErrorBroken cls)) ->
      exists v, fst (_requestExecute req run_func st) = Ret v).
Proof.
  split; [apply execute_from_raises|]. intros Hnone.
  destruct (fst (_requestExecute req run_func st)) as [v|e] eqn:E; [by exists v|].
  destruct (execute_from_raises _ _ _ _ _ E) as (cls & st1 & _ & Hrun & _).
  by destruct (Hnone st1 cls).
Qed.

(** X10: an exception of an attempt that is neither an [HTTPError] nor
    a [URLError] ends the call at once with [None]: one line is
    printed, naming the class of the exception; there is no retry and
    no sleep. *)
Theorem other_exception_aborts (run_func : Request -> M Py.Val) req n st st1 cls :
  run_func req st = (Raise (OtherError cls), st1) ->
  _requestExecute_from (S n) req run_func st
  = (Ret Py.VNone,
     log (EvPrint msg_exception [Py.VStr (full_url req); Py.VClass cls]) st1).
Proof.
  intros Hrun. rewrite execute_from_S. by rewrite (attempt_other _ _ _ _ _ Hrun).
Qed.

(** X11: an answer whose body is not JSON, or is JSON but not an
    object, makes a JSON call return [None] after that one attempt;
    the answer is not retried. *)
Theorem malformed_body_gives_none req n st res :
  urlopen (attempts st) req (timeout_of req) (_context (engine st)) = Ret res ->
  (forall d, resp_json res <> Some (Py.JObj d)) ->
  fst (_requestExecute_from (S n) req _requestExecuteRun st) = Ret Py.VNone
  /\ attempts (snd (_requestExecute_from (S n) req _requestExecuteRun st))
     = S (attempts st)
  /\ sleeps (snd (_requestExecute_from (S n) req _requestExecuteRun st)) = sleeps st
  /\ engine (snd (_requestExecute_from (S n) req _requestExecuteRun st)) = engine st.
Proof.
  intros Hres Hj.
  assert (exists cls, _requestExecuteRun req st
                      = (Raise (OtherError cls), requested req (timeout_of req) st))
    as [cls Hrun].
  { unfold _requestExecuteRun, bind, do_urlopen. fold (attempts st).
    fold (timeout_of req). rewrite Hres.
    destruct (resp_json res) as [[| | | | |d]|]; try (by eexists).
    by destruct (Hj d). }
  rewrite execute_from_S, (attempt_other _ _ _ _ _ Hrun). done.
Qed.

Lemma executeRun_success req st res d :
  urlopen (attempts st) req (timeout_of req) (_context (engine st)) = Ret res ->
  resp_json res = Some (Py.JObj d) ->
  Py.truthy (match Py.assoc "success" d with
             | Some v => Py.of_json v
             | None => Py.VBool false
             end) = true ->
  _requestExecuteRun req st
  = (Ret (match Py.assoc "data" d with
          | Some v => Py.of_json v
          | None => Py.VBool true
          end), requested req (timeout_of req) st).
Proof.
  intros Hres Hj Hs.
  unfold _requestExecuteRun, bind, do_urlopen. fold (attempts st).
  fold (timeout_of req). rewrite Hres, Hj. cbn [json_get]. unfold ret at 1.
  by rewrite Hs.
Qed.

(** X12: an envelope whose [success] is true makes the call return
    the envelope's [data], or [True] when the envelope has no [data]
    key, after that one attempt, with nothing printed and no sleep. *)
Theorem success_envelope_returns_data req n st res d :
  urlopen (attempts st) req (timeout_of req) (_context (engine st)) = Ret res ->
  resp_json res = Some (Py.JObj d) ->
  Py.truthy (match Py.assoc "success" d with
             | Some v => Py.of_json v
             | None => Py.VBool false
             end) = true ->
  _requestExecute_from (S n) req _requestExecuteRun st
  = (Ret (match Py.assoc "data" d with
          | Some v => Py.of_json v
          | None => Py.VBool true
          end),
     requested req (timeout_of req) st).
Proof.
  intros Hres Hj Hs. rewrite execute_from_S.
  by rewrite (attempt_ret _ _ _ _ _ (executeRun_success _ _ _ _ Hres Hj Hs)).
Qed.

(** After [k] attempts that fail in a way that is retried, the loop is
    where it would be with [k] rounds less, [k] requests and [k]
    sleeps later, the file system untouched. *)
Lemma execute_after_failures (run_func : Request -> M Py.Val) req k m : forall st,
  run_func = _requestExecuteRun \/ run_func = _requestDownloadRun ->
  (forall i timeout ctx, (i < k)%nat ->
     retryable (urlopen (attempts st + i) req timeout ctx)) ->
  exists st',
    _requestExecute_from (k + m) req run_func st
    = _requestExecute_from m req run_func st'
    /\ attempts st' = (attempts st + k)%nat
    /\ sleeps st' = (sleeps st + k)%nat
    /\ fs st' = fs st.
Proof.
  induction k as [|k IH]; intros st Hrf Hfail.
  { exists st. split_and!; [done|lia..|done]. }
  cbn [Nat.add]. rewrite execute_from_S.
  assert (single_request run_func) as Hsingle.
  { destruct Hrf as [-> | ->]; [apply executeRun_single|apply downloadRun_single]. }
  destruct (attempt_effects run_func req st Hsingle) as (Ha & _ & Hs & _).
  assert (exists e, retryable (Raise e) /\ exists t,
            run_func req st = (Raise e, requested req t st)) as (e & He & t & Hrun).
  { destruct Hrf as [-> | ->].
    - specialize (Hfail O (timeout_of req) (_context (engine st)) ltac:(lia)).
      rewrite Nat.add_0_r in Hfail.
      destruct (urlopen _ _ _ _) as [res|e] eqn:Hres; [done|].
      exists e. split; [done|]. exists (timeout_of req). by apply executeRun_raise.
    - specialize (Hfail O 3 (_context (engine st)) ltac:(lia)).
      rewrite Nat.add_0_r in Hfail.
      destruct (urlopen _ _ _ _) as [res|e] eqn:Hres; [done|].
      exists e. split; [done|]. exists 3. by apply downloadRun_raise. }
  assert (exists st1, attempt req run_func st = (Ret None, st1)
                      /\ fs st1 = fs st) as (st1 & Hatt & Hfs).
  { destruct e as [code reason body|cls|r|cls]; [|done| |done].
    - eexists. split; [apply attempt_http; exact Hrun|done].
    - eexists. split; [apply (attempt_cert _ _ _ _ _ Hrun He)|done]. }
  rewrite Hatt in *. cbn [fst snd] in *.
  destruct (IH (retrying req st1) Hrf) as (st' & IHr & IHa & IHs & IHf).
  { intros i t' ctx Hi.
    replace (attempts (retrying req st1) + i)%nat with (attempts st + S i)%nat.
    - apply Hfail. lia.
    - change (attempts (retrying req st1)) with (attempts st1). lia. }
  change (attempts (retrying req st1)) with (attempts st1) in IHa.
  change (sleeps (retrying req st1)) with (S (sleeps st1)) in IHs.
  change (fs (retrying req st1)) with (fs st1) in IHf.
  exists st'. split_and!; [done|lia..|congruence].
Qed.

(** X13: retries recover. When the first [k] attempts of a JSON call
    ([k] < 3) fail with an HTTP error status or a certificate
    verification failure and the next one is answered by a success
    envelope, the call returns that envelope's [data] (or [True])
    after [k] + 1 requests and [k] sleeps of one second. *)
Theorem retry_then_success req st k res d :
  (k < 3)%nat ->
  (forall i timeout ctx, (i < k)%nat ->
     retryable (urlopen (attempts st + i) req timeout ctx)) ->
  (forall ctx, urlopen (attempts st + k) req (timeout_of req) ctx = Ret res) ->
  resp_json res = Some (Py.JObj d) ->
  Py.truthy (match Py.assoc "success" d with
             | Some v => Py.of_json v
             | None => Py.VBool false
             end) = true ->
  fst (_requestExecute req _requestExecuteRun st)
  = Ret (match Py.assoc "data" d with
         | Some v => Py.of_json v
         | None => Py.VBool true
         end)
  /\ attempts (snd (_requestExecute req _requestExecuteRun st))
     = (attempts st + k + 1)%nat
  /\ sleeps (snd (_requestExecute req _requestExecuteRun st)) = (sleeps st + k)%nat.
Proof.
  intros Hk Hfail Hok Hj Hs. unfold _requestExecute.
  destruct (execute_after_failures _requestExecuteRun req k (S (2 - k)) st
              ltac:(by left) Hfail) as (st' & Hrun & Ha & Hsl & _).
  replace (k + S (2 - k))%nat with 3%nat in Hrun by lia. rewrite Hrun.
  assert (urlopen (attempts st') req (timeout_of req) (_context (engine st')) = Ret res)
    as Hres by (rewrite Ha; apply Hok).
  rewrite execute_from_S, (attempt_ret _ _ _ _ _ (executeRun_success _ _ _ _ Hres Hj Hs)).
  cbn [fst snd].
  split_and!; [done| |done].
  change (attempts (requested req (timeout_of req) st')) with (S (attempts st')). lia.
Qed.

(** ** Where the requests go *)

Lemma plain_end_app a b : plain_end b = true -> plain_end (a +:+ b) = true.
Proof.
  intros Hb. induction a as [|c a IH]; [done|].
  change (String c a +:+ b) with (String c (a +:+ b)).
  destruct (a +:+ b) eqn:E; [|exact IH].
  destruct a, b; cbn in *; congruence.
Qed.

Lemma rstrip_plain s : plain_end s = true -> Urllib.rstrip s = s.
Proof.
  induction s as [|c s IH]; [done|]. cbn [plain_end Urllib.rstrip].
  destruct s as [|d s].
  - intros [Hc _]%andb_prop. cbn. by destruct (Urllib.is_blank c).
  - intros Hs. by rewrite (IH Hs).
Qed.

Lemma rpartition_join s : forall p t,
  Urllib.rpartition s = Some (p, t) -> s = p +:+ String "#" t.
Proof.
  induction s as [|c s IH]; [done|]. cbn [Urllib.rpartition]. intros p t.
  destruct (Urllib.rpartition s) as [[p' t']|].
  - intros [= <- <-]. change (String c p' +:+ String "#" t')
      with (String c (p' +:+ String "#" t')). f_equal. by apply IH.
  - destruct (Ascii.eqb c "#") eqn:E; [|done]. intros [= <- <-].
    apply Ascii.eqb_eq in E. by subst.
Qed.

Lemma rpartition_plain s p :
  Urllib.rpartition s = Some (p, EmptyString) -> plain_end s = false.
Proof.
  revert p. induction s as [|c s IH]; [done|]. cbn [Urllib.rpartition]. intros p.
  destruct (Urllib.rpartition s) as [[p' t']|] eqn:Hs.
  - intros [= <- ->]. cbn [plain_end]. destruct s; [done|]. by apply (IH p').
  - destruct (Ascii.eqb c "#") eqn:E; [|done]. intros [= <- ->].
    cbn. rewrite E. apply andb_false_r.
Qed.

(** [Request] keeps a URL of the engine as it is when it ends in a
    character that is neither a blank nor ['#']. *)
Lemma full_url_plain r :
  plain_end r = true ->
  Urllib.full_url ("https://" +:+ r) = "https://" +:+ r.
Proof.
  intros Hr.
  assert (Urllib.unwrap ("https://" +:+ r) = "https://" +:+ r) as Hu.
  { unfold Urllib.unwrap, Urllib.strip.
    change (Urllib.lstrip ("https://" +:+ r)) with ("https://" +:+ r).
    by rewrite (rstrip_plain _ (plain_end_app "https://" r Hr)). }
  unfold Urllib.full_url, Urllib.splittag. rewrite Hu.
  destruct (Urllib.rpartition ("https://" +:+ r)) as [[p t]|] eqn:Hp; [|done].
  destruct t as [|c t].
  - apply rpartition_plain in Hp.
    by rewrite (plain_end_app "https://" r Hr) in Hp.
  - symmetry. by apply rpartition_join.
Qed.

Lemma request_url_plain e path :
  plain_end path = true -> request_url e path = url_of e path.
Proof.
  intros Hp. unfold request_url, url_of. apply full_url_plain.
  by do 4 apply plain_end_app.
Qed.

Lemma sent_as_local url verb timeout (evs : list Event) :
  forallb local_effect evs = true -> sent_as url verb timeout evs.
Proof.
  unfold sent_as. induction evs as [|e evs IH]; [constructor|]. cbn.
  intros [He Hevs]%andb_prop. constructor; [|by apply IH].
  by destruct e.
Qed.

Lemma sent_as_app url verb timeout (a b : list Event) :
  sent_as url verb timeout a -> sent_as url verb timeout b ->
  sent_as url verb timeout (a ++ b).
Proof. unfold sent_as. intros. by apply Forall_app. Qed.

Lemma sent_as_cons url verb timeout e (evs : list Event) :
  (is_urlopen e = true -> exists ctx, e = EvUrlopen url verb timeout ctx) ->
  sent_as url verb timeout evs -> sent_as url verb timeout (e :: evs).
Proof. unfold sent_as. intros. by constructor. Qed.

Lemma executeRun_sends : sends_with timeout_of _requestExecuteRun.
Proof.
  intros req st. exists []. by rewrite executeRun_state.
Qed.

Lemma downloadRun_sends : sends_with (fun _ => 3) _requestDownloadRun.
Proof.
  intros req st.
  destruct (urlopen (attempts st) req 3 (_context (engine st))) as [res|e] eqn:Hres.
  2:{ exists []. by rewrite (downloadRun_raise _ _ _ Hres). }
  destruct (Py.truthy_str (header_get "content-length" (resp_headers res))) eqn:Hl.
  2:{ exists [EvPrint msg_headers []].
      rewrite (downloadRun_missing _ _ _ Hres) by auto. done. }
  destruct (Py.truthy_str (header_get "x-checksum-sha1" (resp_headers res))) eqn:Hs.
  2:{ exists [EvPrint msg_headers []].
      rewrite (downloadRun_missing _ _ _ Hres) by auto. done. }
  destruct (header_get "content-length" (resp_headers res)) as [len|] eqn:Hlen; [|done].
  destruct (header_get "x-checksum-sha1" (resp_headers res)) as [sha1|] eqn:Hsha; [|done].
  destruct (Py.int len) as [size|] eqn:Hint;
    [destruct (_out_func req) as [f|] eqn:Hf;
     [|destruct (_out_path req) as [path|] eqn:Hp]|].
  - exists []. unfold _requestDownloadRun, bind, do_urlopen. fold (attempts st).
    rewrite Hres, Hlen, Hsha, Hl, Hs, Hint, Hf. cbn. unfold lift.
    by destruct (f (resp_body res) size sha1).
  - assert (sha1 <> EmptyString) as Hne by (by destruct sha1).
    destruct (downloadRun_file _ _ _ _ _ _ _ Hres Hlen Hsha Hne Hint Hf Hp)
      as (cs & _ & [(_ & _ & _ & ->)|[(_ & _ & e & _ & _ & ->)
                   |[(_ & c & _ & ->)|[(_ & _ & _ & cls & ->)
                   |(_ & _ & c & ->)]]]] & _).
    + exists (List.map (EvWrite path) (rev cs) ++ [EvOpen path]). cbn.
      rewrite <- app_assoc. split_and!; [done| |done].
      by rewrite forallb_app, local_writes.
    + exists (EvRemove path :: List.map (EvWrite path) (rev cs) ++ [EvOpen path]).
      cbn. rewrite <- app_assoc. split_and!; [done| |done].
      by rewrite forallb_app, local_writes.
    + exists (List.map (EvWrite path) (rev cs) ++ [EvOpen path]). cbn.
      rewrite <- app_assoc. split_and!; [done| |done].
      by rewrite forallb_app, local_writes.
    + by exists [EvRemove path].
    + by exists [].
  - exists []. unfold _requestDownloadRun, bind, do_urlopen. fold (attempts st).
    rewrite Hres, Hlen, Hsha, Hl, Hs, Hint, Hf. cbn.
    unfold try_except, bind, out_path. by rewrite Hp.
  - exists []. unfold _requestDownloadRun, bind, do_urlopen. fold (attempts st).
    by rewrite Hres, Hlen, Hsha, Hl, Hs, Hint.
Qed.

Lemma attempt_sends tmo (run_func : Request -> M Py.Val) req st :
  sends_with tmo run_func ->
  exists evs,
    trace (snd (attempt req run_func st)) = evs ++ trace st
    /\ sent_as (full_url req) (method req) (tmo req) evs.
Proof.
  intros Hrf. destruct (Hrf req st) as (evs & Htr & Hloc & _).
  assert (sent_as (full_url req) (method req) (tmo req)
            (evs ++ [EvUrlopen (full_url req) (method req) (tmo req)
                       (_context (engine st))])) as Hsent.
  { apply sent_as_app; [by apply sent_as_local|].
    apply sent_as_cons; [by eexists|constructor]. }
  assert (forall e, is_urlopen e = false ->
            exists evs',
              e :: trace (snd (run_func req st)) = evs' ++ trace st
              /\ sent_as (full_url req) (method req) (tmo req) evs') as Hone.
  { intros e He. eexists (e :: evs ++ [_]). rewrite Htr. cbn.
    rewrite <- app_assoc. split; [done|].
    apply sent_as_cons; [by rewrite He|exact Hsent]. }
  assert (exists evs',
            trace (snd (run_func req st)) = evs' ++ trace st
            /\ sent_as (full_url req) (method req) (tmo req) evs') as Hzero.
  { exists (evs ++ [EvUrlopen (full_url req) (method req) (tmo req)
                      (_context (engine st))]).
    rewrite Htr. cbn. rewrite <- app_assoc. split; [done|exact Hsent]. }
  clear Htr.
  destruct (run_func req st) as [[v|[code reason body|cls|r|cls]] st1] eqn:Hrun;
    cbn [fst snd] in *.
  - by rewrite (attempt_ret _ _ _ _ _ Hrun).
  - rewrite (attempt_http _ _ _ _ _ _ _ Hrun). by apply Hone.
  - by rewrite (attempt_broken _ _ _ _ _ Hrun).
  - destruct (certificate_verify_failed r) eqn:Hc.
    + rewrite (attempt_cert _ _ _ _ _ Hrun Hc). cbn [snd _initSSL trace log].
      destruct (Hone (EvPrint msg_reinit []) eq_refl) as (evs' & -> & Hs').
      eexists (_ :: evs'). split; [done|]. by apply sent_as_cons.
    + destruct (reason_is_BrokenPipeError r && bool_decide (is_Some (data req)))
        eqn:Hb.
      * apply andb_prop in Hb as [Hb Hd]. apply bool_decide_eq_true in Hd.
        by rewrite (attempt_broken_pipe _ _ _ _ _ Hrun Hc Hb Hd).
      * rewrite (attempt_network _ _ _ _ _ Hrun Hc Hb). by apply Hone.
  - rewrite (attempt_other _ _ _ _ _ Hrun). by apply Hone.
Qed.

Lemma execute_sends tmo (run_func : Request -> M Py.Val) req n : forall st,
  sends_with tmo run_func ->
  exists evs,
    trace (snd (_requestExecute_from n req run_func st)) = evs ++ trace st
    /\ sent_as (full_url req) (method req) (tmo req) evs.
Proof.
  induction n as [|n IH]; intros st Hrf; [by exists []; split; [|constructor]|].
  rewrite execute_from_S.
  destruct (attempt_sends tmo run_func req st Hrf) as (evs & Htr & Hsent).
  destruct (attempt req run_func st) as [[[v|]|e] st1]; cbn [fst snd] in *;
    try (by exists evs).
  destruct (IH (retrying req st1) Hrf) as (evs' & Htr' & Hsent').
  exists (evs' ++ EvSleep 1 :: EvPrint msg_retry [Py.VStr (full_url req)] :: evs).
  split.
  - rewrite Htr'. cbn. rewrite Htr, <- app_assoc. done.
  - apply sent_as_app; [done|]. by do 2 (apply sent_as_cons; [done|]).
Qed.

Lemma getCA_sends_nothing st url verb timeout :
  exists evs,
    trace (snd (_getCA st)) = evs ++ trace st /\ sent_as url verb timeout evs.
Proof.
  rewrite getCA_cases. destruct (Py.truthy_bytes _).
  { exists []. split; [done|constructor]. }
  cbv zeta.
  assert (forall ca, exists evs,
            trace (fetched ca st) = evs ++ trace st
            /\ sent_as url verb timeout evs) as Hf.
  { intros ca. eexists [_; _]. split; [done|].
    by do 2 (apply sent_as_cons; [done|]); constructor. }
  destruct (downloadDataFromBucket _ _ _) as [[|b bs]|]; try apply Hf.
  destruct (cadata_error _).
  { unfold half_installed. destruct (cadata_partial _); [apply Hf|].
    eexists [_; _; _]. split; [done|].
    by do 3 (apply sent_as_cons; [done|]); constructor. }
  eexists [_; _; _]. split; [done|].
  by do 3 (apply sent_as_cons; [done|]); constructor.
Qed.

(** What an operation sends, [k] being what it does to the request
    [_request] built. *)
Lemma operation_sends path body verb tmo (k : Request -> Request)
    (run_func : Request -> M Py.Val) (none : Outcome Py.Val) st :
  sends_with tmo run_func ->
  (forall req, full_url (k req) = full_url req /\ method (k req) = method req) ->
  (forall req, data req = body -> tmo (k req) = tmo (built (engine st) path body verb)) ->
  exists evs,
    trace (snd (match _request path body verb st with
                | (Ret (Some req), st1) => _requestExecute (k req) run_func st1
                | (Ret None, st1) => (none, st1)
                | (Raise e, st1) => (Raise e, st1)
                end)) = evs ++ trace st
    /\ sent_as (request_url (engine st) path) verb
               (tmo (built (engine st) path body verb)) evs.
Proof.
  intros Hrf Hk Htmo. rewrite request_cases.
  destruct (getCA_sends_nothing st (request_url (engine st) path) verb
              (tmo (built (engine st) path body verb))) as (evs & Htr & Hsent).
  destruct (getCA_keeps st) as (Haddr & Hcfg & _).
  destruct (_getCA st) as [[ok|e] st1]; cbn [fst snd] in *; [|by exists evs].
  destruct (negb ok || _); [by exists evs|].
  destruct (execute_sends tmo run_func (k (built (engine st1) path body verb)) 3 st1 Hrf)
    as (evs' & Htr' & Hsent').
  exists (evs' ++ evs). split.
  - unfold _requestExecute. rewrite Htr', Htr. by rewrite <- app_assoc.
  - apply sent_as_app; [|done].
    destruct (Hk (built (engine st1) path body verb)) as [Hu Hm].
    rewrite Hu, Hm, (Htmo (built (engine st1) path body verb) eq_refl) in Hsent'.
    cbn [full_url method built] in Hsent'.
    unfold request_url, url_of in *. by rewrite Haddr, Hcfg in Hsent'.
Qed.

Lemma get_sends path st :
  exists evs, trace (snd (get path st)) = evs ++ trace st
              /\ sent_as (request_url (engine st) path) "GET" 10 evs.
Proof.
  destruct (operation_sends path None "GET" timeout_of (fun r => r)
              _requestExecuteRun (Ret Py.VNone) st executeRun_sends)
    as (evs & Htr & Hsent);
    [by intros; split|by intros req Hd; unfold timeout_of; rewrite Hd|].
  exists evs. split; [|exact Hsent]. rewrite <- Htr. unfold get, bind.
  by destruct (_request path None "GET" st) as [[[req|]|e] st1].
Qed.

Lemma delete_sends path st :
  exists evs, trace (snd (delete path st)) = evs ++ trace st
              /\ sent_as (request_url (engine st) path) "DELETE" 10 evs.
Proof.
  destruct (operation_sends path None "DELETE" timeout_of (fun r => r)
              _requestExecuteRun (Ret Py.VNone) st executeRun_sends)
    as (evs & Htr & Hsent);
    [by intros; split|by intros req Hd; unfold timeout_of; rewrite Hd|].
  exists evs. split; [|exact Hsent]. rewrite <- Htr. unfold delete, bind.
  by destruct (_request path None "DELETE" st) as [[[req|]|e] st1].
Qed.

Lemma put_sends path stream size checksum st :
  exists evs, trace (snd (put path stream size checksum st)) = evs ++ trace st
              /\ sent_as (request_url (engine st) path) "PUT"
                         (match stream with Some _ => 3 | None => 10 end) evs.
Proof.
  destruct (operation_sends path stream "PUT" timeout_of
              (fun req =>
                 let req := add_header "Content-Length" (Py.str_int size) req in
                 let req := add_header "Content-Type" "application/octet-stream" req in
                 match checksum with
                 | Some c => if Py.truthy_str (Some c)
                             then add_header "X-Checksum-Sha1" c req else req
                 | None => req
                 end)
              _requestExecuteRun (Raise (OtherError "AttributeError")) st
              executeRun_sends)
    as (evs & Htr & Hsent).
  - intros req. by destruct checksum as [[|c s]|].
  - intros req Hd. unfold timeout_of. cbn [data built].
    by destruct checksum as [[|c s]|]; cbn; rewrite Hd.
  - exists evs. split.
    + rewrite <- Htr. unfold put, bind.
      by destruct (_request path stream "PUT" st) as [[[req|]|e] st1].
    + unfold timeout_of in Hsent. cbn [data built] in Hsent.
      by destruct stream.
Qed.

Lemma download_sends path out st :
  exists evs, trace (snd (download path out st)) = evs ++ trace st
              /\ sent_as (request_url (engine st) path) "GET" 3 evs.
Proof.
  destruct (operation_sends path None "GET" (fun _ => 3)
              (fun req => match out with
                          | OutCallable f => set_out_func f req
                          | OutStr p => set_out_path p req
                          | OutOther => req
                          end)
              _requestDownloadRun (Ret Py.VNone) st downloadRun_sends)
    as (evs & Htr & Hsent).
  - intros req. by destruct out.
  - done.
  - exists evs. split; [|exact Hsent]. rewrite <- Htr. unfold download, bind.
    by destruct (_request path None "GET" st) as [[[req|]|e] st1].
Qed.

(** X14: every request an operation makes, on the first attempt or on
    a retry, is the [Request] built from
    [https://address:port/api/v1/path] of the engine's endpoint, its
    [full_url] being that URL as [Request] keeps it (a blank at the
    end of the path and an empty fragment are dropped; what follows a
    ['#'] is the fragment): [get] with GET and a timeout of 10,
    [delete] with DELETE and 10, [put] with PUT and 3 when it has a
    stream (10 without), [download] with GET and 3. For a path that
    ends in a character that is neither a blank nor ['#'] the
    [full_url] is the URL itself. *)
Theorem operations_send_to_the_endpoint st path stream size checksum out :
  (exists evs, trace (snd (get path st)) = evs ++ trace st
               /\ sent_as (request_url (engine st) path) "GET" 10 evs)
  /\ (exists evs, trace (snd (delete path st)) = evs ++ trace st
                  /\ sent_as (request_url (engine st) path) "DELETE" 10 evs)
  /\ (exists evs, trace (snd (put path stream size checksum st)) = evs ++ trace st
                  /\ sent_as (request_url (engine st) path) "PUT"
                             (match stream with Some _ => 3 | None => 10 end)
                             evs)
  /\ (exists evs, trace (snd (download path out st)) = evs ++ trace st
                  /\ sent_as (request_url (engine st) path) "GET" 3 evs)
  /\ (plain_end path = true ->
      request_url (engine st) path
      = "https://" +:+ _address (engine st) +:+ ":"
        +:+ Py.str_int (listen_port (_cfg (engine st))) +:+ "/api/v1/" +:+ path).
Proof.
  split_and!;
    [apply get_sends|apply delete_sends|apply put_sends|apply download_sends
    |apply request_url_plain].
Qed.

(** X15: what each [Client] method asks for: [info], [status],
    [tasks] and the task queries [taskRun], [taskInfo], [taskStatus],
    [taskMessages], [taskDetails], [taskStop] make GET requests
    (stopping and running a task included), [taskRemove] a DELETE of
    the task, the two uploads PUT requests, the result download a GET
    with the short timeout; each with the [Request] built from the
    engine's [/api/v1/] and the path below, the task and file names
    placed in it as they are, so that a name with a ['#'] starts the
    fragment of the URL. *)
Theorem client_methods_send st task rel_path result stream size checksum
    config_data stream_func :
  let sends (m : M Py.Val) (verb path : string) (timeout : Z) :=
    exists evs, trace (snd (m st)) = evs ++ trace st
                /\ sent_as (request_url (engine st) path) verb timeout evs in
  sends info "GET" "info" 10
  /\ sends status "GET" "status" 10
  /\ sends tasks "GET" "task" 10
  /\ sends (taskRun task) "GET" ("task/" +:+ task +:+ "/run") 10
  /\ sends (taskInfo task) "GET" ("task/" +:+ task) 10
  /\ sends (taskStatus task) "GET" ("task/" +:+ task +:+ "/status") 10
  /\ sends (taskMessages task) "GET" ("task/" +:+ task +:+ "/messages") 10
  /\ sends (taskDetails task) "GET" ("task/" +:+ task +:+ "/details") 10
  /\ sends (taskStop task) "GET" ("task/" +:+ task +:+ "/stop") 10
  /\ sends (taskRemove task) "DELETE" ("task/" +:+ task) 10
  /\ sends (taskFileStreamPut task rel_path stream size checksum) "PUT"
           ("task/" +:+ task +:+ "/file/" +:+ rel_path)
           (match stream with Some _ => 3 | None => 10 end)
  /\ sends (taskConfigPut task config_data) "PUT"
           ("task/" +:+ task +:+ "/config") 3
  /\ sends (taskResultDownloadStream task result stream_func) "GET"
           ("task/" +:+ task +:+ "/status/result/" +:+ result) 3.
Proof.
  cbv zeta. split_and!; try apply get_sends; try apply delete_sends;
    try apply download_sends.
  - apply put_sends.
  - apply (put_sends _ (Some _)).
Qed.

(** ** More on downloads *)

(** X16: with a callable target the transfer hands the callback the
    live body, the declared size and the declared checksum and returns
    whatever the callback returns or raises: the engine itself writes
    no file and verifies no checksum. *)
Theorem download_to_callback req st res len sha1 size f :
  urlopen (attempts st) req 3 (_context (engine st)) = Ret res ->
  header_get "content-length" (resp_headers res) = Some len ->
  header_get "x-checksum-sha1" (resp_headers res) = Some sha1 ->
  sha1 <> EmptyString ->
  Py.int len = Some size ->
  _out_func req = Some f ->
  _requestDownloadRun req st = (f (resp_body res) size sha1, requested req 3 st).
Proof.
  intros Hres Hlen Hsha Hne Hint Hf.
  unfold _requestDownloadRun, bind, do_urlopen. fold (attempts st).
  rewrite Hres, Hlen, Hsha.
  rewrite (truthy_str_Some len) by (by eapply int_nonempty).
  rewrite (truthy_str_Some sha1) by done. cbn [negb orb].
  rewrite Hint, Hf. cbn. unfold lift. by destruct (f (resp_body res) size sha1).
Qed.

(** X17: a [Content-Length] that is not a number makes the download
    return [None] after that one attempt; [int] raises before the file
    is opened and outside the [try] that removes it, so the file
    system, a file already at the destination included, is as it
    was. *)
Theorem download_with_unreadable_length req st res len sha1 n :
  urlopen (attempts st) req 3 (_context (engine st)) = Ret res ->
  header_get "content-length" (resp_headers res) = Some len ->
  header_get "x-checksum-sha1" (resp_headers res) = Some sha1 ->
  len <> EmptyString ->
  sha1 <> EmptyString ->
  Py.int len = None ->
  _requestExecute_from (S n) req _requestDownloadRun st
  = (Ret Py.VNone,
     log (EvPrint msg_exception [Py.VStr (full_url req); Py.VClass "ValueError"])
         (requested req 3 st))
  /\ fs (snd (_requestExecute_from (S n) req _requestDownloadRun st)) = fs st.
Proof.
  intros Hres Hlen Hsha Hl Hs Hint.
  assert (_requestDownloadRun req st
          = (Raise (OtherError "ValueError"), requested req 3 st)) as Hrun.
  { unfold _requestDownloadRun, bind, do_urlopen. fold (attempts st).
    rewrite Hres, Hlen, Hsha, (truthy_str_Some len Hl), (truthy_str_Some sha1 Hs).
    cbn [negb orb]. by rewrite Hint. }
  rewrite execute_from_S, (attempt_other _ _ _ _ _ Hrun). done.
Qed.

(** What one transfer does to the file system: nothing; or, for a
    destination path, the file holds what was hashed and the pair is
    returned; or it raised and the file is gone; or it raised and the
    file, one that stood there before and may not be removed, holds
    what was written. *)
Lemma downloadRun_files req st :
  fs (snd (_requestDownloadRun req st)) = fs st
  \/ exists path,
       _out_path req = Some path
       /\ ((exists b,
              fst (_requestDownloadRun req st)
              = Ret (Py.VTuple [Py.VStr (Sha1.hexdigest b); Py.VStr path])
              /\ fs (snd (_requestDownloadRun req st)) = <[path := b]> (fs st))
           \/ ((exists e, fst (_requestDownloadRun req st) = Raise e)
               /\ fs (snd (_requestDownloadRun req st)) = base.delete path (fs st))
           \/ ((exists e, fst (_requestDownloadRun req st) = Raise e)
               /\ is_Some (fs st !! path)
               /\ exists b,
                    fs (snd (_requestDownloadRun req st)) = <[path := b]> (fs st))).
Proof.
  destruct (urlopen (attempts st) req 3 (_context (engine st))) as [res|e] eqn:Hres.
  2:{ left. by rewrite (downloadRun_raise _ _ _ Hres). }
  destruct (Py.truthy_str (header_get "content-length" (resp_headers res))) eqn:Hl.
  2:{ left. rewrite (downloadRun_missing _ _ _ Hres) by auto. done. }
  destruct (Py.truthy_str (header_get "x-checksum-sha1" (resp_headers res))) eqn:Hs.
  2:{ left. rewrite (downloadRun_missing _ _ _ Hres) by auto. done. }
  destruct (header_get "content-length" (resp_headers res)) as [len|] eqn:Hlen; [|done].
  destruct (header_get "x-checksum-sha1" (resp_headers res)) as [sha1|] eqn:Hsha; [|done].
  destruct (Py.int len) as [size|] eqn:Hint;
    [destruct (_out_func req) as [f|] eqn:Hf;
     [|destruct (_out_path req) as [path|] eqn:Hp]|].
  - left. unfold _requestDownloadRun, bind, do_urlopen. fold (attempts st).
    rewrite Hres, Hlen, Hsha, Hl, Hs, Hint, Hf. cbn. unfold lift.
    by destruct (f (resp_body res) size sha1).
  - assert (sha1 <> EmptyString) as Hne by (by destruct sha1).
    destruct (downloadRun_file _ _ _ _ _ _ _ Hres Hlen Hsha Hne Hint Hf Hp)
      as (cs & _ & [(_ & -> & _ & ->)|[(_ & _ & e & _ & _ & ->)
                   |[(Hold & c & _ & ->)|[(_ & _ & _ & cls & ->)
                   |(_ & _ & c & ->)]]]] & _).
    + right. exists path. split; [done|]. left. by exists (concat cs).
    + right. exists path. split; [done|]. right; left. split; [by eexists|done].
    + right. exists path. split; [done|]. do 2 right.
      split_and!; [by eexists|done|by exists (concat cs)].
    + right. exists path. split; [done|]. right; left. split; [by eexists|done].
    + by left.
  - left. unfold _requestDownloadRun, bind, do_urlopen. fold (attempts st).
    rewrite Hres, Hlen, Hsha, Hl, Hs, Hint, Hf. cbn.
    unfold try_except, bind, out_path. by rewrite Hp.
  - left. unfold _requestDownloadRun, bind, do_urlopen. fold (attempts st).
    by rewrite Hres, Hlen, Hsha, Hl, Hs, Hint.
Qed.

Lemma execute_download_files req n : forall st,
  (forall p, _out_path req <> Some p ->
     fs (snd (_requestExecute_from n req _requestDownloadRun st)) !! p = fs st !! p)
  /\ (forall p b, _out_path req = Some p -> fs st !! p = None ->
        fs (snd (_requestExecute_from n req _requestDownloadRun st)) !! p = Some b ->
        fst (_requestExecute_from n req _requestDownloadRun st)
        = Ret (Py.VTuple [Py.VStr (Sha1.hexdigest b); Py.VStr p])).
Proof.
  induction n as [|n IH]; intros st.
  { split; [done|]. intros p b _ Hnone. cbn. congruence. }
  rewrite execute_from_S.
  destruct (attempt_keeps _requestDownloadRun req st (downloadRun_engine req st))
    as [_ Hfs].
  pose proof (downloadRun_files req st) as Hrun.
  destruct (_requestDownloadRun req st) as [o st0] eqn:HR. cbn [fst snd] in *.
  assert (forall p, _out_path req <> Some p -> fs st0 !! p = fs st !! p) as Hother.
  { intros p Hp.
    destruct Hrun as [-> | (path & Hpath & [(b & _ & ->)|[[_ ->]
                                           |(_ & _ & b & ->)]])];
      [done| | |].
    - rewrite lookup_insert_ne; [done|]. congruence.
    - rewrite lookup_delete_ne; [done|]. congruence.
    - rewrite lookup_insert_ne; [done|]. congruence. }
  assert (forall p, _out_path req = Some p -> fs st !! p = None ->
            fs st0 !! p = None
            \/ exists b, o = Ret (Py.VTuple [Py.VStr (Sha1.hexdigest b); Py.VStr p])
                         /\ fs st0 !! p = Some b) as Hdest.
  { intros p Hp Hnone.
    destruct Hrun as [-> | (path & Hpath & [(b & -> & ->)|[[_ ->]
                                           |(_ & Hold & _)]])];
      [by left| | |].
    - assert (path = p) as -> by congruence. right. exists b.
      by rewrite lookup_insert_eq.
    - assert (path = p) as -> by congruence. left. apply lookup_delete_eq.
    - assert (path = p) as -> by congruence. rewrite Hnone in Hold.
      by destruct Hold. }
  clear Hrun.
  destruct o as [v|e].
  - rewrite (attempt_ret _ _ _ _ _ HR). cbn [fst snd]. split; [done|].
    intros p b Hp Hnone Hb.
    destruct (Hdest p Hp Hnone) as [Hn|(b' & [= ->] & Hb')]; congruence.
  - destruct (attempt req _requestDownloadRun st) as [[[v|]|e'] st1] eqn:Hatt;
      cbn [fst snd] in *.
    + split; [intros p Hp; rewrite Hfs; by apply Hother|].
      intros p b Hp Hnone Hb. rewrite Hfs in Hb.
      destruct (Hdest p Hp Hnone) as [Hn|(b' & [=] & _)]. congruence.
    + destruct (IH (retrying req st1)) as [IH1 IH2]. split.
      * intros p Hp. rewrite (IH1 p Hp). cbn. rewrite Hfs. by apply Hother.
      * intros p b Hp Hnone Hb. apply (IH2 p b Hp); [|done].
        cbn. rewrite Hfs.
        by destruct (Hdest p Hp Hnone) as [Hn|(b' & [=] & _)].
    + split; [intros p Hp; rewrite Hfs; by apply Hother|].
      intros p b Hp Hnone Hb. rewrite Hfs in Hb.
      destruct (Hdest p Hp Hnone) as [Hn|(b' & [=] & _)]. congruence.
Qed.

Lemma getCA_fs st : fs (snd (_getCA st)) = fs st.
Proof.
  rewrite getCA_cases. destruct (Py.truthy_bytes _); [done|]. cbv zeta.
  destruct (downloadDataFromBucket _ _ _) as [[|b bs]|]; try done.
  destruct (cadata_error _); [|done]. apply half_installed_counts.
Qed.


(** X19: [download] touches no file but its destination: every other
    path holds after the call what it held before, whatever the
    target and whatever happens. *)
Theorem download_touches_only_its_destination path out st p :
  out <> OutStr p ->
  fs (snd (download path out st)) !! p = fs st !! p.
Proof.
  intros Hout. pose proof (getCA_fs st) as Hfs.
  unfold download, bind. rewrite request_cases.
  destruct (_getCA st) as [[ok|e] st1]; cbn [fst snd] in *; [|congruence].
  destruct (negb ok || _); cbn [fst snd]; [cbn; congruence|].
  rewrite <- Hfs. apply (execute_download_files _ 3 st1).
  destruct out as [f|q|]; cbn; congruence.
Qed.

(** ** Uploads: the headers of [put] *)

Lemma put_request path stream size checksum st :
  trusted st ->
  _address (engine st) <> EmptyString ->
  exists req,
    put path stream size checksum st = _requestExecute req _requestExecuteRun st
    /\ full_url req = request_url (engine st) path
    /\ (plain_end path = true -> full_url req = url_of (engine st) path)
    /\ method req = "PUT"
    /\ data req = stream
    /\ headers req !! "Content-Length" = Some (Py.str_int size)
    /\ headers req !! "Content-Type" = Some "application/octet-stream"
    /\ headers req !! "X-Checksum-Sha1"
       = match checksum with
         | Some (String c s) => Some (String c s)
         | _ => None
         end.
Proof.
  intros Hca Haddr. unfold trusted in Hca.
  assert (_request path stream "PUT" st
          = (Ret (Some (built (engine st) path stream "PUT")), st)) as Hreq.
  { rewrite request_cases, getCA_cases, Hca. by rewrite (truthy_str_Some _ Haddr). }
  unfold put, bind. rewrite Hreq. eexists. split; [reflexivity|].
  assert (auth_headers (engine st) !! "Content-Length" = None
          /\ auth_headers (engine st) !! "Content-Type" = None
          /\ auth_headers (engine st) !! "X-Checksum-Sha1" = None) as (H1 & H2 & H3).
  { unfold auth_headers. destruct (String.eqb _ _); [done|].
    by rewrite !lookup_singleton_ne. }
  destruct checksum as [[|c s]|]; cbn -[Py.str_int request_url url_of plain_end];
    split_and!; try done; try apply request_url_plain; by simplify_map_eq.
Qed.

(** X21: on an engine with a cached bundle and an address, [put] runs
    the retry executor on a PUT request for the path that carries the
    stream as body, [Content-Length] set to the size it was given
    (whatever the stream holds), [Content-Type:
    application/octet-stream], and [X-Checksum-Sha1] only when a
    non-empty checksum was given. The header names are those the
    source passes to [add_header]; the URL is the one [Request]
    keeps, which is the URL of the path itself when the path ends in
    a character that is neither a blank nor ['#']. *)
Theorem put_headers path stream size checksum st :
  trusted st ->
  _address (engine st) <> EmptyString ->
  exists req,
    put path stream size checksum st = _requestExecute req _requestExecuteRun st
    /\ full_url req = request_url (engine st) path
    /\ (plain_end path = true -> full_url req = url_of (engine st) path)
    /\ method req = "PUT"
    /\ data req = stream
    /\ headers req !! "Content-Length" = Some (Py.str_int size)
    /\ headers req !! "Content-Type" = Some "application/octet-stream"
    /\ headers req !! "X-Checksum-Sha1"
       = match checksum with
         | Some (String c s) => Some (String c s)
         | _ => None
         end.
Proof. apply put_request. Qed.

(** X22: [taskConfigPut] uploads the JSON text of the configuration
    to [task/<task>/config]: the body is that text, the declared
    [Content-Length] is the number of characters of the text, and no
    [X-Checksum-Sha1] header is sent. *)
Theorem taskConfigPut_declares_text_length task config_data st :
  trusted st ->
  _address (engine st) <> EmptyString ->
  exists req,
    taskConfigPut task config_data st = _requestExecute req _requestExecuteRun st
    /\ full_url req = url_of (engine st) ("task/" +:+ task +:+ "/config")
    /\ method req = "PUT"
    /\ data req = Some (list_byte_of_string (json_dumps config_data))
    /\ headers req !! "Content-Length"
       = Some (Py.str_int (Z.of_nat (String.length (json_dumps config_data))))
    /\ headers req !! "X-Checksum-Sha1" = None.
Proof.
  intros Hca Haddr. unfold taskConfigPut. cbv zeta.
  destruct (put_request ("task/" +:+ task +:+ "/config")
              (Some (list_byte_of_string (json_dumps config_data)))
              (Z.of_nat (String.length (json_dumps config_data))) None st Hca Haddr)
    as (req & Hput & _ & Hu & Hm & Hd & Hl & _ & Hc).
  exists req. split_and!; try done.
  apply Hu. by do 2 apply plain_end_app.
Qed.

(** ** When the trust is reset, when the operations raise *)

Lemma executeRun_urlerror req st r st1 :
  _requestExecuteRun req st = (Raise (URLError r), st1) ->
  urlopen (attempts st) req (timeout_of req) (_context (engine st))
  = Raise (URLError r).
Proof.
  unfold _requestExecuteRun, bind, do_urlopen. fold (attempts st).
  fold (timeout_of req).
  destruct (urlopen _ _ _ _) as [res|e]; [|by intros [= -> _]].
  destruct (resp_json res) as [j|]; [|done].
  destruct j as [| | | | |d]; try done. cbn [json_get]. unfold ret at 1.
  destruct (Py.truthy _); cbn [negb].
  - by destruct (Py.assoc "data" d).
  - unfold ret at 1. rewrite print_fmt_api; [done|].
    destruct (Py.assoc "message" d); [apply operands_of_json|done].
Qed.

(** X23: a JSON call resets the trust only on a certificate
    verification failure: when no handshake of the call fails that
    way, HTTP errors, other network failures and malformed answers
    leave the engine, its cached bundle and its TLS context as they
    were. *)
Theorem trust_survives_other_failures req st :
  (forall i timeout ctx r,
     urlopen i req timeout ctx = Raise (URLError r) ->
     certificate_verify_failed r = false) ->
  engine (snd (_requestExecute req _requestExecuteRun st)) = engine st.
Proof.
  intros Hnocert. unfold _requestExecute. generalize 3%nat as n. intros n.
  revert st. induction n as [|n IH]; intros st; [done|].
  rewrite execute_from_S.
  pose proof (executeRun_engine req st) as He.
  destruct (_requestExecuteRun req st)
    as [[v|[code reason body|cls|r|cls]] st1] eqn:Hrun; cbn [fst snd] in *.
  - by rewrite (attempt_ret _ _ _ _ _ Hrun).
  - rewrite (attempt_http _ _ _ _ _ _ _ Hrun). by rewrite IH.
  - by rewrite (attempt_broken _ _ _ _ _ Hrun).
  - pose proof (Hnocert _ _ _ _ (executeRun_urlerror _ _ _ _ Hrun)) as Hc.
    destruct (reason_is_BrokenPipeError r && bool_decide (is_Some (data req)))
      eqn:Hb.
    + apply andb_prop in Hb as [Hb Hd]. apply bool_decide_eq_true in Hd.
      by rewrite (attempt_broken_pipe _ _ _ _ _ Hrun Hc Hb Hd).
    + by rewrite (attempt_network _ _ _ _ _ Hrun Hc Hb).
  - by rewrite (attempt_other _ _ _ _ _ Hrun).
Qed.

Lemma request_returns path data method st :
  (forall ca, cadata_error ca = None) ->
  exists r, fst (_request path data method st) = Ret r.
Proof.
  intros Hload. rewrite request_cases, getCA_cases.
  destruct (Py.truthy_bytes _).
  { destruct (negb true || _); by eexists. }
  cbv zeta. destruct (downloadDataFromBucket _ _ _) as [[|b bs]|];
    try (by eexists).
  rewrite Hload. destruct (negb true || _); by eexists.
Qed.

(** What the JSON executor raises and [urlopen] did not is an
    [OtherError]. *)
Lemma executeRun_broken req st cls :
  fst (_requestExecuteRun req st) = Raise (HTTPErrorBroken cls) ->
  urlopen (attempts st) req (timeout_of req) (_context (engine st))
  = Raise (HTTPErrorBroken cls).
Proof.
  unfold _requestExecuteRun, bind, do_urlopen. fold (attempts st).
  fold (timeout_of req).
  destruct (urlopen _ _ _ _) as [res|e]; [|by intros [= ->]].
  destruct (resp_json res) as [j|]; [|done].
  destruct j as [| | | | |d]; try done. cbn [json_get]. unfold ret at 1.
  destruct (Py.truthy _); cbn [negb].
  - by destruct (Py.assoc "data" d).
  - unfold ret at 1. rewrite print_fmt_api; [done|].
    destruct (Py.assoc "message" d); [apply operands_of_json|done].
Qed.

(** What an operation with the guard raises, once the bundle loads,
    is what the retry executor raises. *)
Lemma guarded_raises path data method (k : Request -> Request)
    (run_func : Request -> M Py.Val) st e :
  (forall ca, cadata_error ca = None) ->
  fst (match _request path data method st with
       | (Ret (Some req), st1) => _requestExecute (k req) run_func st1
       | (Ret None, st1) => (Ret Py.VNone, st1)
       | (Raise e, st1) => (Raise e, st1)
       end) = Raise e ->
  exists cls req st1,
    e = OtherError cls /\ fst (run_func req st1) = Raise (HTTPErrorBroken cls).
Proof.
  intros Hload. destruct (request_returns path data method st Hload) as [r Hr].
  destruct (_request path data method st) as [[[req|]|e'] st1]; cbn [fst] in *;
    [|done|done].
  intros He. destruct (execute_from_raises _ _ _ _ _ He) as (cls & st2 & -> & H & _).
  by exists cls, (k req), st2.
Qed.

(** X24: when the bundle loads, [get], [delete] and [download] raise
    nothing but the exception of the [except HTTPError] clause: one
    raised while the warning about an [HTTPError] is put together
    ([e.read(1024)] fails). For [get] and [delete] that [HTTPError]
    is one [urlopen] raised, and with a network that raises none such
    the two always return a value ([None] at worst), whatever the
    bucket and the network do otherwise. *)
Theorem reads_raise_only_in_the_http_clause st path out :
  (forall ca, cadata_error ca = None) ->
  (forall e, fst (get path st) = Raise e \/ fst (delete path st) = Raise e ->
     exists cls i req timeout ctx,
       e = OtherError cls
       /\ urlopen i req timeout ctx = Raise (HTTPErrorBroken cls))
  /\ (forall e, fst (download path out st) = Raise e ->
        exists cls req st1,
          e = OtherError cls
          /\ fst (_requestDownloadRun req st1) = Raise (HTTPErrorBroken cls))
  /\ ((forall i req timeout ctx cls,
         urlopen i req timeout ctx <> Raise (HTTPErrorBroken cls)) ->
      (exists v, fst (get path st) = Ret v)
      /\ (exists v, fst (delete path st) = Ret v)).
Proof.
  intros Hload.
  assert (forall e, fst (get path st) = Raise e \/ fst (delete path st) = Raise e ->
            exists cls i req timeout ctx,
              e = OtherError cls
              /\ urlopen i req timeout ctx = Raise (HTTPErrorBroken cls)) as Hjson.
  { intros e He.
    assert (exists cls req st1,
              e = OtherError cls
              /\ fst (_requestExecuteRun req st1) = Raise (HTTPErrorBroken cls))
      as (cls & req & st1 & -> & Hrun).
    { destruct He as [He|He].
      - apply (guarded_raises path None "GET" (fun r => r) _ st e Hload).
        rewrite <- He. unfold get, bind.
        by destruct (_request path None "GET" st) as [[[req|]|e'] st1].
      - apply (guarded_raises path None "DELETE" (fun r => r) _ st e Hload).
        rewrite <- He. unfold delete, bind.
        by destruct (_request path None "DELETE" st) as [[[req|]|e'] st1]. }
    exists cls, (attempts st1), req, (timeout_of req), (_context (engine st1)).
    split; [done|]. by apply executeRun_broken. }
  split_and!.
  - exact Hjson.
  - intros e He.
    apply (guarded_raises path None "GET"
             (fun req => match out with
                         | OutCallable f => set_out_func f req
                         | OutStr p => set_out_path p req
                         | OutOther => req
                         end) _ st e Hload).
    rewrite <- He. unfold download, bind.
    by destruct (_request path None "GET" st) as [[[req|]|e'] st1].
  - intros Hnone. split.
    + destruct (fst (get path st)) as [v|e] eqn:E; [by exists v|].
      destruct (Hjson e (or_introl eq_refl)) as (cls & i & req & t & ctx & _ & H).
      by destruct (Hnone i req t ctx cls).
    + destruct (fst (delete path st)) as [v|e] eqn:E; [by exists v|].
      destruct (Hjson e (or_intror eq_refl)) as (cls & i & req & t & ctx & _ & H).
      by destruct (Hnone i req t ctx cls).
Qed.

(** X25: a download whose target is neither a callable nor a string:
    the request is sent all the same; the missing [_out_path] then
    raises [AttributeError], in the transfer and again in its cleanup,
    and the call returns [None] after that one attempt, with no file
    touched. *)
Theorem download_without_target req st res len sha1 size n :
  urlopen (attempts st) req 3 (_context (engine st)) = Ret res ->
  header_get "content-length" (resp_headers res) = Some len ->
  header_get "x-checksum-sha1" (resp_headers res) = Some sha1 ->
  sha1 <> EmptyString ->
  Py.int len = Some size ->
  _out_func req = None ->
  _out_path req = None ->
  _requestExecute_from (S n) req _requestDownloadRun st
  = (Ret Py.VNone,
     log (EvPrint msg_exception [Py.VStr (full_url req); Py.VClass "AttributeError"])
         (requested req 3 st))
  /\ fs (snd (_requestExecute_from (S n) req _requestDownloadRun st)) = fs st.
Proof.
  intros Hres Hlen Hsha Hne Hint Hf Hp.
  assert (_requestDownloadRun req st
          = (Raise (OtherError "AttributeError"), requested req 3 st)) as Hrun.
  { unfold _requestDownloadRun, bind, do_urlopen. fold (attempts st).
    rewrite Hres, Hlen, Hsha.
    rewrite (truthy_str_Some len) by (by eapply int_nonempty).
    rewrite (truthy_str_Some sha1) by done. cbn [negb orb].
    rewrite Hint, Hf. cbn. unfold try_except, bind, out_path. by rewrite Hp. }
  rewrite execute_from_S, (attempt_other _ _ _ _ _ Hrun). done.
Qed.

(** ** From the constructor to the first answer *)

(** X26: the first [get] of a newly constructed engine, when the
    bucket holds a bundle that loads: the bundle is fetched once and
    cached, and the request goes out once, with the URL of the
    engine's endpoint as [Request] keeps it, in a context that
    requires verification, does not check the host name and has that
    bundle as its only CA; the call returns the [data] of the success
    envelope the Manager answers in such a context. *)
Theorem fresh_engine_first_get address cfg st0 path ca res d :
  address <> EmptyString ->
  downloadDataFromBucket (fetches st0) (bucket cfg) "ca.crt" = Some ca ->
  ca <> [] ->
  cadata_error ca = None ->
  (forall req ctx,
     ctx_cadata ctx = [ca] -> verify_required ctx = true ->
     check_hostname ctx = false ->
     urlopen (attempts st0) req 10 ctx = Ret res) ->
  resp_json res = Some (Py.JObj d) ->
  Py.truthy (match Py.assoc "success" d with
             | Some v => Py.of_json v
             | None => Py.VBool false
             end) = true ->
  let r := (__init__ address cfg ;;; get path) st0 in
  fst r = Ret (match Py.assoc "data" d with
               | Some v => Py.of_json v
               | None => Py.VBool true
               end)
  /\ fetches (snd r) = S (fetches st0)
  /\ attempts (snd r) = S (attempts st0)
  /\ _ca (engine (snd r)) = Some ca
  /\ exists ctx,
       head (trace (snd r))
       = Some (EvUrlopen
                 (Urllib.full_url
                    ("https://" +:+ address +:+ ":"
                     +:+ Py.str_int (listen_port cfg) +:+ "/api/v1/" +:+ path))
                 "GET" 10 ctx)
       /\ ctx_cadata ctx = [ca]
       /\ verify_required ctx = true
       /\ check_hostname ctx = false
       /\ (plain_end path = true ->
           head (trace (snd r))
           = Some (EvUrlopen ("https://" +:+ address +:+ ":"
                              +:+ Py.str_int (listen_port cfg)
                              +:+ "/api/v1/" +:+ path)
                             "GET" 10 ctx)).
Proof.
  intros Haddr Hf Hne Hok Hnet Hj Hs r.
  assert (exists st,
            engine st = {| _address := address; _cfg := cfg;
                           _context := set_check_hostname false
                                         (new_context (count is_new_context (trace st0)));
                           _ca := None |}
            /\ fetches st = fetches st0 /\ attempts st = attempts st0
            /\ r = get path st)
    as (st & He & Hfe & Hat & Hr).
  { by exists (snd (__init__ address cfg st0)). }
  clearbody r. subst r.
  assert (get path st
          = _requestExecute (built (engine (installed ca st)) path None "GET")
                            _requestExecuteRun (installed ca st)) as ->.
  { unfold get, bind. rewrite request_cases, getCA_cases.
    rewrite He at 1. cbn [_ca Py.truthy_bytes]. cbv zeta.
    rewrite Hfe. rewrite He at 1. cbn [_cfg]. rewrite Hf.
    destruct ca as [|b bs]; [done|]. rewrite Hok.
    cbn [installed engine _address]. rewrite He. cbn [_address].
    by rewrite (truthy_str_Some _ Haddr). }
  unfold _requestExecute. rewrite execute_from_S.
  set (req := built (engine (installed ca st)) path None "GET").
  assert (urlopen (attempts (installed ca st)) req (timeout_of req)
                  (_context (engine (installed ca st))) = Ret res) as Hres.
  { change (attempts (installed ca st)) with (attempts st). rewrite Hat.
    apply Hnet; cbn [installed engine _context]; by rewrite He. }
  rewrite (attempt_ret _ _ _ _ _ (executeRun_success _ _ _ _ Hres Hj Hs)).
  cbn [fst snd]. split_and!; try done.
  - change (fetches (requested req (timeout_of req) (installed ca st)))
      with (S (fetches st)). by rewrite Hfe.
  - change (attempts (requested req (timeout_of req) (installed ca st)))
      with (S (attempts st)). by rewrite Hat.
  - exists (_context (engine (installed ca st))).
    assert (full_url req
            = Urllib.full_url ("https://" +:+ address +:+ ":"
                               +:+ Py.str_int (listen_port cfg)
                               +:+ "/api/v1/" +:+ path)) as Hurl.
    { subst req. cbn [full_url built]. unfold request_url, url_of.
      cbn [installed engine _address _cfg]. by rewrite He. }
    cbn [requested log trace head]. rewrite Hurl.
    split_and!; try (by cbn [installed engine _context]; rewrite He).
    intros Hplain. do 2 f_equal. apply full_url_plain.
    by do 4 apply plain_end_app.
Qed.

End Engine.

(** ** The engine at concrete inputs *)

Import Sample.

(** C3, at a concrete input. The engine trusts an old CA; the Manager
    now presents a certificate signed by a new one, which the bucket
    already holds. [get] resets the trust after each failed handshake
    but never fetches the bundle again before it retries: the three
    attempts go out with a context that has no CA, each fails, three
    contexts are built, and the call returns [None]. Only the next call
    fetches and installs the new bundle, and succeeds. *)
Theorem C3_retry_is_sent_without_trust :
  let net := manager new_ca (json_response accepted) in
  let bkt := bucket_with new_ca in
  let st := trusting old_ca in
  let first := get bkt net any_cadata any_partial "status" st in
  fst first = Ret Py.VNone
  /\ attempts (snd first) = 3%nat
  /\ resets (snd first) = (resets st + 3)%nat
  /\ fetches (snd first) = fetches st
  /\ _ca (engine (snd first)) = None
  /\ ctx_cadata (_context (engine (snd first))) = []
  /\ fst (get bkt net any_cadata any_partial "status" (snd first)) = Ret (Py.VStr "ok").
Proof. vm_compute. repeat split; reflexivity. Qed.

(** C4, at a concrete input. No bundle is cached and the bucket holds
    none: [get], [delete] and [download] return [None], [put] raises
    [AttributeError]; none of them sends a request. *)
Theorem C4_put_raises_without_trust :
  let op_put := put empty_bucket (always (Ret (json_response accepted)))
                    any_cadata any_partial "task/t/config" (Some hello) 5 None fresh in
  let op_get := get empty_bucket (always (Ret (json_response accepted)))
                    any_cadata any_partial "status" fresh in
  let op_delete := delete empty_bucket (always (Ret (json_response accepted)))
                     any_cadata any_partial "task/t" fresh in
  let op_download := download empty_bucket (always (Ret (json_response accepted)))
                       any_cadata any_partial cooperative
                       "task/t/status/result/render" (OutStr "/tmp/r.exr") fresh in
  fst op_put = Raise (OtherError "AttributeError")
  /\ attempts (snd op_put) = O
  /\ fst op_get = Ret Py.VNone /\ attempts (snd op_get) = O
  /\ fst op_delete = Ret Py.VNone /\ attempts (snd op_delete) = O
  /\ fst op_download = Ret Py.VNone /\ attempts (snd op_download) = O.
Proof. vm_compute. repeat split; reflexivity. Qed.

(** C7, at a concrete input. The Manager answers with an envelope
    whose success is false and whose message is: no such task. [get] returns
    [None] after one attempt, without a retry; but the only line it
    prints is the catch-all one about a [TypeError], raised by the
    formatting of the API error line, and the envelope's message is
    printed nowhere. *)
Theorem C7_refusal_message_is_not_printed :
  let st := trusting old_ca in
  let r := get (bucket_with old_ca) (always (Ret (json_response refused)))
               any_cadata any_partial "task/t/run" st in
  fst r = Ret Py.VNone
  /\ attempts (snd r) = 1%nat
  /\ sleeps (snd r) = O
  /\ trace (snd r)
     = EvPrint msg_exception [Py.VStr "https://10.0.0.5:8443/api/v1/task/t/run";
                              Py.VClass "TypeError"]
       :: EvUrlopen "https://10.0.0.5:8443/api/v1/task/t/run" "GET" 10
            (_context (engine st))
       :: trace st.
Proof. vm_compute. repeat split; reflexivity. Qed.

(** C8: what the transfer returns is the pair (H, path), not H. *)
Lemma C8_returns_pair_not_digest :
  let res := file_response [("Content-Length", "5"); ("X-Checksum-Sha1", sha1_hello)]
                           hello in
  let req := request result_url "GET" None (Some "/tmp/r.exr") in
  let run := _requestDownloadRun (always (Ret res)) cooperative req (trusting old_ca) in
  Sha1.hexdigest hello = sha1_hello
  /\ Py.int "5" = Some (Z.of_nat (List.length hello))
  /\ fs (snd run) !! "/tmp/r.exr" = Some hello
  /\ fst run = Ret (Py.VTuple [Py.VStr sha1_hello; Py.VStr "/tmp/r.exr"])
  /\ fst run <> Ret (Py.VStr sha1_hello).
Proof. vm_compute. repeat split; try reflexivity. discriminate. Qed.

(** C1: where the directory does not let the process remove the
    file. A file stands at the destination and may be written; the body
    received does not hash to the declared checksum. The cleanup's
    [os.remove] is refused: the call returns [None], but no file was
    deleted, and afterward the destination holds the body that failed
    the check. *)
Lemma C1_undeletable_file_stays :
  let req := request result_url "GET" None (Some "/srv/out/r.exr") in
  let net := always (Ret (download_of "5" sha1_hello jello)) in
  let st := with_file "/srv/out/r.exr" hello (trusting old_ca) in
  let r := _requestExecute req (_requestDownloadRun net locked_directories) st in
  Sha1.hexdigest jello <> sha1_hello
  /\ fst r = Ret Py.VNone
  /\ fs (snd r) !! "/srv/out/r.exr" = Some jello
  /\ count (fun e => match e with EvRemove _ => true | _ => false end)
           (trace (snd r)) = O.
Proof. vm_compute. repeat split; try reflexivity. discriminate. Qed.

(** C8: a destination that cannot be opened (its directory refuses a
    new file): nothing is written and the call returns [None]. *)
Example unopenable_destination :
  let req := request result_url "GET" None (Some "/srv/out/r.exr") in
  let net := always (Ret (download_of "5" sha1_hello hello)) in
  let r := _requestExecute req (_requestDownloadRun net locked_directories)
                           (trusting old_ca) in
  fst r = Ret Py.VNone
  /\ fs (snd r) !! "/srv/out/r.exr" = None
  /\ writes_of (trace (snd r)) = [].
Proof. vm_compute. repeat split; reflexivity. Qed.

(** C9: a response without the checksum header is no failure the retry
    executor gets to classify. The transfer returns, it does not raise;
    what it returns is [False], not the [None] of the catch-all clause;
    and the only line printed is the transfer's own, not the catch-all's
    line about an exception. An exception that does reach the catch-all
    clause, as the [ValueError] of a length that is no number, gives
    that line and [None]. *)
Lemma C9_returns_False_unclassified :
  let req := request result_url "GET" None (Some "/tmp/r.exr") in
  let st := trusting old_ca in
  let net := always (Ret (file_response [("Content-Length", "5")] hello)) in
  let r := _requestExecute req (_requestDownloadRun net cooperative) st in
  let bad := always (Ret (download_of "five" sha1_hello hello)) in
  let r' := _requestExecute req (_requestDownloadRun bad cooperative) st in
  fst (_requestDownloadRun net cooperative req st) = Ret (Py.VBool false)
  /\ fst r = Ret (Py.VBool false)
  /\ fst r <> Ret Py.VNone
  /\ trace (snd r)
     = EvPrint msg_headers []
       :: EvUrlopen result_url "GET" 3 (_context (engine st)) :: trace st
  /\ fst r' = Ret Py.VNone
  /\ trace (snd r')
     = EvPrint msg_exception [Py.VStr result_url; Py.VClass "ValueError"]
       :: EvUrlopen result_url "GET" 3 (_context (engine st)) :: trace st.
Proof. vm_compute. repeat split; try reflexivity. discriminate. Qed.

(** ** The theorems at concrete inputs *)

Lemma C2_witness :
  let net := always (Raise (HTTPError 500 "Internal Server Error" [])) in
  let r := _requestExecute (request status_url "GET" None None)
                           (_requestExecuteRun net) (trusting old_ca) in
  fst r = Ret Py.VNone /\ attempts (snd r) = 3%nat /\ sleeps (snd r) = 3%nat.
Proof.
  apply (C2_at_most_three_attempts
           (always (Raise (HTTPError 500 "Internal Server Error" []))) cooperative
           (_requestExecuteRun (always (Raise (HTTPError 500 "Internal Server Error" []))))
           (request status_url "GET" None None) (trusting old_ca)).
  - left. reflexivity.
  - intros i timeout ctx Hi. exact I.
Defined.

Lemma C5_witness :
  let req := request "https://10.0.0.5:8443/api/v1/task/t/file/scene.blend" "PUT"
                     (Some hello) None in
  _requestExecute req (_requestExecuteRun (always (Raise broken_pipe))) (trusting old_ca)
  = (Ret (Py.VBool true), requested req 3 (trusting old_ca)).
Proof.
  apply (C5_broken_pipe_on_put_is_success
           (_requestExecuteRun (always (Raise broken_pipe)))
           (request "https://10.0.0.5:8443/api/v1/task/t/file/scene.blend" "PUT"
                    (Some hello) None)
           2 (trusting old_ca) _
           {| reason_str := "[Errno 32] Broken pipe"; reason_is_BrokenPipeError := true |}).
  - reflexivity.
  - reflexivity.
  - reflexivity.
  - exists hello. reflexivity.
Defined.

Lemma C6_witness :
  let req := request status_url "GET" None None in
  fst (_requestExecute req (_requestExecuteRun (always (Raise timed_out)))
         (trusting old_ca)) = Ret Py.VNone
  /\ attempts (snd (_requestExecute req (_requestExecuteRun (always (Raise timed_out)))
                      (trusting old_ca))) = 1%nat.
Proof.
  destruct (C6_other_network_failure_aborts
              (_requestExecuteRun (always (Raise timed_out)))
              (request status_url "GET" None None) (trusting old_ca)
              (requested (request status_url "GET" None None) 10 (trusting old_ca))
              {| reason_str := "timed out"; reason_is_BrokenPipeError := false |})
    as (Hr & Ha & _).
  - reflexivity.
  - reflexivity.
  - reflexivity.
  - split.
    + rewrite Hr. reflexivity.
    + rewrite Ha. reflexivity.
Defined.

Lemma C1_witness :
  let req := request result_url "GET" None (Some "/tmp/r.exr") in
  let net := always (Ret (download_of "5" sha1_hello jello)) in
  let r := _requestExecute req (_requestDownloadRun net cooperative) (trusting old_ca) in
  fst r = Ret Py.VNone
  /\ fs (snd r) !! "/tmp/r.exr" = None
  /\ attempts (snd r) = 1%nat.
Proof.
  destruct (C1_checksum_mismatch_removes_file
              (always (Ret (download_of "5" sha1_hello jello))) cooperative
              (request result_url "GET" None (Some "/tmp/r.exr")) (trusting old_ca)
              (download_of "5" sha1_hello jello) "5" sha1_hello 5 "/tmp/r.exr" 2)
    as (e & st' & _ & _ & _ & Hnone & Hgone & Hone & _).
  - reflexivity.
  - reflexivity.
  - reflexivity.
  - discriminate.
  - reflexivity.
  - reflexivity.
  - reflexivity.
  - left. reflexivity.
  - vm_compute. discriminate.
  - reflexivity.
  - unfold _requestExecute.
    split; [exact Hnone|]. split; [exact Hgone|exact Hone].
Defined.

Lemma C8_witness :
  let req := request result_url "GET" None (Some "/tmp/r.exr") in
  let net := always (Ret (download_of "5" sha1_hello hello)) in
  let r := _requestExecute req (_requestDownloadRun net cooperative) (trusting old_ca) in
  fst r = Ret (Py.VTuple [Py.VStr sha1_hello; Py.VStr "/tmp/r.exr"])
  /\ fs (snd r) !! "/tmp/r.exr" = Some hello.
Proof.
  destruct (C8_download_roundtrip
              (always (Ret (download_of "5" sha1_hello hello))) cooperative
              (request result_url "GET" None (Some "/tmp/r.exr")) (trusting old_ca)
              (download_of "5" sha1_hello hello) "5" "/tmp/r.exr" 2)
    as (st' & evs & _ & Hfile & _ & _ & Hexec).
  - reflexivity.
  - reflexivity.
  - reflexivity.
  - vm_compute. reflexivity.
  - reflexivity.
  - reflexivity.
  - reflexivity.
  - intros i c. reflexivity.
  - unfold _requestExecute. rewrite Hexec. cbn [fst snd].
    split; [vm_compute; reflexivity|exact Hfile].
Defined.

Lemma C9_witness :
  let req := request result_url "GET" None (Some "/tmp/r.exr") in
  let net := always (Ret (file_response [("Content-Length", "5")] hello)) in
  let r := _requestExecute req (_requestDownloadRun net cooperative) (trusting old_ca) in
  fst r = Ret (Py.VBool false) /\ attempts (snd r) = 1%nat /\ sleeps (snd r) = O.
Proof.
  destruct (C9_missing_download_headers
              (always (Ret (file_response [("Content-Length", "5")] hello))) cooperative
              (request result_url "GET" None (Some "/tmp/r.exr")) (trusting old_ca)
              (file_response [("Content-Length", "5")] hello) 2)
    as (_ & Hexec & Hone & Hsleep).
  - reflexivity.
  - right. reflexivity.
  - unfold _requestExecute. rewrite Hexec in *. cbn [fst snd] in *.
    split; [reflexivity|]. split; [exact Hone|exact Hsleep].
Defined.

Lemma C10_witness :
  let req := request result_url "GET" None (Some "/tmp/r.exr") in
  let net := always (Ret (download_of "3" sha1_hello hello)) in
  exists evs,
    trace (snd (_requestDownloadRun net cooperative req (trusting old_ca)))
    = evs ++ trace (trusting old_ca)
    /\ capped 3 (rev (writes_of evs))
    /\ forall p, Z.of_nat (written p evs) <= 3.
Proof.
  apply (C10_never_writes_more_than_declared
           (always (Ret (download_of "3" sha1_hello hello))) cooperative
           (request result_url "GET" None (Some "/tmp/r.exr")) (trusting old_ca)
           (download_of "3" sha1_hello hello) "3" 3).
  - reflexivity.
  - reflexivity.
  - reflexivity.
  - lia.
  - reflexivity.
Defined.

(** ** The building blocks on known values *)

Example sha1_abc :
  Sha1.hexdigest (list_byte_of_string "abc")
  = "a9993e364706816aba3e25717850c26c9cd0d89d".
Proof. vm_compute. reflexivity. Qed.

Example sha1_empty :
  Sha1.hexdigest [] = "da39a3ee5e6b4b0d3255bfef95601890afd80709".
Proof. vm_compute. reflexivity. Qed.

Example sha1_samples :
  Sha1.hexdigest hello = sha1_hello
  /\ Sha1.hexdigest jello = "2ced3ee86f82bf91c15cc30605df6d3ddf0769ff".
Proof. split; vm_compute; reflexivity. Qed.

Example b64_user_pass :
  Base64.b64encode (list_byte_of_string "user:pass") = "dXNlcjpwYXNz"
  /\ Base64.b64encode (list_byte_of_string "ab:c") = "YWI6Yw==".
Proof. split; vm_compute; reflexivity. Qed.

Example int_examples :
  Py.int "5" = Some 5 /\ Py.int " 7 " = Some 7 /\ Py.int "-2" = Some (-2)
  /\ Py.int "1_0" = Some 10 /\ Py.int EmptyString = None /\ Py.int "_1" = None
  /\ Py.int "1__0" = None /\ Py.int "0x1" = None /\ Py.int "12 3" = None.
Proof. repeat split; vm_compute; reflexivity. Qed.

(** The limit on the digits [int] reads: 4300 are read, 4301 are not,
    and leading zeros count. *)
Example int_digit_limit :
  is_Some (Py.int (N.iter 4300 (String "1") EmptyString))
  /\ Py.int (N.iter 4301 (String "1") EmptyString) = None
  /\ Py.int (N.iter 4300 (String "0") "12") = None.
Proof. repeat split; vm_compute; eauto. Qed.

Example str_int_examples :
  Py.str_int 8443 = "8443" /\ Py.str_int (-5) = "-5" /\ Py.str_int 0 = "0".
Proof. repeat split; vm_compute; reflexivity. Qed.

Example specifiers_examples :
  Py.specifiers msg_api = 2%nat /\ Py.specifiers msg_http = 4%nat
  /\ Py.specifiers msg_retry = 1%nat /\ Py.specifiers "100%% of %d" = 1%nat.
Proof. repeat split; reflexivity. Qed.

(** The sample states are those the engine reaches: construction, then
    the first fetch of the bundle. *)
Example sample_states :
  snd (__init__ "10.0.0.5" cfg {| engine := engine fresh; fs := ∅; trace := [] |})
  = fresh
  /\ _getCA (bucket_with old_ca) any_cadata any_partial fresh = (Ret true, trusting old_ca).
Proof. split; reflexivity. Qed.

(** A request as [_request] builds it. *)
Example request_built :
  fst (_request (bucket_with old_ca) any_cadata any_partial "status" None "GET" (trusting old_ca))
  = Ret (Some (add_header "Authorization" "Basic dXNlcjpwYXNz"
                 (request status_url "GET" None None))).
Proof. vm_compute. reflexivity. Qed.

(** Two HTTP errors, then an answer: the answer comes back after two
    sleeps. *)
Example third_attempt_succeeds :
  let net := fun n (_ : Request) (_ : Z) (_ : SSLContext) =>
               if (n <? 2)%nat then Raise (HTTPError 503 "Service Unavailable" [])
               else Ret (json_response accepted) in
  let r := get (bucket_with old_ca) net any_cadata any_partial "status" (trusting old_ca) in
  fst r = Ret (Py.VStr "ok") /\ attempts (snd r) = 3%nat /\ sleeps (snd r) = 2%nat.
Proof. vm_compute. repeat split; reflexivity. Qed.

(** With a network that fails the first handshake and then answers
    whatever the context holds, the retry loop does its part: one reset,
    one sleep, and the second attempt's answer comes back. *)
Example reset_then_answer :
  let net := first_fails cert_failure (json_response accepted) in
  let st := trusting old_ca in
  let r := get (bucket_with new_ca) net any_cadata any_partial "status" st in
  fst r = Ret (Py.VStr "ok")
  /\ attempts (snd r) = 2%nat
  /\ resets (snd r) = S (resets st)
  /\ sleeps (snd r) = 1%nat
  /\ fetches (snd r) = fetches st
  /\ ctx_cadata (_context (engine (snd r))) = [].
Proof. vm_compute. repeat split; reflexivity. Qed.

(** A broken pipe during [put] is reported as success. *)
Example put_broken_pipe :
  fst (put (bucket_with old_ca) (always (Raise broken_pipe)) any_cadata any_partial
           "task/t/file/scene.blend" (Some hello) 5 (Some sha1_hello) (trusting old_ca))
  = Ret (Py.VBool true).
Proof. vm_compute. reflexivity. Qed.

(** A connection that breaks in the middle of a download leaves no file
    behind. *)
Example broken_download_leaves_no_file :
  let res := {| resp_headers := [("Content-Length", "9"); ("X-Checksum-Sha1", sha1_hello)];
                resp_body := {| s_data := hello;
                                s_abort := Some (OtherError "ConnectionResetError") |};
                resp_json := None |} in
  let r := download (bucket_with old_ca) (always (Ret res)) any_cadata any_partial cooperative
                    "task/t/status/result/render" (OutStr "/tmp/r.exr") (trusting old_ca) in
  fst r = Ret Py.VNone /\ fs (snd r) !! "/tmp/r.exr" = None.
Proof. vm_compute. repeat split; reflexivity. Qed.

(** ** The further properties at concrete inputs *)

Import Fixture.

Lemma getCA_success_is_cached_witness :
  _getCA (bucket_with old_ca) any_cadata any_partial
         (snd (_getCA (bucket_with old_ca) any_cadata any_partial fresh))
  = (Ret true, snd (_getCA (bucket_with old_ca) any_cadata any_partial fresh))
  /\ (fetches (snd (_getCA (bucket_with old_ca) any_cadata any_partial fresh))
      <= S (fetches fresh))%nat.
Proof.
  apply (getCA_success_is_cached (bucket_with old_ca) any_cadata any_partial fresh).
  reflexivity.
Defined.

Lemma getCA_failure_is_not_cached_witness :
  fst (_getCA empty_bucket any_cadata any_partial fresh) = Ret false
  /\ _context (engine (snd (_getCA empty_bucket any_cadata any_partial fresh)))
     = _context (engine fresh)
  /\ Py.truthy_bytes
       (_ca (engine (snd (_getCA empty_bucket any_cadata any_partial fresh))))
     = false
  /\ fetches (snd (_getCA empty_bucket any_cadata any_partial fresh)) = S (fetches fresh)
  /\ fetches (snd (_getCA empty_bucket any_cadata any_partial
                          (snd (_getCA empty_bucket any_cadata any_partial fresh))))
     = S (S (fetches fresh)).
Proof.
  apply (getCA_failure_is_not_cached empty_bucket any_cadata any_partial fresh);
    reflexivity.
Defined.

Lemma getCA_installs_the_fetched_bundle_witness :
  _getCA (bucket_with new_ca) any_cadata any_partial fresh
  = (Ret true, installed new_ca fresh)
  /\ _ca (engine (installed new_ca fresh)) = Some new_ca
  /\ ctx_cadata (_context (engine (installed new_ca fresh)))
     = new_ca :: ctx_cadata (_context (engine fresh))
  /\ ctx_id (_context (engine (installed new_ca fresh)))
     = ctx_id (_context (engine fresh))
  /\ keeps (engine fresh) (engine (installed new_ca fresh))
  /\ fetches (installed new_ca fresh) = S (fetches fresh)
  /\ attempts (installed new_ca fresh) = attempts fresh.
Proof.
  apply (getCA_installs_the_fetched_bundle (bucket_with new_ca)
           any_cadata any_partial fresh new_ca);
    [reflexivity|reflexivity|discriminate|reflexivity].
Defined.

Lemma unloadable_bundle_raises_and_stays_cached_witness :
  let net := always (Ret (json_response accepted)) in
  let st' := half_installed (kept new_ca) new_ca fresh in
  _getCA (bucket_with new_ca) unloadable kept fresh
  = (Raise (OtherError "SSLError"), st')
  /\ get (bucket_with new_ca) net unloadable kept "status" fresh
     = (Raise (OtherError "SSLError"), st')
  /\ attempts st' = attempts fresh
  /\ _ca (engine st') = Some new_ca
  /\ _getCA (bucket_with new_ca) unloadable kept st' = (Ret true, st')
  /\ ctx_cadata (_context (engine st')) = [list_byte_of_string "CA-"].
Proof.
  apply (unloadable_bundle_raises_and_stays_cached (bucket_with new_ca)
           (always (Ret (json_response accepted))) unloadable kept fresh new_ca
           "SSLError" "status");
    [reflexivity|reflexivity|discriminate|reflexivity].
Defined.

Lemma request_of_trusted_engine_witness :
  _request (bucket_with old_ca) any_cadata any_partial "status" None "GET"
           (trusting old_ca)
  = (Ret (Some (built (engine (trusting old_ca)) "status" None "GET")),
     trusting old_ca)
  /\ headers (built (engine (trusting old_ca)) "status" None "GET")
     = {[ "Authorization" := "Basic dXNlcjpwYXNz" ]}.
Proof.
  destruct (request_of_trusted_engine (bucket_with old_ca) any_cadata any_partial
              "status" None "GET" (trusting old_ca))
    as (Hreq & _ & _ & Hauth); [reflexivity|discriminate|].
  split; [exact Hreq|]. rewrite Hauth; [reflexivity|].
  intros [Hu _]. discriminate Hu.
Defined.

Lemma request_without_address_witness :
  (forall r, fst (_request (bucket_with old_ca) any_cadata any_partial
                           "status" None "GET" no_address) = Ret r -> r = None)
  /\ attempts (snd (_request (bucket_with old_ca) any_cadata any_partial
                             "status" None "GET" no_address)) = attempts no_address
  /\ (Py.truthy_bytes (_ca (engine no_address)) = false ->
      fetches (snd (_request (bucket_with old_ca) any_cadata any_partial
                             "status" None "GET" no_address)) = S (fetches no_address)).
Proof.
  apply (request_without_address (bucket_with old_ca) any_cadata any_partial
           "status" None "GET" no_address).
  reflexivity.
Defined.

Lemma other_exception_aborts_witness :
  let req := request status_url "GET" None None in
  _requestExecute_from 3 req (fun _ => raise (OtherError "KeyError"))
                       (trusting old_ca)
  = (Ret Py.VNone,
     log (EvPrint msg_exception [Py.VStr status_url; Py.VClass "KeyError"])
         (trusting old_ca)).
Proof.
  apply (other_exception_aborts (fun _ => raise (OtherError "KeyError"))
           (request status_url "GET" None None) 2 (trusting old_ca)
           (trusting old_ca) "KeyError").
  reflexivity.
Defined.

Lemma malformed_body_gives_none_witness :
  let req := request status_url "GET" None None in
  let r := _requestExecute_from 3 req (_requestExecuteRun (always (Ret not_json)))
                                (trusting old_ca) in
  fst r = Ret Py.VNone
  /\ attempts (snd r) = S (attempts (trusting old_ca))
  /\ sleeps (snd r) = sleeps (trusting old_ca)
  /\ engine (snd r) = engine (trusting old_ca).
Proof.
  apply (malformed_body_gives_none (always (Ret not_json))
           (request status_url "GET" None None) 2 (trusting old_ca) not_json);
    [reflexivity|discriminate].
Defined.

Lemma success_envelope_returns_data_witness :
  let req := request status_url "GET" None None in
  _requestExecute_from 3 req
    (_requestExecuteRun (always (Ret (json_response accepted)))) (trusting old_ca)
  = (Ret (Py.VStr "ok"), requested req 10 (trusting old_ca)).
Proof.
  apply (success_envelope_returns_data (always (Ret (json_response accepted)))
           (request status_url "GET" None None) 2 (trusting old_ca)
           (json_response accepted)
           [("success", Py.JBool true); ("data", Py.JStr "ok")]);
    reflexivity.
Defined.

Lemma retry_then_success_witness :
  let req := request status_url "GET" None None in
  let net := first_fails unavailable (json_response accepted) in
  let r := _requestExecute req (_requestExecuteRun net) (trusting old_ca) in
  fst r = Ret (Py.VStr "ok")
  /\ attempts (snd r) = (attempts (trusting old_ca) + 1 + 1)%nat
  /\ sleeps (snd r) = (sleeps (trusting old_ca) + 1)%nat.
Proof.
  apply (retry_then_success (first_fails unavailable (json_response accepted))
           cooperative (request status_url "GET" None None) (trusting old_ca) 1
           (json_response accepted)
           [("success", Py.JBool true); ("data", Py.JStr "ok")]).
  - lia.
  - intros i timeout ctx Hi. assert (i = O) as -> by lia. exact I.
  - reflexivity.
  - reflexivity.
  - reflexivity.
Defined.

Lemma download_to_callback_witness :
  let req := set_out_func size_of (request result_url "GET" None None) in
  let net := always (Ret (download_of "5" sha1_hello hello)) in
  _requestDownloadRun net cooperative req (trusting old_ca)
  = (Ret (Py.VInt 5), requested req 3 (trusting old_ca)).
Proof.
  apply (download_to_callback (always (Ret (download_of "5" sha1_hello hello)))
           cooperative (set_out_func size_of (request result_url "GET" None None))
           (trusting old_ca) (download_of "5" sha1_hello hello) "5" sha1_hello 5
           size_of);
    [reflexivity|reflexivity|reflexivity|discriminate|reflexivity|reflexivity].
Defined.

Lemma download_with_unreadable_length_witness :
  let req := request result_url "GET" None (Some "/tmp/r.exr") in
  let net := always (Ret (download_of "5 bytes" sha1_hello hello)) in
  _requestExecute_from 3 req (_requestDownloadRun net cooperative) (trusting old_ca)
  = (Ret Py.VNone,
     log (EvPrint msg_exception [Py.VStr result_url; Py.VClass "ValueError"])
         (requested req 3 (trusting old_ca)))
  /\ fs (snd (_requestExecute_from 3 req (_requestDownloadRun net cooperative)
                                   (trusting old_ca)))
     = fs (trusting old_ca).
Proof.
  apply (download_with_unreadable_length
           (always (Ret (download_of "5 bytes" sha1_hello hello))) cooperative
           (request result_url "GET" None (Some "/tmp/r.exr")) (trusting old_ca)
           (download_of "5 bytes" sha1_hello hello) "5 bytes" sha1_hello 2);
    [reflexivity|reflexivity|reflexivity|discriminate|discriminate|reflexivity].
Defined.


Lemma download_touches_only_its_destination_witness :
  fs (snd (download (bucket_with old_ca)
                    (always (Ret (download_of "5" sha1_hello hello)))
                    any_cadata any_partial cooperative
                    "task/t/status/result/render" (OutStr "/tmp/r.exr")
                    (trusting old_ca))) !! "/tmp/other.exr"
  = fs (trusting old_ca) !! "/tmp/other.exr".
Proof.
  apply (download_touches_only_its_destination (bucket_with old_ca)
           (always (Ret (download_of "5" sha1_hello hello)))
           any_cadata any_partial cooperative
           "task/t/status/result/render" (OutStr "/tmp/r.exr") (trusting old_ca)
           "/tmp/other.exr").
  discriminate.
Defined.

Lemma put_headers_witness :
  let net := always (Ret (json_response accepted)) in
  exists req,
    put (bucket_with old_ca) net any_cadata any_partial "task/t/file/scene.blend"
        (Some hello) 5 (Some sha1_hello) (trusting old_ca)
    = _requestExecute req (_requestExecuteRun net) (trusting old_ca)
    /\ full_url req = "https://10.0.0.5:8443/api/v1/task/t/file/scene.blend"
    /\ (plain_end "task/t/file/scene.blend" = true ->
        full_url req = "https://10.0.0.5:8443/api/v1/task/t/file/scene.blend")
    /\ method req = "PUT"
    /\ data req = Some hello
    /\ headers req !! "Content-Length" = Some "5"
    /\ headers req !! "Content-Type" = Some "application/octet-stream"
    /\ headers req !! "X-Checksum-Sha1" = Some sha1_hello.
Proof.
  apply (put_headers (bucket_with old_ca) (always (Ret (json_response accepted)))
           any_cadata any_partial "task/t/file/scene.blend" (Some hello) 5
           (Some sha1_hello) (trusting old_ca));
    [reflexivity|discriminate].
Defined.

Lemma taskConfigPut_declares_text_length_witness :
  let net := always (Ret (json_response accepted)) in
  exists req,
    taskConfigPut (bucket_with old_ca) net any_cadata any_partial dumps "t"
                  (Py.VDict []) (trusting old_ca)
    = _requestExecute req (_requestExecuteRun net) (trusting old_ca)
    /\ full_url req = "https://10.0.0.5:8443/api/v1/task/t/config"
    /\ method req = "PUT"
    /\ data req = Some (list_byte_of_string "{}")
    /\ headers req !! "Content-Length" = Some "2"
    /\ headers req !! "X-Checksum-Sha1" = None.
Proof.
  apply (taskConfigPut_declares_text_length (bucket_with old_ca)
           (always (Ret (json_response accepted))) any_cadata any_partial dumps "t"
           (Py.VDict []) (trusting old_ca));
    [reflexivity|discriminate].
Defined.

Lemma trust_survives_other_failures_witness :
  let req := request status_url "GET" None None in
  engine (snd (_requestExecute req (_requestExecuteRun (always (Raise timed_out)))
                               (trusting old_ca)))
  = engine (trusting old_ca).
Proof.
  apply (trust_survives_other_failures (always (Raise timed_out))
           (request status_url "GET" None None) (trusting old_ca)).
  intros i timeout ctx r [= <-]. reflexivity.
Defined.

Lemma reads_raise_only_in_the_http_clause_witness :
  let net := unreadable_errors in
  fst (get (bucket_with old_ca) net any_cadata any_partial "status" fresh)
  = Raise (OtherError "IncompleteRead")
  /\ (forall e,
        fst (download (bucket_with old_ca) net any_cadata any_partial cooperative
                      "task/t/status/result/render" (OutStr "/tmp/r.exr") fresh)
        = Raise e ->
        exists cls req st1,
          e = OtherError cls
          /\ fst (_requestDownloadRun net cooperative req st1)
             = Raise (HTTPErrorBroken cls))
  /\ ((forall i req timeout ctx cls,
         always (Raise timed_out) i req timeout ctx <> Raise (HTTPErrorBroken cls)) ->
      exists v,
        fst (get (bucket_with old_ca) (always (Raise timed_out))
                 any_cadata any_partial "status" fresh) = Ret v).
Proof.
  split; [reflexivity|]. split.
  - apply (reads_raise_only_in_the_http_clause (bucket_with old_ca) unreadable_errors
             any_cadata any_partial cooperative fresh
             "task/t/status/result/render" (OutStr "/tmp/r.exr")).
    reflexivity.
  - intros Hnone.
    apply (reads_raise_only_in_the_http_clause (bucket_with old_ca)
             (always (Raise timed_out)) any_cadata any_partial cooperative fresh
             "status" (OutStr "/tmp/r.exr")); [reflexivity|exact Hnone].
Defined.

Lemma download_without_target_witness :
  let req := request result_url "GET" None None in
  let net := always (Ret (download_of "5" sha1_hello hello)) in
  _requestExecute_from 3 req (_requestDownloadRun net cooperative) (trusting old_ca)
  = (Ret Py.VNone,
     log (EvPrint msg_exception [Py.VStr result_url; Py.VClass "AttributeError"])
         (requested req 3 (trusting old_ca)))
  /\ fs (snd (_requestExecute_from 3 req (_requestDownloadRun net cooperative)
                                   (trusting old_ca)))
     = fs (trusting old_ca).
Proof.
  apply (download_without_target
           (always (Ret (download_of "5" sha1_hello hello))) cooperative
           (request result_url "GET" None None) (trusting old_ca)
           (download_of "5" sha1_hello hello) "5" sha1_hello 5 2);
    [reflexivity|reflexivity|reflexivity|discriminate|reflexivity|reflexivity
    |reflexivity].
Defined.

Lemma fresh_engine_first_get_witness :
  let net := always (Ret (json_response accepted)) in
  let r := (__init__ "10.0.0.5" cfg ;;;
            get (bucket_with new_ca) net any_cadata any_partial "status") blank in
  fst r = Ret (Py.VStr "ok")
  /\ fetches (snd r) = 1%nat
  /\ attempts (snd r) = 1%nat
  /\ _ca (engine (snd r)) = Some new_ca
  /\ exists ctx,
       head (trace (snd r)) = Some (EvUrlopen status_url "GET" 10 ctx)
       /\ ctx_cadata ctx = [new_ca]
       /\ verify_required ctx = true
       /\ check_hostname ctx = false
       /\ (plain_end "status" = true ->
           head (trace (snd r)) = Some (EvUrlopen status_url "GET" 10 ctx)).
Proof.
  apply (fresh_engine_first_get (bucket_with new_ca)
           (always (Ret (json_response accepted))) any_cadata any_partial
           "10.0.0.5" cfg blank "status" new_ca (json_response accepted)
           [("success", Py.JBool true); ("data", Py.JStr "ok")]);
    [discriminate|reflexivity|discriminate|reflexivity|reflexivity|reflexivity
    |reflexivity].
Defined.

(** An HTTP error whose body cannot be read: the exception of the read
    leaves [get], after the one request, with nothing printed. *)
Example unreadable_error_escapes :
  let r := get (bucket_with old_ca) unreadable_errors any_cadata any_partial
               "status" (trusting old_ca) in
  fst r = Raise (OtherError "IncompleteRead")
  /\ attempts (snd r) = 1%nat
  /\ trace (snd r)
     = EvUrlopen status_url "GET" 10 (_context (engine (trusting old_ca)))
       :: trace (trusting old_ca).
Proof. vm_compute. repeat split; reflexivity. Qed.

(** What [Request] keeps of a URL. *)
Example full_url_examples :
  Urllib.full_url "https://h:1/api/v1/frame_#" = "https://h:1/api/v1/frame_"
  /\ Urllib.full_url "https://h:1/api/v1/frame_####.png"
     = "https://h:1/api/v1/frame_####.png"
  /\ Urllib.full_url "https://h:1/api/v1/a b " = "https://h:1/api/v1/a b"
  /\ Urllib.full_url "https://h:1/api/v1/a## " = "https://h:1/api/v1/a#"
  /\ Urllib.full_url " <URL: http://a/b#c > " = "http://a/b#c".
Proof. repeat split; reflexivity. Qed.
